(** * Ledger: the financial analysis core, embedded and verified

    A shallow embedding of [src/lib/analyzer.ts], [src/lib/subscriptions.ts],
    [src/lib/categories.ts] and the [sanitizeForAI] helper of
    [src/lib/plaid.ts], followed by the properties the specification states
    about them.

    Numbers.  A JavaScript [number] is modelled by [number]: a rational, or
    one of [Infinity], [-Infinity], [NaN].  Arithmetic on finite values is
    exact (no rounding, no overflow); the non-finite values follow IEEE 754:
    [x / 0] is an infinity or [NaN], comparisons with [NaN] are false.
    [-0] is identified with [0].  [Math.sqrt] is an engine builtin that is
    only specified up to an approximation; the definitions that call it take
    it as a parameter and every theorem holds for any implementation of it.

    Dates.  Plaid dates are calendar days (["YYYY-MM-DD"]); [new Date(d)] is
    then UTC midnight of that day.  A transaction stores the day number since
    the epoch and [getTime] multiplies it by the milliseconds of a day.

    Text.  Strings are ASCII strings of the standard library.  A template
    literal that formats a number with [toFixed] is kept as the list of its
    pieces ([text]), so that no decimal printing has to be modelled. *)

From Stdlib Require Import ZArith QArith Qround Qabs Lia Lqa Bool List.
From Stdlib Require Import Ascii String Sorting.Sorted Sorting.Permutation.
Import ListNotations.

Set Implicit Arguments.

(* ================================================================== *)
(** * JavaScript numbers *)
(* ================================================================== *)

Module Num.

Local Open Scope Q_scope.

Inductive number : Type :=
| Fin (q : Q)
| PosInf
| NegInf
| NaN.

Definition Qltb (a b : Q) : bool := negb (Qle_bool b a).

Definition zero : number := Fin 0.

(** Equality of values: two finite numbers are the same value when the
    rationals are equal as fractions. *)
Definition num_eq (x y : number) : Prop :=
  match x, y with
  | Fin a, Fin b => a == b
  | PosInf, PosInf | NegInf, NegInf | NaN, NaN => True
  | _, _ => False
  end.

Definition num_eqb (x y : number) : bool :=
  match x, y with
  | Fin a, Fin b => Qeq_bool a b
  | PosInf, PosInf | NegInf, NegInf | NaN, NaN => true
  | _, _ => false
  end.


Definition is_nan (x : number) : bool :=
  match x with NaN => true | _ => false end.

(** [-x] *)
Definition neg (x : number) : number :=
  match x with
  | Fin a => Fin (- a)
  | PosInf => NegInf
  | NegInf => PosInf
  | NaN => NaN
  end.

(** [x + y] *)
Definition add (x y : number) : number :=
  match x, y with
  | NaN, _ | _, NaN => NaN
  | Fin a, Fin b => Fin (a + b)
  | PosInf, NegInf | NegInf, PosInf => NaN
  | PosInf, _ | _, PosInf => PosInf
  | NegInf, _ | _, NegInf => NegInf
  end.

(** [x - y] *)
Definition sub (x y : number) : number := add x (neg y).

(** The sign of an infinity multiplied or divided by a finite value. *)
Definition signed_inf (positive : bool) : number :=
  if positive then PosInf else NegInf.

(** [x * y] *)
Definition mul (x y : number) : number :=
  match x, y with
  | NaN, _ | _, NaN => NaN
  | Fin a, Fin b => Fin (a * b)
  | Fin a, PosInf | PosInf, Fin a =>
      if Qeq_bool a 0 then NaN else signed_inf (Qltb 0 a)
  | Fin a, NegInf | NegInf, Fin a =>
      if Qeq_bool a 0 then NaN else signed_inf (Qltb a 0)
  | PosInf, PosInf | NegInf, NegInf => PosInf
  | PosInf, NegInf | NegInf, PosInf => NegInf
  end.

(** [x / y]; a finite zero divisor is [+0]. *)
Definition div (x y : number) : number :=
  match x, y with
  | NaN, _ | _, NaN => NaN
  | Fin a, Fin b =>
      if Qeq_bool b 0
      then (if Qeq_bool a 0 then NaN else signed_inf (Qltb 0 a))
      else Fin (a / b)
  | Fin _, PosInf | Fin _, NegInf => Fin 0
  | PosInf, Fin b => signed_inf (Qle_bool 0 b)
  | NegInf, Fin b => signed_inf (negb (Qle_bool 0 b))
  | _, _ => NaN
  end.

(** [x < y], [x > y], [x <= y], [x >= y]: false as soon as one side is
    [NaN]. *)
Definition ltb (x y : number) : bool :=
  match x, y with
  | Fin a, Fin b => Qltb a b
  | NegInf, Fin _ | NegInf, PosInf | Fin _, PosInf => true
  | _, _ => false
  end.

Definition leb (x y : number) : bool :=
  match x, y with
  | Fin a, Fin b => Qle_bool a b
  | NaN, _ | _, NaN => false
  | NegInf, _ | _, PosInf => true
  | _, _ => false
  end.

Definition gtb (x y : number) : bool := ltb y x.
Definition geb (x y : number) : bool := leb y x.

(** [Math.abs(x)] *)
Definition Math_abs (x : number) : number :=
  match x with
  | Fin a => Fin (Qabs a)
  | PosInf | NegInf => PosInf
  | NaN => NaN
  end.

(** [Math.max(x, y)] and [Math.min(x, y)]: [NaN] if either argument is. *)
Definition Math_max (x y : number) : number :=
  match x, y with
  | NaN, _ | _, NaN => NaN
  | _, _ => if ltb x y then y else x
  end.

Definition Math_min (x y : number) : number :=
  match x, y with
  | NaN, _ | _, NaN => NaN
  | _, _ => if ltb y x then y else x
  end.

(** [Math.max(...xs)] and [Math.min(...xs)]: the builtins start from
    [-Infinity] and [Infinity]. *)
Definition Math_max_of (xs : list number) : number :=
  fold_left Math_max xs NegInf.

Definition Math_min_of (xs : list number) : number :=
  fold_left Math_min xs PosInf.

(** [Math.round(x)]: [floor(x + 0.5)]. *)
Definition Math_round (x : number) : number :=
  match x with
  | Fin a => Fin (inject_Z (Qfloor (a + (1 # 2))))
  | _ => x
  end.

(** [Math.pow(x, 2)] *)
Definition Math_pow2 (x : number) : number := mul x x.

(** [xs.reduce((sum, v) => sum + v, 0)] *)
Definition sum_of (xs : list number) : number := fold_left add xs zero.

(** A square root on the rationals that is exact on squares and rounds
    down elsewhere; it instantiates [Math.sqrt] when a definition is run on
    the examples below. *)
Definition sqrt_down (x : number) : number :=
  match x with
  | Fin a =>
      if Qltb a 0 then NaN
      else Fin (Z.sqrt (Qnum a * Zpos (Qden a)) # Qden a)
  | PosInf => PosInf
  | NegInf | NaN => NaN
  end.

End Num.

Export Num.

Declare Scope num_scope.
Delimit Scope num_scope with num.
Bind Scope num_scope with number.
Infix "+" := add : num_scope.
Infix "-" := sub : num_scope.
Infix "*" := mul : num_scope.
Infix "/" := div : num_scope.
Infix "<?" := ltb : num_scope.
Infix "<=?" := leb : num_scope.
Infix ">?" := gtb : num_scope.
Infix ">=?" := geb : num_scope.
Infix "==" := num_eq (at level 70, no associativity) : num_scope.

(** Decimal literals of the sources. *)
Definition num (n : Z) : number := Fin (inject_Z n).
Definition dec (n : Z) (d : positive) : number := Fin (n # d).

Local Open Scope string_scope.
Local Open Scope list_scope.

(* ================================================================== *)
(** * Builtins of arrays, maps and strings *)
(* ================================================================== *)

Module JS.

(** [xs.sort(cmp)]: the sort of ECMAScript is stable; for a comparator
    that is consistent the result is the one stable arrangement, which
    insertion from the right computes.  A comparator result that is not
    positive ([NaN] included) leaves the earlier element first. *)
Fixpoint sort_insert {A : Type} (cmp : A -> A -> number) (x : A)
    (l : list A) : list A :=
  match l with
  | [] => [x]
  | y :: l' =>
      if (cmp x y >? zero)%num then y :: sort_insert cmp x l'
      else x :: l
  end.

Definition Array_sort {A : Type} (cmp : A -> A -> number) (l : list A)
    : list A :=
  fold_right (sort_insert cmp) [] l.

(** [xs.some(p)], [xs.includes(s)] on an array of strings. *)
Definition Array_includes (xs : list string) (s : string) : bool :=
  existsb (String.eqb s) xs.

(** A [Map<string, V[]>] keeps its keys in insertion order.  [Map_push k v m]
    is the idiom
    [if (!m.has(k)) m.set(k, []); m.get(k).push(v)]. *)
Definition Map (V : Type) : Type := list (string * list V).

Fixpoint Map_push {V : Type} (k : string) (v : V) (m : Map V) : Map V :=
  match m with
  | [] => [(k, [v])]
  | (k', vs) :: m' =>
      if String.eqb k' k then (k', vs ++ [v]) :: m'
      else (k', vs) :: Map_push k v m'
  end.

Fixpoint Map_get {V : Type} (k : string) (m : Map V) : option (list V) :=
  match m with
  | [] => None
  | (k', vs) :: m' => if String.eqb k' k then Some vs else Map_get k m'
  end.

(** Characters. *)
Definition is_upper (c : ascii) : bool :=
  let n := nat_of_ascii c in (65 <=? n)%nat && (n <=? 90)%nat.

Definition is_lower (c : ascii) : bool :=
  let n := nat_of_ascii c in (97 <=? n)%nat && (n <=? 122)%nat.

Definition is_digit (c : ascii) : bool :=
  let n := nat_of_ascii c in (48 <=? n)%nat && (n <=? 57)%nat.

(** The class [\s] on ASCII: tab, line feed, vertical tab, form feed,
    carriage return, space. *)
Definition is_space (c : ascii) : bool :=
  let n := nat_of_ascii c in
  ((9 <=? n)%nat && (n <=? 13)%nat) || (n =? 32)%nat.

Definition lower_char (c : ascii) : ascii :=
  if is_upper c then ascii_of_nat (nat_of_ascii c + 32) else c.

(** [s.toLowerCase()] *)
Fixpoint toLowerCase (s : string) : string :=
  match s with
  | EmptyString => EmptyString
  | String c s' => String (lower_char c) (toLowerCase s')
  end.

(** [s.replace(/[^a-z0-9\s]/g, '')] *)
Fixpoint strip_non_alnum (s : string) : string :=
  match s with
  | EmptyString => EmptyString
  | String c s' =>
      if is_lower c || is_digit c || is_space c
      then String c (strip_non_alnum s')
      else strip_non_alnum s'
  end.

(** [s.replace(/\s+/g, ' ')]: [in_run] tells that the previous character
    was white space, already replaced. *)
Fixpoint collapse_spaces_from (in_run : bool) (s : string) : string :=
  match s with
  | EmptyString => EmptyString
  | String c s' =>
      if is_space c
      then (if in_run then collapse_spaces_from true s'
            else String " "%char (collapse_spaces_from true s'))
      else String c (collapse_spaces_from false s')
  end.

Definition collapse_spaces (s : string) : string :=
  collapse_spaces_from false s.

(** [s.trim()] *)
Fixpoint trim_start (s : string) : string :=
  match s with
  | EmptyString => EmptyString
  | String c s' => if is_space c then trim_start s' else s
  end.

Fixpoint trim_end (s : string) : string :=
  match s with
  | EmptyString => EmptyString
  | String c s' =>
      match trim_end s' with
      | EmptyString => if is_space c then EmptyString else String c EmptyString
      | r => String c r
      end
  end.

Definition trim (s : string) : string := trim_end (trim_start s).

(** [s.split(' ')]: never empty, [''.split(' ')] is [['']]. *)
Fixpoint split_space (s : string) : list string :=
  match s with
  | EmptyString => [EmptyString]
  | String c s' =>
      if Ascii.eqb c " "%char then EmptyString :: split_space s'
      else match split_space s' with
           | [] => [String c EmptyString]
           | w :: ws => String c w :: ws
           end
  end.

(** [ws.join(' ')] *)
Fixpoint join_space (ws : list string) : string :=
  match ws with
  | [] => EmptyString
  | [w] => w
  | w :: ws' => w ++ " " ++ join_space ws'
  end.

(** [s.includes(sub)] *)
Fixpoint String_includes (s sub : string) : bool :=
  String.prefix sub s ||
  match s with
  | EmptyString => false
  | String _ s' => String_includes s' sub
  end.

(** [s.replace(/_/g, ' ')] *)
Fixpoint underscores_to_spaces (s : string) : string :=
  match s with
  | EmptyString => EmptyString
  | String c s' =>
      String (if Ascii.eqb c "_"%char then " "%char else c)
             (underscores_to_spaces s')
  end.

End JS.

Export JS.

(* ================================================================== *)
(** * The data of the banking provider *)
(* ================================================================== *)

Module PlaidTypes.

Record PersonalFinanceCategory : Type := {
  primary : string;
  detailed : string;
  confidence_level : option string
}.

(** The fields of a provider transaction that the repository reads, with
    the account fields that must stay private.  [recurring] is the untyped
    flag read by the subscription detector; [date] is the day number of the
    calendar day. *)
Record Transaction : Type := {
  transaction_id : string;
  account_id : string;
  account_owner : option string;
  date : Z;
  amount : number;
  name : string;
  merchant_name : option string;
  pending : bool;
  personal_finance_category : option PersonalFinanceCategory;
  recurring : option bool
}.

Record AccountBase : Type := {
  acc_account_id : string;
  acc_name : string;
  acc_mask : option string;
  acc_balance_current : option number
}.

(** [1000 * 60 * 60 * 24] *)
Definition msPerDay : number := num (1000 * 60 * 60 * 24).

(** [new Date(t.date).getTime()] *)
Definition getTime_of_day (d : Z) : number := num (d * 86400000).
Definition getTime (t : Transaction) : number := getTime_of_day (date t).

(** [pfc?.primary] as a truthy test: the classification is there and its
    primary code is not the empty string. *)
Definition primary_of (pfc : option PersonalFinanceCategory) : option string :=
  match pfc with
  | Some c => if String.eqb (primary c) "" then None else Some (primary c)
  | None => None
  end.

End PlaidTypes.

Export PlaidTypes.

(** A template literal: literal text and numbers printed by
    [x.toFixed(digits)]. *)
Inductive piece : Type :=
| Lit (s : string)
| Fixed (digits : nat) (x : number).

Definition text : Type := list piece.

(* ================================================================== *)
(** * [src/lib/categories.ts] *)
(* ================================================================== *)

Module Categories.

Definition mapping : list (string * string) :=
  [ ("FOOD_RETAIL", "Groceries");
    ("FOOD_AND_DRINK", "Food & Drink");
    ("DINING", "Dining");
    ("ENTERTAINMENT", "Entertainment");
    ("TRANSPORTATION", "Transportation");
    ("GENERAL_MERCHANDISE", "Shopping");
    ("GENERAL_SERVICES", "Services");
    ("RENT_AND_UTILITIES", "Bills & Utilities");
    ("MEDICAL", "Healthcare");
    ("PERSONAL_CARE", "Personal Care");
    ("BANK_FEES", "Fees");
    ("TRANSFER_IN", "Income");
    ("TRANSFER_OUT", "Transfers");
    ("LOAN_PAYMENTS", "Loan Payments");
    ("HOME_IMPROVEMENT", "Home & Garden");
    ("GOVERNMENT_AND_NON_PROFIT", "Government & Non-Profit");
    ("TRAVEL", "Travel");
    ("INCOME", "Income") ].

Fixpoint lookup (k : string) (table : list (string * string))
    : option string :=
  match table with
  | [] => None
  | (k', v) :: table' => if String.eqb k' k then Some v else lookup k table'
  end.

(** [mapping[pfc.primary] || pfc.primary.replace(/_/g, ' ')]; the table is
    read at primary codes of the provider's taxonomy, which are no names of
    [Object.prototype]. *)
Definition mapPFCToFriendly (pfc : option PersonalFinanceCategory) : string :=
  match primary_of pfc with
  | None => "Other"
  | Some p =>
      match lookup p mapping with
      | Some friendly => friendly
      | None => underscores_to_spaces p
      end
  end.

Definition subscriptionCategories : list string :=
  [ "ENTERTAINMENT"; "RENT_AND_UTILITIES"; "GENERAL_SERVICES" ].

Definition isSubscriptionCategory (pfc : option PersonalFinanceCategory)
    : bool :=
  match primary_of pfc with
  | None => false
  | Some p => Array_includes subscriptionCategories p
  end.

Definition excludedCategories : list string :=
  [ "FOOD_RETAIL"; "FOOD_AND_DRINK"; "DINING"; "TRANSPORTATION";
    "GENERAL_MERCHANDISE"; "TRAVEL"; "MEDICAL"; "PERSONAL_CARE" ].

Definition isNonSubscriptionCategory (pfc : option PersonalFinanceCategory)
    : bool :=
  match primary_of pfc with
  | None => false
  | Some p => Array_includes excludedCategories p
  end.

End Categories.

(* ================================================================== *)
(** * [src/lib/plaid.ts]: [sanitizeForAI] *)
(* ================================================================== *)

Module Plaid.

(** The object literal that [sanitizeForAI] returns. *)
Record Sanitized : Type := {
  transaction_id : string;
  date : Z;
  amount : number;
  merchant : string;
  category : string
}.

Definition sanitizeForAI (transaction : Transaction) : Sanitized :=
  let pfc := personal_finance_category transaction in
  {| transaction_id := PlaidTypes.transaction_id transaction;
     date := PlaidTypes.date transaction;
     amount := PlaidTypes.amount transaction;
     merchant := name transaction;
     category := match primary_of pfc with
                 | Some p => p
                 | None => "Other"
                 end |}.

(** [s.slice(-n)]: the last [n] characters, the whole string when it is
    shorter. *)
Definition slice_last (n : nat) (s : string) : string :=
  substring (String.length s - n) n s.

(** [maskAccountNumber]: [None] is [null] or [undefined]; the empty string
    is falsy as well. *)
Definition maskAccountNumber (accountNumber : option string) : string :=
  match accountNumber with
  | None => "N/A"
  | Some s =>
      if String.eqb s "" then "N/A"
      else if (String.length s <=? 4)%nat then "****"
      else "****" ++ slice_last 4 s
  end.

End Plaid.

(* ================================================================== *)
(** * [src/lib/analyzer.ts] *)
(* ================================================================== *)

Module Analyzer.

Import Categories.

Inductive Pattern : Type := biweekly | monthly | irregular | weekly.
Inductive Trend : Type := increasing | decreasing | stable.
Inductive Status : Type := healthy | warning | critical.
Inductive InsightType : Type :=
  high_spending | subscription | cash_flow | positive | goal.
Inductive Severity : Type := info | sev_warning | sev_critical.

Record Paycheck : Type := {
  pay_amount : number;
  pay_date : Z
}.

Record IncomeAnalysis : Type := {
  totalIncome : number;
  averageMonthly : number;
  isVariable : bool;
  variability : number;
  pattern : Pattern;
  lastPaycheck : option Paycheck;
  incomeTransactions : list Transaction
}.

Record CategorySpending : Type := {
  category : string;
  total : number;
  count : number;
  average : number;
  percentage : number;
  trend : Trend;
  transactions : list Transaction
}.

Record CashFlowHealth : Type := {
  score : number;
  status : Status;
  message : text;
  incomeToSpendingRatio : number
}.

Record SpendingInsight : Type := {
  type : InsightType;
  title : string;
  description : text;
  impact : text;
  actionable : list string;
  severity : Severity
}.

Record Spending : Type := {
  sp_total : number;
  byCategory : list CategorySpending;
  topCategories : list CategorySpending;
  dailyAverage : number
}.

Record Balance : Type := {
  current : number;
  bal_trend : Trend
}.

Record FinancialAnalysis : Type := {
  income : IncomeAnalysis;
  spending : Spending;
  balance : Balance;
  cashFlowHealth : CashFlowHealth;
  insights : list SpendingInsight;
  savingsRate : number
}.

(** [xs.length] as a number. *)
Definition len {A : Type} (xs : list A) : number := num (Z.of_nat (List.length xs)).

(** The loop [for (i = 1; i < sorted.length; i++)] over consecutive
    elements, with the gap in days between [sorted[i-1]] and [sorted[i]]. *)
Fixpoint intervals (sorted : list Transaction) : list number :=
  match sorted with
  | a :: (b :: _) as rest =>
      ((getTime b - getTime a) / msPerDay)%num :: intervals rest
  | _ => []
  end.

Definition by_date (a b : Transaction) : number :=
  (getTime a - getTime b)%num.

Definition detectPaymentPattern (transactions : list Transaction) : Pattern :=
  if (List.length transactions <? 2)%nat then irregular
  else
    let sorted := Array_sort by_date transactions in
    let intervals := intervals sorted in
    let avgInterval := (sum_of intervals / len intervals)%num in
    if (avgInterval >=? num 25)%num && (avgInterval <=? num 35)%num
    then monthly
    else if (avgInterval >=? num 12)%num && (avgInterval <=? num 16)%num
    then biweekly
    else if (avgInterval >=? num 5)%num && (avgInterval <=? num 9)%num
    then weekly
    else irregular.

Section WithSqrt.

(** [Math.sqrt] *)
Variable Math_sqrt : number -> number.

Definition detectIncome (transactions : list Transaction) : IncomeAnalysis :=
  let incomeTransactions :=
    filter (fun t => (amount t <? zero)%num) transactions in
  if (List.length incomeTransactions =? 0)%nat then
    {| totalIncome := zero;
       averageMonthly := zero;
       isVariable := false;
       variability := zero;
       pattern := irregular;
       lastPaycheck := None;
       incomeTransactions := [] |}
  else
    let totalIncome :=
      fold_left (fun sum t => (sum + Math_abs (amount t))%num)
                incomeTransactions zero in
    let dates := map getTime incomeTransactions in
    let dayRange := ((Math_max_of dates - Math_min_of dates) / msPerDay)%num in
    let monthRange := Math_max (num 1) (dayRange / num 30)%num in
    let averageMonthly := (totalIncome / monthRange)%num in
    let amounts := map (fun t => Math_abs (amount t)) incomeTransactions in
    let mean := (sum_of amounts / len amounts)%num in
    let variance :=
      (fold_left (fun sum a => (sum + Math_pow2 (a - mean))%num) amounts zero
       / len amounts)%num in
    let stdDev := Math_sqrt variance in
    let variability :=
      if (mean >? zero)%num then (stdDev / mean)%num else zero in
    let pattern := detectPaymentPattern incomeTransactions in
    let lastPaycheck :=
      match incomeTransactions with
      | first :: _ =>
          Some {| pay_amount := Math_abs (amount first);
                  pay_date := date first |}
      | [] => None
      end in
    {| totalIncome := totalIncome;
       averageMonthly := averageMonthly;
       isVariable := (variability >? dec 2 10)%num;
       variability := variability;
       pattern := pattern;
       lastPaycheck := lastPaycheck;
       incomeTransactions := incomeTransactions |}.

End WithSqrt.

(** The friendly label a transaction is grouped under. *)
Definition category_of (txn : Transaction) : string :=
  mapPFCToFriendly (personal_finance_category txn).

(** [txns.reduce((sum, t) => sum + t.amount, 0)] *)
Definition sum_amounts (txns : list Transaction) : number :=
  fold_left (fun sum t => (sum + amount t)%num) txns zero.

Definition is_spending (t : Transaction) : bool := (amount t >? zero)%num.

Definition analyzeCategorySpending (transactions : list Transaction)
    : list CategorySpending :=
  let spendingTxns := filter is_spending transactions in
  let categoryMap : Map Transaction :=
    fold_left (fun m txn => Map_push (category_of txn) txn m)
              spendingTxns [] in
  let totalSpending := sum_amounts spendingTxns in
  let categories :=
    map (fun entry : string * list Transaction =>
           let (category, txns) := entry in
           let total := sum_amounts txns in
           let count := len txns in
           let average := (total / count)%num in
           let percentage :=
             if (totalSpending >? zero)%num
             then ((total / totalSpending) * num 100)%num
             else zero in
           {| category := category;
              total := total;
              count := count;
              average := average;
              percentage := percentage;
              trend := stable;
              transactions := txns |})
        categoryMap in
  Array_sort (fun a b => (total b - total a)%num) categories.

Definition calculateCashFlowHealth (income : IncomeAnalysis)
    (spending balance : number) : CashFlowHealth :=
  let monthlyIncome := averageMonthly income in
  let monthRange :=
    if (0 <? List.length (incomeTransactions income))%nat
    then ((Math_max_of (map getTime (incomeTransactions income))
           - Math_min_of (map getTime (incomeTransactions income)))
          / num (1000 * 60 * 60 * 24 * 30))%num
    else num 1 in
  let monthlySpending := (spending / Math_max (num 1) monthRange)%num in
  let incomeToSpendingRatio :=
    if (monthlyIncome >? zero)%num
    then (monthlyIncome / monthlySpending)%num
    else zero in
  if (balance <? zero)%num then
    {| score :=
         Math_round
           (Math_max zero
              (Math_min (num 35) (num 35 - Math_abs balance / num 100)%num));
       status := critical;
       message :=
         [ Lit "You're currently in the red with a negative balance of $";
           Fixed 2 (Math_abs balance);
           Lit ". Focus on reducing spending and increasing income immediately." ];
       incomeToSpendingRatio := incomeToSpendingRatio |}
  else
    let score := num 50 in
    let score :=
      if (incomeToSpendingRatio >=? dec 15 10)%num then (score + num 40)%num
      else if (incomeToSpendingRatio >=? dec 12 10)%num
      then (score + num 30)%num
      else if (incomeToSpendingRatio >=? num 1)%num then (score + num 20)%num
      else if (incomeToSpendingRatio >=? dec 8 10)%num
      then (score + num 10)%num
      else (score + num 0)%num in
    let balanceToSpending := (balance / monthlySpending)%num in
    let score :=
      if (balanceToSpending >=? num 2)%num then (score + num 30)%num
      else if (balanceToSpending >=? num 1)%num then (score + num 20)%num
      else if (balanceToSpending >=? dec 5 10)%num then (score + num 10)%num
      else (score + num 0)%num in
    let score :=
      if negb (isVariable income) then (score + num 20)%num
      else if (variability income <? dec 3 10)%num then (score + num 15)%num
      else if (variability income <? dec 5 10)%num then (score + num 10)%num
      else (score + num 5)%num in
    let score := Math_min (num 100) (Math_max zero score) in
    let status_message : Status * text :=
      if (score >=? num 75)%num then
        (healthy,
         [ Lit "Your finances are in good shape. Keep up the good habits!" ])
      else if (score >=? num 50)%num then
        (warning,
         [ Lit "Your cash flow needs attention. Consider building a buffer and reducing expenses." ])
      else
        (critical,
         [ Lit "Your finances need immediate attention. Focus on increasing income and reducing expenses." ]) in
    {| score := score;
       status := fst status_message;
       message := snd status_message;
       incomeToSpendingRatio := incomeToSpendingRatio |}.

(** [generateInsights]; [now] is the reading of [Date.now()], in
    milliseconds. *)
Definition generateInsights (now : Z) (transactions : list Transaction)
    (income : IncomeAnalysis) (categories : list CategorySpending)
    (balance : number) : list SpendingInsight :=
  let insights : list SpendingInsight := [] in
  let insights :=
    match categories with
    | topCategory :: _ =>
        if (percentage topCategory >? num 30)%num then
          insights ++
          [ {| type := high_spending;
               title := "High " ++ category topCategory ++ " Spending";
               description :=
                 [ Lit "You spent $"; Fixed 2 (total topCategory);
                   Lit " on "; Lit (category topCategory); Lit " (";
                   Fixed 0 (percentage topCategory);
                   Lit "% of total spending)." ];
               impact :=
                 [ Lit "Reducing this by 20% could save you $";
                   Fixed 2 (total topCategory * dec 2 10)%num;
                   Lit " per month." ];
               actionable :=
                 [ "Review recent transactions in this category";
                   "Look for patterns or unnecessary expenses";
                   "Set a monthly budget for this category" ];
               severity := sev_warning |} ]
        else insights
    | [] => insights
    end in
  let insights :=
    match lastPaycheck income with
    | Some paycheck =>
        if (balance <? averageMonthly income * dec 5 10)%num then
          let daysSincePaycheck :=
            ((num now - getTime_of_day (pay_date paycheck)) / msPerDay)%num in
          if (daysSincePaycheck >? num 7)%num then
            insights ++
            [ {| type := cash_flow;
                 title := "Cash Flow Timing Gap";
                 description :=
                   [ Lit "Your balance is low relative to your monthly income pattern." ];
                 impact :=
                   [ Lit "Building a buffer equal to one paycheck ($";
                     Fixed 2 (pay_amount paycheck);
                     Lit ") would eliminate timing stress." ];
                 actionable :=
                   [ "Transfer a small amount each week to a buffer account";
                     "Adjust bill due dates if possible";
                     "Consider income-based spending tracking" ];
                 severity := sev_warning |} ]
          else insights
        else insights
    | None => insights
    end in
  let insights :=
    if (averageMonthly income >? zero)%num then
      let spendingTotal := sum_amounts (filter is_spending transactions) in
      let savingsRate :=
        (((totalIncome income - spendingTotal) / totalIncome income)
         * num 100)%num in
      if (savingsRate >? num 10)%num then
        insights ++
        [ {| type := positive;
             title := "Great Savings Rate!";
             description :=
               [ Lit "You're saving "; Fixed 0 savingsRate;
                 Lit "% of your income. That's excellent!" ];
             impact :=
               [ Lit "At this rate, you'll save $";
                 Fixed 2 (averageMonthly income * (savingsRate / num 100)
                          * num 12)%num;
                 Lit " this year." ];
             actionable :=
               [ "Keep up this momentum";
                 "Consider automating savings";
                 "Set a specific savings goal to stay motivated" ];
             severity := info |} ]
      else insights
    else insights in
  insights.

Section WithSqrtMain.

Variable Math_sqrt : number -> number.

Definition analyzeFinances (now : Z) (transactions : list Transaction)
    (_accounts : list AccountBase) : FinancialAnalysis :=
  let income := detectIncome Math_sqrt transactions in
  let categories := analyzeCategorySpending transactions in
  let spendingTotal := sum_amounts (filter is_spending transactions) in
  let currentBalance := (totalIncome income - spendingTotal)%num in
  let cashFlowHealth :=
    calculateCashFlowHealth income spendingTotal currentBalance in
  let topCategories := firstn 7 categories in
  let insights :=
    generateInsights now transactions income categories currentBalance in
  let savingsRate :=
    if (totalIncome income >? zero)%num
    then (((totalIncome income - spendingTotal) / totalIncome income)
          * num 100)%num
    else zero in
  let dayRange :=
    match transactions with
    | first :: _ =>
        ((getTime first - getTime (last transactions first)) / msPerDay)%num
    | [] => num 1
    end in
  let dailyAverage := (spendingTotal / Math_max (num 1) dayRange)%num in
  {| income := income;
     spending := {| sp_total := spendingTotal;
                    byCategory := categories;
                    topCategories := topCategories;
                    dailyAverage := dailyAverage |};
     balance := {| current := currentBalance; bal_trend := stable |};
     cashFlowHealth := cashFlowHealth;
     insights := insights;
     savingsRate := savingsRate |}.

End WithSqrtMain.

End Analyzer.

(* ================================================================== *)
(** * [src/lib/subscriptions.ts] *)
(* ================================================================== *)

Module Subscriptions.

Import Categories.

Inductive Frequency : Type := weekly | monthly | annual | irregular.

Definition Frequency_eqb (a b : Frequency) : bool :=
  match a, b with
  | weekly, weekly | monthly, monthly | annual, annual
  | irregular, irregular => true
  | _, _ => false
  end.

Record SubscriptionPattern : Type := {
  merchantName : string;
  amount : number;
  frequency : Frequency;
  transactionIds : list string;
  lastCharge : Z;
  estimatedAnnualCost : number;
  driftScore : number;
  averageAmount : number;
  standardDeviation : number
}.

Record FrequencyPattern : Type := {
  fp_frequency : Frequency;
  fp_averageAmount : number
}.

Record Statistics : Type := {
  mean : number;
  stdDev : number
}.

Definition len {A : Type} (xs : list A) : number :=
  num (Z.of_nat (List.length xs)).

Definition by_date (a b : Transaction) : number :=
  (getTime a - getTime b)%num.

Definition normalizeMerchantName (name : string) : string :=
  join_space
    (firstn 2
       (split_space
          (trim (collapse_spaces (strip_non_alnum (toLowerCase name)))))).

(** The loop over consecutive elements, with the gap rounded to whole
    days. *)
Fixpoint intervals (sorted : list Transaction) : list number :=
  match sorted with
  | a :: (b :: _) as rest =>
      Math_round ((getTime b - getTime a) / msPerDay)%num :: intervals rest
  | _ => []
  end.

Definition detectFrequencyPattern (transactions : list Transaction)
    : FrequencyPattern :=
  if (List.length transactions <? 2)%nat then
    {| fp_frequency := irregular; fp_averageAmount := zero |}
  else
    let sorted := Array_sort by_date transactions in
    let intervals := intervals sorted in
    let avgInterval := (sum_of intervals / len intervals)%num in
    let amounts := map PlaidTypes.amount sorted in
    let avgAmount := (sum_of amounts / len amounts)%num in
    let frequency :=
      if (avgInterval >=? num 340)%num && (avgInterval <=? num 390)%num
      then annual
      else if (avgInterval >=? num 25)%num && (avgInterval <=? num 35)%num
      then monthly
      else if (avgInterval >=? num 5)%num && (avgInterval <=? num 9)%num
      then weekly
      else irregular in
    {| fp_frequency := frequency; fp_averageAmount := avgAmount |}.

Definition calculateAnnualCost (averageAmount : number)
    (frequency : Frequency) : number :=
  match frequency with
  | weekly => (averageAmount * num 52)%num
  | monthly => (averageAmount * num 12)%num
  | annual => averageAmount
  | irregular => zero
  end.

Definition nonSubscriptionMerchants : list string :=
  [ "mcdonalds"; "starbucks"; "dunkin"; "chipotle"; "subway";
    "walmart"; "target"; "costco"; "amazon"; "uber"; "lyft";
    "shell"; "chevron"; "exxon"; "bp"; "7 eleven"; "cvs"; "walgreens" ].

(** Step 1: the debits, grouped by normalised merchant. *)
Definition merchantGroups (transactions : list Transaction)
    : Map Transaction :=
  fold_left
    (fun m transaction =>
       if (PlaidTypes.amount transaction >? zero)%num
       then Map_push (normalizeMerchantName (name transaction)) transaction m
       else m)
    transactions [].

Section WithSqrt.

(** [Math.sqrt] *)
Variable Math_sqrt : number -> number.

Definition calculateStatistics (values : list number) : Statistics :=
  if (List.length values =? 0)%nat then {| mean := zero; stdDev := zero |}
  else
    let mean := (sum_of values / len values)%num in
    let squaredDiffs := map (fun val => Math_pow2 (val - mean)%num) values in
    let variance := (sum_of squaredDiffs / len values)%num in
    let stdDev := Math_sqrt variance in
    {| mean := mean; stdDev := stdDev |}.

(** Step 2, the body of the loop over the merchant groups: [None] where
    the source leaves the iteration without pushing a record. *)
Definition analyzeMerchant (entry : string * list Transaction)
    : option SubscriptionPattern :=
  let (merchant, txns) := entry in
  if (List.length txns <? 2)%nat then None
  else
    let sorted := Array_sort by_date txns in
    match sorted with
    | [] => None
    | first :: _ =>
        let pfc := personal_finance_category first in
        if isNonSubscriptionCategory pfc then None
        else if existsb (fun name => String_includes merchant name)
                        nonSubscriptionMerchants
        then None
        else
          let pattern := detectFrequencyPattern sorted in
          let isMonthlyOrAnnual :=
            Frequency_eqb (fp_frequency pattern) monthly
            || Frequency_eqb (fp_frequency pattern) annual in
          let hasRecurringFlag :=
            match recurring first with Some true => true | _ => false end in
          let inSubscriptionCategory := isSubscriptionCategory pfc in
          if negb (Frequency_eqb (fp_frequency pattern) irregular)
             && (isMonthlyOrAnnual || hasRecurringFlag
                 || inSubscriptionCategory)
          then
            let amounts := map PlaidTypes.amount sorted in
            let stats := calculateStatistics amounts in
            let driftScore :=
              if (mean stats >? zero)%num
              then ((stdDev stats / mean stats) * num 100)%num
              else zero in
            if (driftScore >? num 30)%num then None
            else
              let annualCost :=
                calculateAnnualCost (mean stats) (fp_frequency pattern) in
              Some {| merchantName := merchant;
                      amount := mean stats;
                      frequency := fp_frequency pattern;
                      transactionIds := map PlaidTypes.transaction_id sorted;
                      lastCharge := date (last sorted first);
                      estimatedAnnualCost := annualCost;
                      driftScore :=
                        (Math_round (driftScore * num 100) / num 100)%num;
                      averageAmount := mean stats;
                      standardDeviation := stdDev stats |}
          else None
    end.

(** [for (...) { ...; subscriptions.push(...) }] *)
Fixpoint collect (groups : Map Transaction) : list SubscriptionPattern :=
  match groups with
  | [] => []
  | entry :: groups' =>
      match analyzeMerchant entry with
      | Some s => s :: collect groups'
      | None => collect groups'
      end
  end.

Definition detectSubscriptionDrift (transactions : list Transaction)
    : list SubscriptionPattern :=
  if (List.length transactions =? 0)%nat then []
  else
    let subscriptions := collect (merchantGroups transactions) in
    Array_sort (fun a b => (driftScore b - driftScore a)%num) subscriptions.

End WithSqrt.

End Subscriptions.

(* ================================================================== *)
(** * The period views of the two analysis routes *)
(* ================================================================== *)

(** Both routes start from [new Date()] moved back by a number of calendar
    months ([setMonth(getMonth() - months)]).  The resulting instant is the
    argument [cutoff], in milliseconds, as [now] stands for [Date.now()]. *)

(** [src/app/api/analysis/comprehensive/route.ts]:
    [calculateSpendingByPeriod]. *)
Module Comprehensive.

Import Analyzer.

Record PeriodShare : Type := {
  category : string;
  total : number;
  percentage : number
}.

(** [{ ...cat, total }] *)
Definition with_total (cat : CategorySpending) (total : number)
    : CategorySpending :=
  {| Analyzer.category := Analyzer.category cat;
     Analyzer.total := total;
     count := count cat;
     average := average cat;
     Analyzer.percentage := Analyzer.percentage cat;
     trend := trend cat;
     transactions := transactions cat |}.

Definition calculateSpendingByPeriod (cutoff : Z)
    (categories : list CategorySpending) : list PeriodShare :=
  let filtered :=
    filter (fun cat => (Analyzer.total cat >? zero)%num)
      (map (fun cat =>
              let recentTxns :=
                filter (fun t => (getTime t >=? num cutoff)%num)
                       (transactions cat) in
              let total := sum_amounts recentTxns in
              with_total cat total)
           categories) in
  let totalSpending :=
    fold_left (fun sum cat => (sum + Analyzer.total cat)%num) filtered zero in
  firstn 6
    (Array_sort (fun a b => (total b - total a)%num)
       (map (fun cat =>
               {| category := Analyzer.category cat;
                  total := Analyzer.total cat;
                  percentage :=
                    ((Analyzer.total cat / totalSpending) * num 100)%num |})
            filtered)).

End Comprehensive.

(** The coach route (the file with [calculatePeriodSpending] and the
    prompt of the coach). *)
Module Coach.

(** A template literal with plain interpolations [${x}]. *)
Inductive label_piece : Type :=
| Str (s : string)
| Num (x : number).

Record PeriodCategory : Type := {
  category : string;
  amount : number;
  percentage : text
}.

Record PeriodSpending : Type := {
  totalSpending : number;
  periodLabel : list label_piece;
  categories : list PeriodCategory
}.

(** A [Record<string, number>] filled by assignment: the keys are primary
    codes of the provider's taxonomy or ["Other"], which are neither array
    indices nor names of [Object.prototype], so [Object.entries] lists them
    in the order of their first assignment. *)
Definition Totals : Type := list (string * number).

Fixpoint Totals_get (k : string) (o : Totals) : option number :=
  match o with
  | [] => None
  | (k', v) :: o' => if String.eqb k' k then Some v else Totals_get k o'
  end.

Fixpoint Totals_set (k : string) (v : number) (o : Totals) : Totals :=
  match o with
  | [] => [(k, v)]
  | (k', v') :: o' =>
      if String.eqb k' k then (k', v) :: o' else (k', v') :: Totals_set k v o'
  end.

(** [x || 0] on a number that may be missing: [0] and [NaN] are falsy. *)
Definition or_zero (x : option number) : number :=
  match x with
  | Some v => if num_eqb v zero || is_nan v then zero else v
  | None => zero
  end.

(** [t.personal_finance_category?.primary || 'Other'] *)
Definition primary_or_other (t : Transaction) : string :=
  match primary_of (personal_finance_category t) with
  | Some p => p
  | None => "Other"
  end.

Definition in_period (cutoff : Z) (t : Transaction) : bool :=
  (getTime t >=? num cutoff)%num && (PlaidTypes.amount t >? zero)%num.

Definition calculatePeriodSpending (cutoff : Z)
    (transactions : list Transaction) (months : number) : PeriodSpending :=
  let filtered := filter (in_period cutoff) transactions in
  let total :=
    fold_left (fun sum t => (sum + PlaidTypes.amount t)%num) filtered zero in
  let categoryTotals : Totals :=
    fold_left
      (fun o t =>
         let cat := primary_or_other t in
         Totals_set cat (or_zero (Totals_get cat o) + PlaidTypes.amount t)%num
                    o)
      filtered [] in
  {| totalSpending := total;
     periodLabel :=
       [ Str "Last "; Num months; Str " month";
         Str (if (months >? num 1)%num then "s" else "") ];
     categories :=
       firstn 5
         (Array_sort (fun a b => (amount b - amount a)%num)
            (map (fun entry : string * number =>
                    let (cat, amt) := entry in
                    {| category := cat;
                       amount := amt;
                       percentage := [ Fixed 1 ((amt / total) * num 100)%num ]
                    |})
                 categoryTotals)) |}.

End Coach.

(* ================================================================== *)
(** * Definitions used to state the properties *)
(* ================================================================== *)

Module Spec.

Section Grouping.

Context {V : Type}.
Variable key : V -> string.

(** The grouping loop of both aggregators, from a map [m]. *)
Definition group_into (m : Map V) (l : list V) : Map V :=
  fold_left (fun m v => Map_push (key v) v m) l m.

(** The distinct keys, in the order of their first occurrence. *)
Definition note_key (seen : list string) (k : string) : list string :=
  if existsb (String.eqb k) seen then seen else seen ++ [k].

Definition first_occurrences (ks : list string) : list string :=
  fold_left note_key ks [].

(** The elements with key [k], in the order of the input. *)
Definition members (k : string) (l : list V) : list V :=
  filter (fun v => String.eqb (key v) k) l.

End Grouping.

(** ** Income and spending *)

(** The test of the income filter, [t.amount < 0]. *)
Definition is_income (t : Transaction) : bool := (amount t <? zero)%num.

(** What one transaction adds to the income total and to the spending
    total. *)
Definition income_share (t : Transaction) : number :=
  if is_income t then Math_abs (amount t) else zero.

Definition spending_share (t : Transaction) : number :=
  if Analyzer.is_spending t then amount t else zero.

(** The earliest and the latest day of a list of transactions, and the
    days between them. *)
Definition latest_day (ts : list Transaction) : Z :=
  match ts with
  | [] => 0
  | t :: ts' => fold_left Z.max (map date ts') (date t)
  end.

Definition earliest_day (ts : list Transaction) : Z :=
  match ts with
  | [] => 0
  | t :: ts' => fold_left Z.min (map date ts') (date t)
  end.

Definition day_span (ts : list Transaction) : Z :=
  latest_day ts - earliest_day ts.

(** The result of [detectIncome] when there is no income. *)
Definition no_income : Analyzer.IncomeAnalysis :=
  {| Analyzer.totalIncome := zero;
     Analyzer.averageMonthly := zero;
     Analyzer.isVariable := false;
     Analyzer.variability := zero;
     Analyzer.pattern := Analyzer.irregular;
     Analyzer.lastPaycheck := None;
     Analyzer.incomeTransactions := [] |}.

(** ** Cadence *)

(** The gaps between consecutive days. *)
Fixpoint day_gaps (days : list Z) : list Z :=
  match days with
  | a :: (b :: _) as rest => (b - a)%Z :: day_gaps rest
  | _ => []
  end.

Definition sum_Z (zs : list Z) : Z := fold_left Z.add zs 0%Z.

(** The average of the gaps, a rational number of days. *)
Definition average_gap (days : list Z) : Q :=
  (inject_Z (sum_Z (day_gaps days))
   / inject_Z (Z.of_nat (List.length (day_gaps days))))%Q.

(** The days of the transactions, sorted as the detectors sort them. *)
Definition sorted_days (txs : list Transaction) : list Z :=
  map date (Array_sort Analyzer.by_date txs).

(** An inclusive band of whole days. *)
Definition in_band (lo hi : Z) (avg : Q) : Prop :=
  (inject_Z lo <= avg /\ avg <= inject_Z hi)%Q.

Definition in_bandb (lo hi : Z) (avg : Q) : bool :=
  Qle_bool (inject_Z lo) avg && Qle_bool avg (inject_Z hi).

(** The cadence of an average gap, as the specification words it for the
    income path and for the subscription path. *)
Definition income_cadence (avg : Q) : Analyzer.Pattern :=
  if in_bandb 25 35 avg then Analyzer.monthly
  else if in_bandb 12 16 avg then Analyzer.biweekly
  else if in_bandb 5 9 avg then Analyzer.weekly
  else Analyzer.irregular.

Definition subscription_cadence (avg : Q) : Subscriptions.Frequency :=
  if in_bandb 340 390 avg then Subscriptions.annual
  else if in_bandb 25 35 avg then Subscriptions.monthly
  else if in_bandb 5 9 avg then Subscriptions.weekly
  else Subscriptions.irregular.

(** ** Category spending *)

(** The spending transactions that carry the label, in input order. *)
Definition category_members (txs : list Transaction) (label : string)
    : list Transaction :=
  members Analyzer.category_of label (filter Analyzer.is_spending txs).

(** The grand total of spending. *)
Definition grand_total (txs : list Transaction) : number :=
  Analyzer.sum_amounts (filter Analyzer.is_spending txs).

(** The record of one label, as the specification words it: the share is
    0 when the grand total is 0. *)
Definition category_record (txs : list Transaction) (label : string)
    : Analyzer.CategorySpending :=
  let group := category_members txs label in
  let total := Analyzer.sum_amounts group in
  {| Analyzer.category := label;
     Analyzer.total := total;
     Analyzer.count := Analyzer.len group;
     Analyzer.average := (total / Analyzer.len group)%num;
     Analyzer.percentage :=
       if num_eqb (grand_total txs) zero then zero
       else ((total / grand_total txs) * num 100)%num;
     Analyzer.trend := Analyzer.stable;
     Analyzer.transactions := group |}.

(** The labels of the spending transactions, in the order in which they
    are first met. *)
Definition labels_in_order (txs : list Transaction) : list string :=
  first_occurrences
    (map Analyzer.category_of (filter Analyzer.is_spending txs)).

(** The records whose total is the value [v]. *)
Definition with_total (v : number) (c : Analyzer.CategorySpending) : bool :=
  num_eqb (Analyzer.total c) v.

(** [b] does not rank before [a]: the total of [b] is at most that of
    [a]. *)
Definition ranks_before (a b : Analyzer.CategorySpending) : Prop :=
  (Analyzer.total b <=? Analyzer.total a)%num = true.

(** A value that is zero, positive or [Infinity]. *)
Definition nonneg (x : number) : Prop :=
  match x with
  | Fin q => (0 <= q)%Q
  | PosInf => True
  | _ => False
  end.

(** ** Subscriptions *)

(** The grouping key of a transaction. *)
Definition merchant_of (t : Transaction) : string :=
  Subscriptions.normalizeMerchantName (name t).

(** The mean, the standard deviation and the drift of a list of amounts
    as the specification words them: the drift is the standard deviation
    over the mean, in percent, and 0 when the mean is 0. *)
Definition mean_of (xs : list number) : number :=
  (sum_of xs / Subscriptions.len xs)%num.

Definition std_dev_of (Math_sqrt : number -> number) (xs : list number)
    : number :=
  Math_sqrt
    (sum_of (map (fun v => Math_pow2 (v - mean_of xs)%num) xs)
     / Subscriptions.len xs)%num.

Definition drift_of (Math_sqrt : number -> number) (xs : list number)
    : number :=
  if num_eqb (mean_of xs) zero then zero
  else ((std_dev_of Math_sqrt xs / mean_of xs) * num 100)%num.

(** The drift as the detector computes it. *)
Definition computed_drift (Math_sqrt : number -> number)
    (xs : list number) : number :=
  let stats := Subscriptions.calculateStatistics Math_sqrt xs in
  if (Subscriptions.mean stats >? zero)%num
  then ((Subscriptions.stdDev stats / Subscriptions.mean stats)
        * num 100)%num
  else zero.

(** The test [(sorted[0] as any).recurring === true]. *)
Definition hasRecurringFlag (t : Transaction) : bool :=
  match recurring t with Some true => true | _ => false end.

(** ** Cash flow *)

(** [clamp(lo, hi, x)] *)
Definition clamp (lo hi x : number) : number :=
  Math_max lo (Math_min hi x).

(** The score of a negative balance, as the specification words it. *)
Definition deficit_score (balance : number) : number :=
  Math_round (clamp zero (num 35) (num 35 - Math_abs balance / num 100)%num).

(** ** The clock *)

(** The test of the insight generator on the clock: a last pay check is
    on record and more than seven days have passed since its date. *)
Definition week_since_paycheck (now : Z) (income : Analyzer.IncomeAnalysis)
    : bool :=
  match Analyzer.lastPaycheck income with
  | Some paycheck =>
      ((num now - getTime_of_day (Analyzer.pay_date paycheck)) / msPerDay
       >? num 7)%num
  | None => false
  end.

(** A gap computed by a detector and the same gap in whole days. *)
Definition same_value (x : number) (z : Z) : Prop := (x == num z)%num.

End Spec.

Module SubscriptionSpec.

Import Subscriptions Categories Spec.

(** Everything the loop body has checked when it pushes a record. *)
Record admitted (Math_sqrt : number -> number) (merchant : string)
    (txns : list Transaction) (first : Transaction)
    (rest : list Transaction) (p : SubscriptionPattern) : Prop := {
  adm_sorted : Array_sort by_date txns = first :: rest;
  adm_two : (2 <= List.length txns)%nat;
  adm_category :
    isNonSubscriptionCategory (personal_finance_category first) = false;
  adm_merchant :
    existsb (fun name => String_includes merchant name)
            nonSubscriptionMerchants = false;
  adm_regular :
    fp_frequency (detectFrequencyPattern (first :: rest)) <> irregular;
  adm_cadence :
    fp_frequency (detectFrequencyPattern (first :: rest)) = monthly \/
    fp_frequency (detectFrequencyPattern (first :: rest)) = annual \/
    hasRecurringFlag first = true \/
    isSubscriptionCategory (personal_finance_category first) = true;
  adm_drift :
    (computed_drift Math_sqrt (map PlaidTypes.amount (first :: rest)) >? num 30)%num
    = false;
  adm_record :
    p = {| merchantName := merchant;
           amount :=
             mean (calculateStatistics Math_sqrt
                     (map PlaidTypes.amount (first :: rest)));
           frequency := fp_frequency (detectFrequencyPattern (first :: rest));
           transactionIds := map PlaidTypes.transaction_id (first :: rest);
           lastCharge := date (last (first :: rest) first);
           estimatedAnnualCost :=
             calculateAnnualCost
               (mean (calculateStatistics Math_sqrt
                        (map PlaidTypes.amount (first :: rest))))
               (fp_frequency (detectFrequencyPattern (first :: rest)));
           driftScore :=
             (Math_round
                (computed_drift Math_sqrt (map PlaidTypes.amount (first :: rest))
                 * num 100) / num 100)%num;
           averageAmount :=
             mean (calculateStatistics Math_sqrt
                     (map PlaidTypes.amount (first :: rest)));
           standardDeviation :=
             stdDev (calculateStatistics Math_sqrt
                       (map PlaidTypes.amount (first :: rest))) |}
}.

End SubscriptionSpec.

(* ================================================================== *)
(** * Definitions used to state the further properties *)
(* ================================================================== *)

Module MoreSpec.


(** The type of the insight on the savings rate. *)
Definition is_positive (t : Analyzer.InsightType) : bool :=
  match t with Analyzer.positive => true | _ => false end.

(** The types of the insights that the three rules of the generator give
    when they fire or not. *)
Definition insight_types (spending timing saving : bool)
    : list Analyzer.InsightType :=
  (if spending then [Analyzer.high_spending] else []) ++
  (if timing then [Analyzer.cash_flow] else []) ++
  (if saving then [Analyzer.positive] else []).

(** Transactions listed from the newest to the oldest, as the provider
    returns them. *)
Definition newest_first (txs : list Transaction) : Prop :=
  StronglySorted (fun a b => (date b <= date a)%Z) txs.

(** The pay check record of a transaction. *)
Definition paycheck_of (t : Transaction) : Analyzer.Paycheck :=
  {| Analyzer.pay_amount := Math_abs (amount t);
     Analyzer.pay_date := date t |}.

(** An insight of the given type is in the list. *)
Definition has_type (ty : Analyzer.InsightType -> bool)
    (l : list Analyzer.SpendingInsight) : bool :=
  existsb (fun i => ty (Analyzer.type i)) l.

Definition is_high_spending (t : Analyzer.InsightType) : bool :=
  match t with Analyzer.high_spending => true | _ => false end.

(** The number of transactions held by a list of category records. *)
Definition held (cs : list Analyzer.CategorySpending) : nat :=
  list_sum (map (fun c => List.length (Analyzer.transactions c)) cs).

(** The debits of one merchant, in the order of the input: the charges a
    subscription record stands for. *)
Definition charges_of (merchant : string) (txs : list Transaction)
    : list Transaction :=
  filter (fun t => Analyzer.is_spending t
                   && String.eqb (Spec.merchant_of t) merchant) txs.


(** ** Cadence by span and count *)

(** The number of gaps between the transactions of a list. *)
Definition gap_count (txs : list Transaction) : Z :=
  Z.of_nat (List.length txs) - 1.

(** The days between the earliest and the latest transaction are from [lo]
    to [hi] days per gap. *)
Definition span_within (lo hi : Z) (txs : list Transaction) : bool :=
  ((lo * gap_count txs <=? Spec.day_span txs)
   && (Spec.day_span txs <=? hi * gap_count txs))%Z.

Definition income_cadence_by_span (txs : list Transaction)
    : Analyzer.Pattern :=
  if (List.length txs <? 2)%nat then Analyzer.irregular
  else if span_within 25 35 txs then Analyzer.monthly
  else if span_within 12 16 txs then Analyzer.biweekly
  else if span_within 5 9 txs then Analyzer.weekly
  else Analyzer.irregular.

Definition subscription_cadence_by_span (txs : list Transaction)
    : Subscriptions.Frequency :=
  if (List.length txs <? 2)%nat then Subscriptions.irregular
  else if span_within 340 390 txs then Subscriptions.annual
  else if span_within 25 35 txs then Subscriptions.monthly
  else if span_within 5 9 txs then Subscriptions.weekly
  else Subscriptions.irregular.


(** ** Merchant names *)

(** A lower-case letter or a digit. *)
Definition alnum (c : ascii) : bool := is_lower c || is_digit c.

Fixpoint all_chars (p : ascii -> bool) (s : string) : bool :=
  match s with
  | EmptyString => true
  | String c s' => p c && all_chars p s'
  end.

(** A word: lower-case letters and digits, at least one. *)
Definition word (w : string) : Prop :=
  w <> EmptyString /\ all_chars alnum w = true.

(** Words separated by single spaces, and the same with one more space
    allowed at the end. *)
Inductive tidy : string -> Prop :=
| tidy_one (c : ascii) : alnum c = true -> tidy (String c EmptyString)
| tidy_cons (c : ascii) (s : string) :
    alnum c = true -> tidy s -> tidy (String c s)
| tidy_space (c : ascii) (s : string) :
    alnum c = true -> tidy s -> tidy (String c (String " " s)).

Inductive pretidy : string -> Prop :=
| pretidy_one (c : ascii) : alnum c = true -> pretidy (String c EmptyString)
| pretidy_end (c : ascii) :
    alnum c = true -> pretidy (String c (String " " EmptyString))
| pretidy_cons (c : ascii) (s : string) :
    alnum c = true -> pretidy s -> pretidy (String c s)
| pretidy_space (c : ascii) (s : string) :
    alnum c = true -> pretidy s -> pretidy (String c (String " " s)).

(** ** Periods *)

(** The test [new Date(t.date) >= cutoff]. *)
Definition recent (cutoff : Z) (t : Transaction) : bool :=
  (getTime t >=? num cutoff)%num.

(** The purchases of a label made in the period. *)
Definition period_purchases (cutoff : Z) (label : string)
    (txs : list Transaction) : list Transaction :=
  filter (fun t => (Analyzer.is_spending t
                    && String.eqb (Analyzer.category_of t) label)
                   && recent cutoff t) txs.

(** [b] does not come before [a] among the shares of a period. *)
Definition shares_before (a b : Comprehensive.PeriodShare) : Prop :=
  (Comprehensive.total b <=? Comprehensive.total a)%num = true.

(** A category code of the provider's taxonomy, capital letters and
    underscores, or the stand-in ["Other"]: the keys on which the totals
    object of the coach route is a plain map. *)
Definition code_like (s : string) : bool :=
  String.eqb s "Other"
  || all_chars (fun c => is_upper c || Ascii.eqb c "_") s.

(** One step of the loop that fills the totals object. *)
Definition add_to_totals (o : Coach.Totals) (t : Transaction)
    : Coach.Totals :=
  Coach.Totals_set (Coach.primary_or_other t)
    (Coach.or_zero (Coach.Totals_get (Coach.primary_or_other t) o)
     + amount t)%num o.

(** The debits of a category code made in the period. *)
Definition period_debits (cutoff : Z) (code : string)
    (txs : list Transaction) : list Transaction :=
  filter (fun t => Coach.in_period cutoff t
                   && String.eqb (Coach.primary_or_other t) code) txs.

(** [b] does not come before [a] among the categories of a period. *)
Definition amounts_before (a b : Coach.PeriodCategory) : Prop :=
  (Coach.amount b <=? Coach.amount a)%num = true.

End MoreSpec.

(* ================================================================== *)
(** * Sample data *)
(* ================================================================== *)

Module Samples.

(** A transaction of the account ["acc-1"], with an optional primary
    category code and an optional recurring flag. *)
Definition txn (id : string) (day : Z) (amount : number) (merchant : string)
    (code : option string) (flag : option bool) : Transaction :=
  {| transaction_id := id;
     account_id := "acc-1";
     account_owner := Some "J. Doe";
     date := day;
     amount := amount;
     name := merchant;
     merchant_name := None;
     pending := false;
     personal_finance_category :=
       match code with
       | Some c => Some {| primary := c; detailed := c;
                           confidence_level := None |}
       | None => None
       end;
     recurring := flag |}.

(** 2024-01-01 is day 19723. *)
Definition jan1 : Z := 19723.

(** Three pay checks, thirty days apart. *)
Definition paychecks : list Transaction :=
  [ txn "p1" jan1 (num (-2000)) "ACME Payroll" (Some "INCOME") None;
    txn "p2" (jan1 + 30) (num (-2000)) "ACME Payroll" (Some "INCOME") None;
    txn "p3" (jan1 + 60) (num (-2000)) "ACME Payroll" (Some "INCOME") None ].

(** Pay checks every fourteen days, given out of order. *)
Definition fortnightly : list Transaction :=
  [ txn "f3" (jan1 + 28) (num (-900)) "Gig Co" None None;
    txn "f1" jan1 (num (-900)) "Gig Co" None None;
    txn "f2" (jan1 + 14) (num (-900)) "Gig Co" None None ].

(** A yearly membership, charged twice, 365 days apart. *)
Definition yearly : list Transaction :=
  [ txn "y1" jan1 (num 99) "Cloud Drive" (Some "GENERAL_SERVICES") None;
    txn "y2" (jan1 + 365) (num 99) "Cloud Drive" (Some "GENERAL_SERVICES")
        None ].

(** Spending in four categories, two of them with the same total, one
    transaction without a classification, and one credit. *)
Definition purchases : list Transaction :=
  [ txn "s1" jan1 (num 50) "Bistro" (Some "DINING") None;
    txn "s2" (jan1 + 1) (num 30) "Corner Market" (Some "FOOD_RETAIL") None;
    txn "s3" (jan1 + 2) (num 20) "Noodle Bar" (Some "DINING") None;
    txn "s4" (jan1 + 3) (num 30) "Cinema" (Some "ENTERTAINMENT") None;
    txn "s5" (jan1 + 4) (num 5) "Kiosk" None None;
    txn "s6" (jan1 + 5) (num (-100)) "Refund" None None ].

(** Three weekly charges of the same amount in an entertainment
    category. *)
Definition weekly_charges : list Transaction :=
  [ txn "w1" jan1 (num 10) "Patreon" (Some "ENTERTAINMENT") None;
    txn "w2" (jan1 + 7) (num 10) "Patreon" (Some "ENTERTAINMENT") None;
    txn "w3" (jan1 + 14) (num 10) "Patreon" (Some "ENTERTAINMENT") None ].

(** Six monthly charges of 15 to one streaming service. *)
Definition streaming : list Transaction :=
  [ txn "n1" jan1 (num 15) "Netflix" (Some "ENTERTAINMENT") None;
    txn "n2" (jan1 + 30) (num 15) "Netflix" (Some "ENTERTAINMENT") None;
    txn "n3" (jan1 + 60) (num 15) "Netflix" (Some "ENTERTAINMENT") None;
    txn "n4" (jan1 + 90) (num 15) "Netflix" (Some "ENTERTAINMENT") None;
    txn "n5" (jan1 + 120) (num 15) "Netflix" (Some "ENTERTAINMENT") None;
    txn "n6" (jan1 + 150) (num 15) "Netflix" (Some "ENTERTAINMENT") None ].

(** One pay check and one rent payment that uses most of it. *)
Definition tight_month : list Transaction :=
  [ txn "i1" jan1 (num (-1000)) "ACME Payroll" (Some "INCOME") None;
    txn "r1" (jan1 + 2) (num 950) "Landlord" (Some "RENT_AND_UTILITIES")
        None ].

(** Clock readings one day, ten days and twenty days after 2024-01-01. *)
Definition one_day_later : Z := 86400000 * (jan1 + 1).
Definition ten_days_later : Z := 86400000 * (jan1 + 10).
Definition twenty_days_later : Z := 86400000 * (jan1 + 20).

(** The same purchase, recorded twice by the provider under two
    identifiers. *)
Definition coffee_a : Transaction :=
  txn "tx-1" jan1 (num 4) "Cafe Uno" (Some "DINING") None.
Definition coffee_b : Transaction :=
  txn "tx-2" jan1 (num 4) "Cafe Uno" (Some "DINING") None.

(** The purchase [coffee_a] on another account, with other private
    details. *)
Definition coffee_other_account : Transaction :=
  {| transaction_id := "tx-1";
     account_id := "acc-2";
     account_owner := Some "A. Smith";
     date := jan1;
     amount := num 4;
     name := "Cafe Uno";
     merchant_name := Some "Cafe Uno Ltd";
     pending := true;
     personal_finance_category :=
       Some {| primary := "DINING"; detailed := "DINING_COFFEE";
               confidence_level := Some "HIGH" |};
     recurring := Some false |}.

(** The examples of the specification: two pay checks and a dinner; a
    grocery store visited at irregular intervals. *)
Definition pay_and_dinner : list Transaction :=
  [ txn "e1" jan1 (num (-2000)) "Employer" None None;
    txn "e2" (jan1 + 31) (num (-2000)) "Employer" None None;
    txn "e3" (jan1 + 14) (num 500) "Trattoria" (Some "DINING") None ].

Definition grocery_runs : list Transaction :=
  [ txn "g1" jan1 (num 50) "Fresh Mart" (Some "FOOD_RETAIL") None;
    txn "g2" (jan1 + 10) (num 52) "Fresh Mart" (Some "FOOD_RETAIL") None;
    txn "g3" (jan1 + 50) (num 48) "Fresh Mart" (Some "FOOD_RETAIL") None ].

(** The purchases above and a transaction of amount zero. *)
Definition purchases_and_a_void : list Transaction :=
  txn "v0" jan1 (num 0) "Voided" None None :: purchases.

(** An income analysis with a steady income and no transactions on
    record. *)
Definition steady_income : Analyzer.IncomeAnalysis :=
  {| Analyzer.totalIncome := num 3000;
     Analyzer.averageMonthly := num 3000;
     Analyzer.isVariable := false;
     Analyzer.variability := zero;
     Analyzer.pattern := Analyzer.monthly;
     Analyzer.lastPaycheck := None;
     Analyzer.incomeTransactions := [] |}.

End Samples.

Module MoreSamples.

Import Samples.

(** A statement as the provider returns it, newest first: two pay checks
    between purchases. *)
Definition statement : list Transaction :=
  [ txn "m5" (jan1 + 40) (num 60) "Bistro" (Some "DINING") None;
    txn "m4" (jan1 + 31) (num (-1500)) "ACME Payroll" (Some "INCOME") None;
    txn "m3" (jan1 + 20) (num 700) "Landlord" (Some "RENT_AND_UTILITIES")
        None;
    txn "m2" (jan1 + 3) (num 40) "Corner Market" (Some "FOOD_RETAIL") None;
    txn "m1" jan1 (num (-1500)) "ACME Payroll" (Some "INCOME") None ].

(** Two services charged monthly, one at a constant price and one whose
    price goes up, between purchases at a blocked merchant. *)
Definition two_services : list Transaction :=
  [ txn "s1" jan1 (num 15) "Netflix" (Some "ENTERTAINMENT") None;
    txn "g1" (jan1 + 2) (num 40) "Cloud Drive" (Some "GENERAL_SERVICES") None;
    txn "a1" (jan1 + 5) (num 23) "Amazon Marketplace"
        (Some "GENERAL_SERVICES") None;
    txn "s2" (jan1 + 30) (num 15) "Netflix" (Some "ENTERTAINMENT") None;
    txn "g2" (jan1 + 32) (num 40) "Cloud Drive" (Some "GENERAL_SERVICES") None;
    txn "a2" (jan1 + 35) (num 23) "Amazon Marketplace"
        (Some "GENERAL_SERVICES") None;
    txn "s3" (jan1 + 60) (num 15) "Netflix" (Some "ENTERTAINMENT") None;
    txn "g3" (jan1 + 62) (num 44) "Cloud Drive" (Some "GENERAL_SERVICES") None ].

End MoreSamples.

(* ================================================================== *)
(** * Facts about numbers *)
(* ================================================================== *)

Module NumFacts.

Local Open Scope Q_scope.

Lemma Qltb_lt (a b : Q) : Qltb a b = true <-> a < b.
Proof.
  unfold Qltb. rewrite negb_true_iff, <- not_true_iff_false, Qle_bool_iff.
  split; [apply Qnot_le_lt | apply Qlt_not_le].
Qed.

Lemma Qltb_ge (a b : Q) : Qltb a b = false <-> b <= a.
Proof.
  unfold Qltb. rewrite negb_false_iff. apply Qle_bool_iff.
Qed.

Lemma Qle_bool_gt (a b : Q) : Qle_bool a b = false <-> b < a.
Proof.
  rewrite <- not_true_iff_false, Qle_bool_iff.
  split; [apply Qnot_le_lt | apply Qlt_not_le].
Qed.

Lemma Qeq_bool_ne (a b : Q) : Qeq_bool a b = false <-> ~ a == b.
Proof.
  rewrite <- not_true_iff_false, Qeq_bool_iff. tauto.
Qed.

(** Turn every boolean comparison of rationals into the proposition it
    decides, splitting on its value. *)
Ltac qcases :=
  repeat match goal with
  | H : Qltb _ _ = true |- _ => apply Qltb_lt in H
  | H : Qltb _ _ = false |- _ => apply Qltb_ge in H
  | H : Qle_bool _ _ = true |- _ => apply Qle_bool_iff in H
  | H : Qle_bool _ _ = false |- _ => apply Qle_bool_gt in H
  | H : Qeq_bool _ _ = true |- _ => apply Qeq_bool_iff in H
  | H : Qeq_bool _ _ = false |- _ => apply Qeq_bool_ne in H
  | |- context [Qltb ?a ?b] => destruct (Qltb a b) eqn:?
  | |- context [Qle_bool ?a ?b] => destruct (Qle_bool a b) eqn:?
  | |- context [Qeq_bool ?a ?b] => destruct (Qeq_bool a b) eqn:?
  | H : context [Qltb ?a ?b] |- _ => destruct (Qltb a b) eqn:?
  | H : context [Qle_bool ?a ?b] |- _ => destruct (Qle_bool a b) eqn:?
  | H : context [Qeq_bool ?a ?b] |- _ => destruct (Qeq_bool a b) eqn:?
  end.

Lemma num_eq_refl (x : number) : (x == x)%num.
Proof. destruct x; simpl; auto. reflexivity. Qed.

Lemma num_eq_sym (x y : number) : (x == y)%num -> (y == x)%num.
Proof. destruct x, y; simpl; auto. intros H; now symmetry. Qed.

Lemma num_eq_trans (x y z : number) :
  (x == y)%num -> (y == z)%num -> (x == z)%num.
Proof.
  destruct x, y, z; simpl; auto; try contradiction.
  intros H1 H2. now rewrite H1.
Qed.

Lemma eq_num_eq (x y : number) : x = y -> (x == y)%num.
Proof. intros ->. apply num_eq_refl. Qed.

(** The comparator idiom [b - a > 0] is the test [a < b], whatever the
    operands. *)
Lemma sub_gtb_ltb (a b : number) : (b - a >? zero)%num = (a <? b)%num.
Proof.
  destruct a as [a| | |], b as [b| | |]; simpl; try reflexivity.
  unfold gtb, ltb, zero. qcases; try reflexivity; lra.
Qed.

Lemma ltb_asym (a b : number) : (a <? b)%num = true -> (b <? a)%num = false.
Proof.
  destruct a as [a| | |], b as [b| | |]; simpl; try discriminate; auto.
  intros H. qcases; try reflexivity; lra.
Qed.

Lemma ltb_irrefl_eq (a b : number) :
  (a == b)%num -> (a <? b)%num = false.
Proof.
  destruct a as [a| | |], b as [b| | |]; simpl; try contradiction; auto.
  intros H. qcases; try reflexivity; lra.
Qed.

Lemma add_zero_r (x : number) : (x + zero == x)%num.
Proof. destruct x; simpl; auto. lra. Qed.

Lemma add_zero_l (x : number) : (zero + x == x)%num.
Proof. destruct x; simpl; auto. lra. Qed.

Lemma add_compat (x x' y y' : number) :
  (x == x')%num -> (y == y')%num -> (x + y == x' + y')%num.
Proof.
  destruct x, x', y, y'; simpl; try contradiction; auto.
  intros H1 H2. now rewrite H1, H2.
Qed.

Lemma add_assoc (x y z : number) : (x + (y + z) == (x + y) + z)%num.
Proof. destruct x, y, z; simpl; auto. lra. Qed.

Lemma leb_compat (x x' y y' : number) :
  (x == x')%num -> (y == y')%num -> (x <=? y)%num = (x' <=? y')%num.
Proof.
  destruct x, x', y, y'; simpl; try contradiction; auto.
  intros H1 H2. qcases; try reflexivity; lra.
Qed.

Lemma ltb_compat (x x' y y' : number) :
  (x == x')%num -> (y == y')%num -> (x <? y)%num = (x' <? y')%num.
Proof.
  destruct x, x', y, y'; simpl; try contradiction; auto.
  intros H1 H2. qcases; try reflexivity; lra.
Qed.

(** Rounding an in-range value stays between the integer bounds. *)
Lemma Qfloor_half_range (q : Q) (lo hi : Z) :
  inject_Z lo <= q -> q <= inject_Z hi ->
  (lo <= Qfloor (q + (1 # 2)) <= hi)%Z.
Proof.
  intros Hlo Hhi. split.
  - rewrite <- (Qfloor_Z lo). apply Qfloor_resp_le. lra.
  - assert (Hh : Qfloor (inject_Z hi + (1 # 2)) = hi).
    { unfold Qfloor, inject_Z, Qplus. simpl.
      symmetry. apply Z.div_unique with (r := 1%Z); lia. }
    apply Z.le_trans with (Qfloor (inject_Z hi + (1 # 2))).
    + apply Qfloor_resp_le. lra.
    + rewrite Hh. apply Z.le_refl.
Qed.

Lemma Math_round_range (q : Q) (lo hi : Z) :
  inject_Z lo <= q -> q <= inject_Z hi ->
  exists k : Z, Math_round (Fin q) = num k /\ (lo <= k <= hi)%Z.
Proof.
  intros Hlo Hhi. exists (Qfloor (q + (1 # 2))). split.
  - reflexivity.
  - now apply Qfloor_half_range.
Qed.

(** [Math.max(0, Math.min(35, x))] is a finite value of [[0, 35]] unless
    [x] is [NaN]. *)
Lemma clamp_0_35 (x : number) :
  is_nan x = false ->
  exists q, Math_max zero (Math_min (num 35) x) = Fin q /\ 0 <= q <= 35.
Proof.
  destruct x as [a| | |]; simpl; intros Hn; try discriminate.
  - unfold Math_min, Math_max, num, zero, ltb.
    destruct (Qltb a (inject_Z 35)) eqn:H35.
    + destruct (Qltb 0 a) eqn:H0.
      * exists a. split; [reflexivity|]. qcases. unfold inject_Z in *. lra.
      * exists 0. split; [reflexivity|]. lra.
    + destruct (Qltb 0 (inject_Z 35)) eqn:H0.
      * exists (inject_Z 35). split; [reflexivity|]. unfold inject_Z. lra.
      * exists 0. split; [reflexivity|]. lra.
  - exists 35. split; [reflexivity|]. lra.
  - exists 0. split; [reflexivity|]. lra.
Qed.

Lemma positive_not_zero (x : number) :
  (x >? zero)%num = true -> num_eqb x zero = false.
Proof.
  destruct x as [a| | |]; simpl; try discriminate; auto.
  unfold gtb, ltb, zero. intros H. qcases; auto. lra.
Qed.

Lemma geb_not_ltb (a b : number) :
  (a >=? b)%num = true -> (a <? b)%num = false.
Proof.
  unfold geb. destruct a as [a| | |], b as [b| | |]; simpl;
    try discriminate; auto.
  intros H. qcases; auto; lra.
Qed.

Lemma num_leb (a b : Z) : (num a <=? num b)%num = true <-> (a <= b)%Z.
Proof.
  unfold num, leb. rewrite Qle_bool_iff, <- Zle_Qle. reflexivity.
Qed.

End NumFacts.

(* ================================================================== *)
(** * The cash flow health score *)
(* ================================================================== *)

Module CashFlowProps.

Import Analyzer Spec NumFacts.

Local Open Scope Q_scope.

(** The value whose clamp gives the score of a negative balance is never
    [NaN]. *)
Lemma deficit_term_not_nan (balance : number) :
  (balance <? zero)%num = true ->
  is_nan (num 35 - Math_abs balance / num 100)%num = false.
Proof.
  destruct balance as [b| | |]; simpl; try discriminate; reflexivity.
Qed.

Lemma Math_round_mono (x y : number) :
  (x <=? y)%num = true -> (Math_round x <=? Math_round y)%num = true.
Proof.
  destruct x as [a| | |], y as [b| | |]; cbn [Math_round leb];
    try discriminate; auto.
  intros H. apply Qle_bool_iff in H. apply Qle_bool_iff.
  rewrite <- Zle_Qle. apply Qfloor_resp_le. lra.
Qed.

Lemma Math_min_mono (c x y : number) :
  is_nan c = false ->
  (x <=? y)%num = true -> (Math_min c x <=? Math_min c y)%num = true.
Proof.
  destruct c as [c| | |], x as [a| | |], y as [b| | |]; simpl;
    try discriminate; auto; intros _ H;
    unfold Math_min, ltb, leb in *; qcases; auto; try lra.
Qed.

Lemma Math_max_mono (c x y : number) :
  is_nan c = false ->
  (x <=? y)%num = true -> (Math_max c x <=? Math_max c y)%num = true.
Proof.
  destruct c as [c| | |], x as [a| | |], y as [b| | |]; simpl;
    try discriminate; auto; intros _ H;
    unfold Math_max, ltb, leb in *; qcases; auto; try lra.
Qed.

Lemma deficit_term_mono (deeper balance : number) :
  (deeper <=? balance)%num = true -> (balance <? zero)%num = true ->
  (num 35 - Math_abs deeper / num 100 <=?
   num 35 - Math_abs balance / num 100)%num = true.
Proof.
  destruct deeper as [a| | |], balance as [b| | |];
    cbn [leb ltb zero]; try discriminate; try reflexivity.
  intros H1 H2. apply Qle_bool_iff in H1. apply Qltb_lt in H2.
  unfold num, Math_abs, div, sub, neg, add.
  change (Qeq_bool (inject_Z 100) 0) with false. cbn [leb].
  apply Qle_bool_iff.
  rewrite (Qabs_neg a), (Qabs_neg b) by lra.
  unfold Qdiv. change (/ inject_Z 100) with (1 # 100).
  unfold inject_Z. lra.
Qed.

(** A deeper deficit never gives a higher score. *)
Lemma deficit_score_mono (deeper balance : number) :
  (deeper <=? balance)%num = true -> (balance <? zero)%num = true ->
  (deficit_score deeper <=? deficit_score balance)%num = true.
Proof.
  intros H1 H2. unfold deficit_score, clamp.
  apply Math_round_mono, Math_max_mono; [reflexivity|].
  apply Math_min_mono; [reflexivity|]. now apply deficit_term_mono.
Qed.

Lemma leb_ltb_trans (a b c : number) :
  (a <=? b)%num = true -> (b <? c)%num = true -> (a <? c)%num = true.
Proof.
  destruct a as [a| | |], b as [b| | |], c as [c| | |]; simpl;
    try discriminate; auto.
  intros H1 H2. qcases; auto; lra.
Qed.

Lemma negative_balance_score (income : IncomeAnalysis)
    (spending balance : number) :
  (balance <? zero)%num = true ->
  score (calculateCashFlowHealth income spending balance) =
  deficit_score balance.
Proof.
  intros Hneg. unfold calculateCashFlowHealth. rewrite Hneg. reflexivity.
Qed.

(** C2.  A strictly negative balance gives the status [critical] and the
    score [clamp(0, 35, 35 - |balance| / 100)] rounded to an integer, which
    lies between 0 and 35 whatever the income analysis and the spending
    total are; a deeper deficit never gives a higher score. *)
Theorem negative_balance_is_critical (income : IncomeAnalysis)
    (spending balance : number) :
  (balance <? zero)%num = true ->
  let h := calculateCashFlowHealth income spending balance in
  status h = critical /\
  score h =
    Math_round (clamp zero (num 35) (num 35 - Math_abs balance / num 100)%num)
  /\
  (exists k : Z, score h = num k /\ (0 <= k <= 35)%Z) /\
  (score h <=? num 35)%num = true /\
  (forall deeper, (deeper <=? balance)%num = true ->
     (score (calculateCashFlowHealth income spending deeper) <=? score h)%num
     = true).
Proof.
  intros Hneg h. subst h.
  split; [unfold calculateCashFlowHealth; now rewrite Hneg|].
  rewrite (negative_balance_score income spending balance Hneg).
  split; [reflexivity|].
  unfold deficit_score, clamp.
  destruct (clamp_0_35 _ (deficit_term_not_nan balance Hneg))
    as [q [Hq [Hq0 Hq35]]].
  destruct (@Math_round_range q 0 35) as [k [Hk Hrange]];
    [unfold inject_Z; lra | unfold inject_Z; lra |].
  split; [|split].
  - rewrite Hq, Hk. exists k. split; [reflexivity | exact Hrange].
  - rewrite Hq, Hk. apply num_leb. lia.
  - intros deeper Hle.
    rewrite (negative_balance_score income spending deeper
               (leb_ltb_trans deeper balance zero Hle Hneg)).
    now apply deficit_score_mono.
Qed.

Lemma negative_balance_is_critical_witness :
  let h := calculateCashFlowHealth
             {| totalIncome := num 1000; averageMonthly := num 1000;
                isVariable := false; variability := zero;
                pattern := monthly; lastPaycheck := None;
                incomeTransactions := [] |}
             (num 2500) (num (-1500)) in
  status h = critical /\ score h = num 20.
Proof.
  destruct (negative_balance_is_critical
              {| totalIncome := num 1000; averageMonthly := num 1000;
                 isVariable := false; variability := zero;
                 pattern := monthly; lastPaycheck := None;
                 incomeTransactions := [] |}
              (num 2500) (num (-1500)) eq_refl) as [Hs [Hv _]].
  split; [exact Hs | rewrite Hv; reflexivity].
Defined.

(** C10.  When the balance is not strictly negative, as is every balance
    that is zero or more, the score is at least 55 (and at most 100), so
    the status is [healthy] or [warning]; together with the negative case,
    the status is [critical] exactly when the balance is strictly
    negative. *)
Theorem critical_iff_negative_balance (income : IncomeAnalysis)
    (spending balance : number) :
  let h := calculateCashFlowHealth income spending balance in
  ((balance <? zero)%num = false ->
     (num 55 <=? score h)%num = true /\
     (score h <=? num 100)%num = true /\
     (status h = healthy \/ status h = warning)) /\
  (status h = critical <-> (balance <? zero)%num = true) /\
  ((balance >=? zero)%num = true -> (balance <? zero)%num = false).
Proof.
  intros h.
  assert (Hnonneg : (balance <? zero)%num = false ->
     (num 55 <=? score h)%num = true /\
     (score h <=? num 100)%num = true /\
     (status h = healthy \/ status h = warning)).
  { intros Hb. subst h. unfold calculateCashFlowHealth. rewrite Hb.
    cbv zeta.
    set (ratio := if (averageMonthly income >? zero)%num then _ else _).
    set (toSpending := (balance / _)%num).
    clearbody ratio toSpending.
    destruct (ratio >=? dec 15 10)%num;
      [| destruct (ratio >=? dec 12 10)%num;
         [| destruct (ratio >=? num 1)%num;
            [| destruct (ratio >=? dec 8 10)%num ] ] ];
    (destruct (toSpending >=? num 2)%num;
      [| destruct (toSpending >=? num 1)%num;
         [| destruct (toSpending >=? dec 5 10)%num ] ]);
    (destruct (isVariable income);
      [ destruct (variability income <? dec 3 10)%num;
        [| destruct (variability income <? dec 5 10)%num ] |]);
    vm_compute; auto. }
  split; [exact Hnonneg|]. split; [split|].
  - intros Hc. destruct (balance <? zero)%num eqn:Hb; [reflexivity|].
    destruct (Hnonneg eq_refl) as [_ [_ [H|H]]]; congruence.
  - intros Hb. subst h. unfold calculateCashFlowHealth. rewrite Hb.
    reflexivity.
  - apply geb_not_ltb.
Qed.

End CashFlowProps.

(* ================================================================== *)
(** * Facts about [Array.prototype.sort] and the grouping maps *)
(* ================================================================== *)

Module SortFacts.

Import NumFacts.

Ltac sort_simpl :=
  cbn [sort_insert Array_sort fold_right filter List.length].

Section Sorting.

Context {A : Type}.
Variable cmp : A -> A -> number.

Lemma sort_insert_perm (x : A) (l : list A) :
  Permutation (x :: l) (sort_insert cmp x l).
Proof.
  induction l as [|y l IH]; sort_simpl.
  - apply Permutation_refl.
  - destruct (cmp x y >? zero)%num.
    + eapply perm_trans; [apply perm_swap|]. now apply perm_skip.
    + apply Permutation_refl.
Qed.

Lemma Array_sort_perm (l : list A) : Permutation l (Array_sort cmp l).
Proof.
  induction l as [|x l IH]; sort_simpl.
  - apply perm_nil.
  - eapply perm_trans; [|apply sort_insert_perm]. now apply perm_skip.
Qed.

Lemma Array_sort_length (l : list A) :
  List.length (Array_sort cmp l) = List.length l.
Proof. symmetry. apply Permutation_length, Array_sort_perm. Qed.

Lemma Array_sort_In (l : list A) (x : A) :
  In x (Array_sort cmp l) <-> In x l.
Proof.
  split; apply Permutation_in;
    [apply Permutation_sym|]; apply Array_sort_perm.
Qed.

(** The result is ordered by every relation that the comparator decides
    on the elements at hand. *)
Section Ordered.

Variable P : A -> Prop.
Variable R : A -> A -> Prop.
Hypothesis keep : forall x y, P x -> P y ->
  (cmp x y >? zero)%num = false -> R x y.
Hypothesis swap : forall x y, P x -> P y ->
  (cmp x y >? zero)%num = true -> R y x.

Lemma sort_insert_HdRel (a x : A) (l : list A) :
  R a x -> HdRel R a l -> HdRel R a (sort_insert cmp x l).
Proof.
  intros Hax Hal. destruct l as [|y l]; sort_simpl.
  - now constructor.
  - destruct (cmp x y >? zero)%num; constructor; auto.
    now inversion Hal.
Qed.

Lemma sort_insert_Sorted (x : A) (l : list A) :
  P x -> Forall P l -> Sorted R l -> Sorted R (sort_insert cmp x l).
Proof.
  intros Px Pl Hs. induction l as [|y l IH]; sort_simpl.
  - repeat constructor.
  - inversion Pl as [|? ? Py Pl']; subst.
    inversion Hs as [|? ? Hs' Hd]; subst.
    destruct (cmp x y >? zero)%num eqn:Hc.
    + constructor; [now apply IH|].
      apply sort_insert_HdRel; [now apply swap | exact Hd].
    + constructor; [exact Hs|]. constructor. now apply keep.
Qed.

Lemma Array_sort_Sorted (l : list A) :
  Forall P l -> Sorted R (Array_sort cmp l).
Proof.
  induction l as [|x l IH]; sort_simpl; intros Pl.
  - constructor.
  - inversion Pl as [|? ? Px Pl']; subst.
    apply sort_insert_Sorted; auto.
    eapply Permutation_Forall; [apply Array_sort_perm | exact Pl'].
Qed.

End Ordered.

(** Stability: elements that the comparator never puts after one another
    keep their relative order. *)
Section Stable.

Variable p : A -> bool.
Hypothesis tied : forall x y, p x = true -> p y = true ->
  (cmp x y >? zero)%num = false.

Lemma sort_insert_stable (x : A) (l : list A) :
  filter p (sort_insert cmp x l) = filter p (x :: l).
Proof.
  induction l as [|y l IH]; sort_simpl; [reflexivity|].
  destruct (cmp x y >? zero)%num eqn:Hc; [|reflexivity].
  sort_simpl. rewrite IH. sort_simpl.
  destruct (p x) eqn:Px, (p y) eqn:Py; try reflexivity.
  rewrite (tied Px Py) in Hc. discriminate.
Qed.

Lemma Array_sort_stable (l : list A) :
  filter p (Array_sort cmp l) = filter p l.
Proof.
  induction l as [|x l IH]; [reflexivity|].
  unfold Array_sort in *. cbn [fold_right].
  rewrite sort_insert_stable. cbn [filter]. now rewrite IH.
Qed.

End Stable.

End Sorting.

(** Sorting a list that is already in order leaves it as it is. *)
Lemma Array_sort_sorted_id {A : Type} (cmp : A -> A -> number)
    (l : list A) :
  StronglySorted (fun x y => (cmp x y >? zero)%num = false) l ->
  Array_sort cmp l = l.
Proof.
  induction 1 as [|x l Hs IH Hall]; [reflexivity|].
  unfold Array_sort in *. cbn [fold_right].
  rewrite IH. destruct l as [|y l']; sort_simpl; [reflexivity|].
  inversion Hall as [|? ? Hxy _]; subst. now rewrite Hxy.
Qed.

End SortFacts.

Module GroupFacts.

Import Spec.

Section Grouping.

Context {V : Type}.
Variable key : V -> string.

Lemma Map_push_keys (k : string) (v : V) (m : Map V) :
  map fst (Map_push k v m) = note_key (map fst m) k.
Proof.
  unfold note_key. induction m as [|[k' vs] m IH]; simpl; [reflexivity|].
  rewrite (String.eqb_sym k k').
  destruct (String.eqb k' k); simpl; [reflexivity|].
  rewrite IH. destruct (existsb (String.eqb k) (map fst m)); reflexivity.
Qed.

Lemma group_into_keys (l : list V) (m : Map V) :
  map fst (group_into key m l) = fold_left note_key (map key l) (map fst m).
Proof.
  revert m. induction l as [|v l IH]; intros m; simpl; [reflexivity|].
  unfold group_into in *. simpl. rewrite IH, Map_push_keys. reflexivity.
Qed.

Lemma Map_get_push (k k' : string) (v : V) (m : Map V) :
  Map_get k' (Map_push k v m) =
  if String.eqb k k'
  then Some (match Map_get k m with Some vs => vs ++ [v] | None => [v] end)
  else Map_get k' m.
Proof.
  induction m as [|[k0 vs] m IH]; simpl.
  - destruct (String.eqb k k'); reflexivity.
  - destruct (String.eqb k0 k) eqn:E0; simpl.
    + apply String.eqb_eq in E0. subst k0.
      destruct (String.eqb k k'); reflexivity.
    + destruct (String.eqb k0 k') eqn:E1.
      * apply String.eqb_eq in E1. subst k0.
        rewrite String.eqb_sym, E0. reflexivity.
      * exact IH.
Qed.

Lemma Map_get_group_into (k : string) (l : list V) (m : Map V) :
  Map_get k (group_into key m l) =
  match Map_get k m with
  | Some vs => Some (vs ++ members key k l)
  | None => match members key k l with [] => None | g => Some g end
  end.
Proof.
  revert m. induction l as [|v l IH]; intros m.
  - simpl. destruct (Map_get k m); [now rewrite app_nil_r | reflexivity].
  - unfold group_into in *. simpl. rewrite IH, Map_get_push.
    unfold members. simpl.
    destruct (String.eqb (key v) k) eqn:E.
    + apply String.eqb_eq in E. rewrite E.
      destruct (Map_get k m); [now rewrite <- app_assoc | reflexivity].
    + destruct (Map_get k m); reflexivity.
Qed.

Lemma note_key_NoDup (seen : list string) (k : string) :
  NoDup seen -> NoDup (note_key seen k).
Proof.
  intros Hn. unfold note_key.
  destruct (existsb (String.eqb k) seen) eqn:E; [exact Hn|].
  apply NoDup_app; [exact Hn | repeat constructor; intros [] |].
  intros x Hx [Hk|[]]. subst x.
  assert (existsb (String.eqb k) seen = true); [|congruence].
  apply existsb_exists. exists k. split; [exact Hx | apply String.eqb_refl].
Qed.

Lemma fold_note_key_NoDup (ks seen : list string) :
  NoDup seen -> NoDup (fold_left note_key ks seen).
Proof.
  revert seen. induction ks as [|k ks IH]; intros seen Hn; simpl; auto.
  apply IH. now apply note_key_NoDup.
Qed.

Lemma group_into_NoDup (l : list V) :
  NoDup (map fst (group_into key [] l)).
Proof.
  rewrite group_into_keys. apply fold_note_key_NoDup. constructor.
Qed.

Lemma Map_get_In (k : string) (vs : list V) (m : Map V) :
  NoDup (map fst m) -> In (k, vs) m -> Map_get k m = Some vs.
Proof.
  induction m as [|[k0 vs0] m IH]; simpl; intros Hn Hin; [contradiction|].
  inversion Hn as [|? ? Hnotin Hn']; subst.
  destruct Hin as [Heq|Hin].
  - inversion Heq; subst. now rewrite String.eqb_refl.
  - destruct (String.eqb k0 k) eqn:E.
    + apply String.eqb_eq in E. subst k0. exfalso. apply Hnotin.
      change k with (fst (k, vs)). now apply in_map.
    + now apply IH.
Qed.

(** Every group of the map is made of the elements with its key, in the
    order of the input, and is not empty. *)
Lemma group_into_members (k : string) (vs : list V) (l : list V) :
  In (k, vs) (group_into key [] l) -> vs = members key k l /\ vs <> [].
Proof.
  intros Hin. apply Map_get_In in Hin; [|apply group_into_NoDup].
  rewrite Map_get_group_into in Hin. simpl in Hin.
  destruct (members key k l) eqn:E; [discriminate|].
  inversion Hin; subst. split; [reflexivity | discriminate].
Qed.

Lemma map_of_keys (m : Map V) (f : string -> list V) :
  (forall k vs, In (k, vs) m -> vs = f k) ->
  m = map (fun k => (k, f k)) (map fst m).
Proof.
  induction m as [|[k vs] m IH]; simpl; intros H; [reflexivity|].
  rewrite <- IH by (intros; apply H; now right).
  now rewrite <- (H k vs) by now left.
Qed.

(** The map in closed form: one entry per distinct key, in the order of
    first occurrence, holding the elements with that key. *)
Lemma group_into_closed_form (l : list V) :
  group_into key [] l =
  map (fun k => (k, members key k l)) (first_occurrences (map key l)).
Proof.
  rewrite (map_of_keys (group_into key [] l) (fun k => members key k l)) at 1.
  - now rewrite group_into_keys.
  - intros k vs Hin. now apply group_into_members.
Qed.

End Grouping.

Lemma fold_left_filter {A B : Type} (p : B -> bool) (f : A -> B -> A)
    (l : list B) (a : A) :
  fold_left (fun acc x => if p x then f acc x else acc) l a =
  fold_left f (filter p l) a.
Proof.
  revert a. induction l as [|x l IH]; intros a; simpl; [reflexivity|].
  destruct (p x); simpl; apply IH.
Qed.

End GroupFacts.

(* ================================================================== *)
(** * Income detection and the totals *)
(* ================================================================== *)

Module IncomeProps.

Import Analyzer Spec NumFacts.

Local Open Scope Q_scope.

Lemma fold_add_map {A : Type} (g : A -> number) (l : list A) (a : number) :
  fold_left (fun sum t => (sum + g t)%num) l a = fold_left add (map g l) a.
Proof.
  revert a. induction l as [|x l IH]; intros a; simpl; [reflexivity|].
  apply IH.
Qed.

Lemma fold_add_compat (l : list number) (a a' : number) :
  (a == a')%num -> (fold_left add l a == fold_left add l a')%num.
Proof.
  revert a a'. induction l as [|x l IH]; intros a a' H; simpl; [exact H|].
  apply IH. apply add_compat; [exact H | apply num_eq_refl].
Qed.

(** Summing over the selected elements is summing, over all elements, what
    each one contributes. *)
Lemma sum_filter_shares {A : Type} (p : A -> bool) (g : A -> number)
    (l : list A) (a : number) :
  (fold_left add (map g (filter p l)) a ==
   fold_left add (map (fun t => if p t then g t else zero) l) a)%num.
Proof.
  revert a. induction l as [|x l IH]; intros a; simpl.
  - apply num_eq_refl.
  - destruct (p x); simpl; [apply IH|].
    eapply num_eq_trans; [apply IH|].
    apply fold_add_compat, num_eq_sym, add_zero_r.
Qed.

Lemma detectIncome_total (Math_sqrt : number -> number)
    (txs : list Transaction) :
  totalIncome (detectIncome Math_sqrt txs) =
  sum_of (map (fun t => Math_abs (amount t)) (filter is_income txs)).
Proof.
  unfold detectIncome. fold is_income.
  destruct (filter is_income txs) as [|t inc] eqn:E; [reflexivity|].
  cbn [List.length Nat.eqb totalIncome]. apply fold_add_map.
Qed.

(** C6.  The income total is the sum of the absolute amounts of exactly the
    transactions with a strictly negative amount, the spending total is the
    sum of the amounts of exactly those with a strictly positive amount;
    summed over all transactions, every transaction adds to at most one of
    the two totals, and one whose amount is zero adds to neither. *)
Theorem totals_partition_by_sign (Math_sqrt : number -> number) (now : Z)
    (txs : list Transaction) (accounts : list AccountBase) :
  let r := analyzeFinances Math_sqrt now txs accounts in
  totalIncome (detectIncome Math_sqrt txs) =
    sum_of (map (fun t => Math_abs (amount t)) (filter is_income txs)) /\
  totalIncome (income r) = totalIncome (detectIncome Math_sqrt txs) /\
  sp_total (spending r) = sum_of (map amount (filter is_spending txs)) /\
  (totalIncome (income r) == sum_of (map income_share txs))%num /\
  (sp_total (spending r) == sum_of (map spending_share txs))%num /\
  (forall t, is_income t && is_spending t = false) /\
  (forall t, income_share t = zero \/ spending_share t = zero) /\
  (forall t, (amount t == zero)%num ->
     is_income t = false /\ is_spending t = false /\
     income_share t = zero /\ spending_share t = zero).
Proof.
  intros r. subst r.
  assert (Hex : forall t, is_income t && is_spending t = false).
  { intros t. unfold is_income, is_spending, gtb.
    destruct (amount t <? zero)%num eqn:H; [|reflexivity].
    now rewrite (ltb_asym _ _ H). }
  repeat split.
  - apply detectIncome_total.
  - cbn [analyzeFinances income sp_total spending]. unfold sum_amounts.
    apply fold_add_map.
  - cbn [analyzeFinances income]. rewrite detectIncome_total.
    apply (sum_filter_shares is_income (fun t => Math_abs (amount t))).
  - cbn [analyzeFinances sp_total spending]. unfold sum_amounts.
    rewrite fold_add_map.
    apply (sum_filter_shares is_spending (fun t => amount t)).
  - exact Hex.
  - intros t. specialize (Hex t). unfold income_share, spending_share.
    destruct (is_income t); [right | left; reflexivity].
    simpl in Hex. now rewrite Hex.
  - unfold is_income. now apply ltb_irrefl_eq.
  - unfold is_spending, gtb. now apply ltb_irrefl_eq, num_eq_sym.
  - unfold income_share, is_income. now rewrite ltb_irrefl_eq.
  - unfold spending_share, is_spending, gtb.
    now rewrite ltb_irrefl_eq by now apply num_eq_sym.
Qed.

(** ** The monthly average *)

Lemma Math_max_num (a b : Z) :
  Math_max (getTime_of_day a) (getTime_of_day b) = getTime_of_day (Z.max a b).
Proof.
  unfold getTime_of_day, num, Math_max, ltb.
  destruct (Qltb (inject_Z (a * 86400000)) (inject_Z (b * 86400000))) eqn:H.
  - apply Qltb_lt in H. rewrite <- Zlt_Qlt in H.
    rewrite Z.max_r by lia. reflexivity.
  - apply Qltb_ge in H. rewrite <- Zle_Qle in H.
    rewrite Z.max_l by lia. reflexivity.
Qed.

Lemma Math_min_num (a b : Z) :
  Math_min (getTime_of_day a) (getTime_of_day b) = getTime_of_day (Z.min a b).
Proof.
  unfold getTime_of_day, num, Math_min, ltb.
  destruct (Qltb (inject_Z (b * 86400000)) (inject_Z (a * 86400000))) eqn:H.
  - apply Qltb_lt in H. rewrite <- Zlt_Qlt in H.
    rewrite Z.min_r by lia. reflexivity.
  - apply Qltb_ge in H. rewrite <- Zle_Qle in H.
    rewrite Z.min_l by lia. reflexivity.
Qed.

Lemma fold_Math_max_days (ds : list Z) (d : Z) :
  fold_left Math_max (map getTime_of_day ds) (getTime_of_day d) =
  getTime_of_day (fold_left Z.max ds d).
Proof.
  revert d. induction ds as [|x ds IH]; intros d; [reflexivity|].
  cbn [map fold_left]. rewrite Math_max_num. apply IH.
Qed.

Lemma fold_Math_min_days (ds : list Z) (d : Z) :
  fold_left Math_min (map getTime_of_day ds) (getTime_of_day d) =
  getTime_of_day (fold_left Z.min ds d).
Proof.
  revert d. induction ds as [|x ds IH]; intros d; [reflexivity|].
  cbn [map fold_left]. rewrite Math_min_num. apply IH.
Qed.

Lemma Math_max_of_getTime (t : Transaction) (ts : list Transaction) :
  Math_max_of (map getTime (t :: ts)) = getTime_of_day (latest_day (t :: ts)).
Proof.
  unfold Math_max_of, latest_day, getTime. cbn [map fold_left].
  rewrite <- (map_map date getTime_of_day).
  change (Math_max NegInf (getTime_of_day (date t)))
    with (getTime_of_day (date t)).
  apply fold_Math_max_days.
Qed.

Lemma Math_min_of_getTime (t : Transaction) (ts : list Transaction) :
  Math_min_of (map getTime (t :: ts)) =
  getTime_of_day (earliest_day (t :: ts)).
Proof.
  unfold Math_min_of, earliest_day, getTime. cbn [map fold_left].
  rewrite <- (map_map date getTime_of_day).
  change (Math_min PosInf (getTime_of_day (date t)))
    with (getTime_of_day (date t)).
  apply fold_Math_min_days.
Qed.

(** The difference of two timestamps, in days. *)
Lemma days_between (a b : Z) :
  ((getTime_of_day b - getTime_of_day a) / msPerDay == num (b - a))%num.
Proof.
  unfold getTime_of_day, msPerDay, num, sub, neg, add, div.
  change (Qeq_bool (inject_Z (1000 * 60 * 60 * 24)) 0) with false.
  cbn [num_eq]. change (1000 * 60 * 60 * 24)%Z with 86400000%Z.
  unfold Z.sub. rewrite inject_Z_plus, inject_Z_opp, !inject_Z_mult.
  field.
Qed.

Lemma div_compat (x x' y y' : number) :
  (x == x')%num -> (y == y')%num -> (x / y == x' / y')%num.
Proof.
  destruct x as [a| | |], x' as [a'| | |], y as [b| | |], y' as [b'| | |];
    simpl; try contradiction; auto; intros H1 H2.
  all: qcases; simpl; auto; try lra; try (exfalso; lra).
  all: now rewrite H1, H2.
Qed.

Lemma Math_max_compat (x x' y y' : number) :
  (x == x')%num -> (y == y')%num -> (Math_max x y == Math_max x' y')%num.
Proof.
  destruct x as [a| | |], x' as [a'| | |], y as [b| | |], y' as [b'| | |];
    simpl; try contradiction; auto; intros H1 H2.
  unfold Math_max, ltb. qcases; simpl; auto; lra.
Qed.

Lemma div_one (x : number) : (x / num 1 == x)%num.
Proof.
  destruct x as [a| | |]; simpl; auto.
  change (Qeq_bool (inject_Z 1) 0) with false. cbn [num_eq].
  unfold inject_Z. field.
Qed.

(** C8.  With at least one income transaction the monthly average is the
    income total divided by [max(1, dayRange / 30)], where [dayRange] is the
    number of days between the earliest and the latest income date; with a
    single income transaction the range is 0 and the average is the total;
    without any income the neutral record is returned. *)
Theorem detectIncome_average_monthly (Math_sqrt : number -> number)
    (txs : list Transaction) :
  let inc := filter is_income txs in
  let r := detectIncome Math_sqrt txs in
  ((inc <> [])%type ->
     incomeTransactions r = inc /\
     (averageMonthly r ==
      totalIncome r / Math_max (num 1) (num (day_span inc) / num 30))%num) /\
  (forall t, inc = [t] ->
     day_span inc = 0%Z /\ (averageMonthly r == totalIncome r)%num) /\
  (inc = [] -> r = no_income).
Proof.
  intros inc r.
  assert (Hgen : (inc <> [])%type ->
     incomeTransactions r = inc /\
     (averageMonthly r ==
      totalIncome r / Math_max (num 1) (num (day_span inc) / num 30))%num).
  { subst inc r. unfold detectIncome. fold is_income.
    destruct (filter is_income txs) as [|t ts] eqn:E; [congruence|].
    intros _. cbn [List.length Nat.eqb averageMonthly totalIncome
                   incomeTransactions].
    split; [reflexivity|].
    apply div_compat; [apply num_eq_refl|].
    apply Math_max_compat; [apply num_eq_refl|].
    apply div_compat; [|apply num_eq_refl].
    rewrite Math_max_of_getTime, Math_min_of_getTime.
    apply days_between. }
  split; [exact Hgen|]. split.
  - intros t Ht.
    assert (Hspan : day_span inc = 0%Z).
    { rewrite Ht. unfold day_span, latest_day, earliest_day. simpl. lia. }
    split; [exact Hspan|].
    destruct Hgen as [_ Havg]; [rewrite Ht; discriminate|].
    eapply num_eq_trans; [exact Havg|]. rewrite Hspan.
    change (Math_max (num 1) (num 0 / num 30)) with (num 1).
    apply div_one.
  - subst inc r. unfold detectIncome. fold is_income. intros ->. reflexivity.
Qed.

End IncomeProps.

(* ================================================================== *)
(** * Cadence classification *)
(* ================================================================== *)

Module CadenceProps.

Import Spec NumFacts SortFacts IncomeProps.

Local Open Scope Q_scope.

Lemma ltb_getTime (a b : Z) :
  (getTime_of_day a <? getTime_of_day b)%num = (a <? b)%Z.
Proof.
  unfold getTime_of_day, num, ltb.
  destruct (Qltb (inject_Z (a * 86400000)) (inject_Z (b * 86400000))) eqn:H;
    symmetry.
  - apply Qltb_lt in H. rewrite <- Zlt_Qlt in H. apply Z.ltb_lt. lia.
  - apply Qltb_ge in H. rewrite <- Zle_Qle in H. apply Z.ltb_ge. lia.
Qed.

Lemma by_date_gtb (x y : Transaction) :
  (Analyzer.by_date x y >? zero)%num = (date y <? date x)%Z.
Proof.
  unfold Analyzer.by_date. rewrite sub_gtb_ltb. apply ltb_getTime.
Qed.

Lemma map_StronglySorted {A B : Type} (f : A -> B) (R : B -> B -> Prop)
    (l : list A) :
  StronglySorted (fun x y => R (f x) (f y)) l -> StronglySorted R (map f l).
Proof.
  induction 1 as [|x l Hs IH Hall]; simpl; constructor; auto.
  apply Forall_map. exact Hall.
Qed.

(** The detectors sort by day, and keep every transaction. *)
Lemma sorted_by_date (txs : list Transaction) :
  StronglySorted (fun x y => (date x <= date y)%Z)
                 (Array_sort Analyzer.by_date txs).
Proof.
  apply Sorted_StronglySorted.
  - intros x y z Hxy Hyz. lia.
  - apply Array_sort_Sorted with (P := fun _ => True).
    + intros x y _ _ H. rewrite by_date_gtb in H. apply Z.ltb_ge in H. lia.
    + intros x y _ _ H. rewrite by_date_gtb in H. apply Z.ltb_lt in H. lia.
    + apply Forall_forall. auto.
Qed.

Lemma sorted_days_sorted (txs : list Transaction) :
  StronglySorted Z.le (sorted_days txs).
Proof. apply map_StronglySorted, sorted_by_date. Qed.

Lemma sorted_days_perm (txs : list Transaction) :
  Permutation (map date txs) (sorted_days txs).
Proof. apply Permutation_map, Array_sort_perm. Qed.

(** The gaps the loops compute are the gaps between the days. *)

Lemma Qfloor_half_Z (q : Q) (z : Z) :
  q == inject_Z z -> Qfloor (q + (1 # 2)) = z.
Proof.
  intros H. rewrite H. unfold Qfloor, inject_Z, Qplus. simpl.
  symmetry. apply Z.div_unique with (r := 1%Z); lia.
Qed.

Lemma Math_round_whole (x : number) (z : Z) :
  same_value x z -> same_value (Math_round x) z.
Proof.
  unfold same_value, num. destruct x as [q| | |];
    cbn [Math_round num_eq]; try contradiction.
  intros H. rewrite (@Qfloor_half_Z q z H). reflexivity.
Qed.

Lemma income_intervals_gaps (l : list Transaction) :
  Forall2 same_value (Analyzer.intervals l) (day_gaps (map date l)).
Proof.
  induction l as [|a [|b l] IH]; try constructor.
  - apply days_between.
  - exact IH.
Qed.

Lemma subscription_intervals_gaps (l : list Transaction) :
  Forall2 same_value (Subscriptions.intervals l) (day_gaps (map date l)).
Proof.
  induction l as [|a [|b l] IH]; try constructor.
  - apply Math_round_whole, days_between.
  - exact IH.
Qed.

Lemma fold_add_same_value (xs : list number) (zs : list Z) :
  Forall2 same_value xs zs ->
  forall (a : number) (c : Z), same_value a c ->
  same_value (fold_left add xs a) (fold_left Z.add zs c).
Proof.
  induction 1 as [|x z xs zs Hxz _ IH]; intros a c Hac; simpl; [exact Hac|].
  apply IH. unfold same_value in *.
  eapply num_eq_trans; [apply (@add_compat _ _ _ _ Hac Hxz)|].
  unfold num. simpl. rewrite inject_Z_plus. reflexivity.
Qed.

Lemma day_gaps_length (ds : list Z) :
  List.length (day_gaps ds) = pred (List.length ds).
Proof.
  induction ds as [|a [|b ds] IH]; try reflexivity.
  cbn [day_gaps List.length] in *. now rewrite IH.
Qed.

(** Both loops average to the average gap of the sorted days. *)
Lemma average_of_intervals (xs : list number) (txs : list Transaction) :
  (2 <= List.length txs)%nat ->
  Forall2 same_value xs (day_gaps (sorted_days txs)) ->
  (sum_of xs / Analyzer.len xs == Fin (average_gap (sorted_days txs)))%num.
Proof.
  intros Hlen Hgaps.
  assert (Hn : List.length xs = List.length (day_gaps (sorted_days txs)))
    by (eapply Forall2_length; eauto).
  assert (Hpos : (1 <= List.length (day_gaps (sorted_days txs)))%nat).
  { rewrite day_gaps_length. unfold sorted_days.
    rewrite length_map, Array_sort_length. lia. }
  pose proof (@fold_add_same_value _ _ Hgaps zero 0%Z (num_eq_refl _)) as Hsum.
  unfold same_value in Hsum. fold (sum_of xs) in Hsum.
  fold (sum_Z (day_gaps (sorted_days txs))) in Hsum.
  unfold average_gap, Analyzer.len. rewrite Hn.
  set (n := Z.of_nat (List.length (day_gaps (sorted_days txs)))) in *.
  assert (Hnz : ~ inject_Z n == 0).
  { unfold n. change 0 with (inject_Z 0). rewrite inject_Z_injective. lia. }
  destruct (sum_of xs) as [s| | |]; simpl in Hsum; try contradiction.
  unfold num, div. apply Qeq_bool_ne in Hnz. rewrite Hnz. simpl.
  now rewrite Hsum.
Qed.

Lemma in_bandb_leb (x : number) (avg : Q) (lo hi : Z) :
  (x == Fin avg)%num ->
  (x >=? num lo)%num && (x <=? num hi)%num = in_bandb lo hi avg.
Proof.
  intros H. unfold geb, in_bandb.
  rewrite (@leb_compat (num lo) (num lo) x (Fin avg) (num_eq_refl _) H).
  rewrite (@leb_compat x (Fin avg) (num hi) (num hi) H (num_eq_refl _)).
  reflexivity.
Qed.

Lemma in_bandb_iff (lo hi : Z) (avg : Q) :
  in_bandb lo hi avg = true <-> in_band lo hi avg.
Proof.
  unfold in_bandb, in_band. rewrite andb_true_iff, !Qle_bool_iff. tauto.
Qed.

(** The income detector classifies the average gap of the sorted days. *)
Lemma detectPaymentPattern_cadence (txs : list Transaction) :
  (2 <= List.length txs)%nat ->
  Analyzer.detectPaymentPattern txs =
  income_cadence (average_gap (sorted_days txs)).
Proof.
  intros Hlen. unfold Analyzer.detectPaymentPattern.
  destruct (List.length txs <? 2)%nat eqn:E;
    [apply Nat.ltb_lt in E; lia|].
  cbv zeta.
  pose proof (@average_of_intervals _ txs Hlen
                (income_intervals_gaps (Array_sort Analyzer.by_date txs)))
    as Havg.
  rewrite !(fun lo hi => @in_bandb_leb _ _ lo hi Havg). reflexivity.
Qed.

Lemma detectFrequencyPattern_cadence (txs : list Transaction) :
  (2 <= List.length txs)%nat ->
  Subscriptions.fp_frequency (Subscriptions.detectFrequencyPattern txs) =
  subscription_cadence (average_gap (sorted_days txs)).
Proof.
  intros Hlen. unfold Subscriptions.detectFrequencyPattern.
  destruct (List.length txs <? 2)%nat eqn:E;
    [apply Nat.ltb_lt in E; lia|].
  cbv zeta. cbn [Subscriptions.fp_frequency].
  pose proof (@average_of_intervals _ txs Hlen
                (subscription_intervals_gaps
                   (Array_sort Analyzer.by_date txs)))
    as Havg.
  change Subscriptions.len with (@Analyzer.len number).
  change Subscriptions.by_date with Analyzer.by_date.
  rewrite !(fun lo hi => @in_bandb_leb _ _ lo hi Havg). reflexivity.
Qed.

Lemma income_cadence_bands (avg : Q) :
  (income_cadence avg = Analyzer.monthly <-> in_band 25 35 avg) /\
  (income_cadence avg = Analyzer.biweekly <-> in_band 12 16 avg) /\
  (income_cadence avg = Analyzer.weekly <-> in_band 5 9 avg) /\
  (income_cadence avg = Analyzer.irregular <->
   ~ in_band 25 35 avg /\ ~ in_band 12 16 avg /\ ~ in_band 5 9 avg).
Proof.
  unfold income_cadence.
  destruct (in_bandb 25 35 avg) eqn:H1;
  destruct (in_bandb 12 16 avg) eqn:H2;
  destruct (in_bandb 5 9 avg) eqn:H3;
  repeat match goal with
  | H : in_bandb _ _ _ = true |- _ => apply in_bandb_iff in H
  | H : in_bandb _ _ _ = false |- _ =>
      apply not_true_iff_false in H; rewrite in_bandb_iff in H
  end;
  unfold in_band, inject_Z in *;
  repeat split; intros; try discriminate; try tauto; try lra.
Qed.

Lemma subscription_cadence_bands (avg : Q) :
  (subscription_cadence avg = Subscriptions.annual <-> in_band 340 390 avg) /\
  (subscription_cadence avg = Subscriptions.monthly <-> in_band 25 35 avg) /\
  (subscription_cadence avg = Subscriptions.weekly <-> in_band 5 9 avg) /\
  (subscription_cadence avg = Subscriptions.irregular <->
   ~ in_band 340 390 avg /\ ~ in_band 25 35 avg /\ ~ in_band 5 9 avg).
Proof.
  unfold subscription_cadence.
  destruct (in_bandb 340 390 avg) eqn:H1;
  destruct (in_bandb 25 35 avg) eqn:H2;
  destruct (in_bandb 5 9 avg) eqn:H3;
  repeat match goal with
  | H : in_bandb _ _ _ = true |- _ => apply in_bandb_iff in H
  | H : in_bandb _ _ _ = false |- _ =>
      apply not_true_iff_false in H; rewrite in_bandb_iff in H
  end;
  unfold in_band, inject_Z in *;
  repeat split; intros; try discriminate; try tauto; try lra.
Qed.

(** C7.  Both detectors sort the transactions by day and classify the
    average of the consecutive day gaps, and nothing else: on the income
    path [25,35] is monthly, [12,16] biweekly, [5,9] weekly; on the
    subscription path [340,390] is annual, [25,35] monthly, [5,9] weekly;
    any other average, and any list of fewer than two transactions, is
    irregular.  An average of exactly 30 is monthly, of exactly 14 biweekly
    and, on the subscription path, of exactly 365 annual. *)
Theorem cadence_from_average_gap (txs : list Transaction) :
  let days := sorted_days txs in
  let avg := average_gap days in
  let income := Analyzer.detectPaymentPattern txs in
  let charge :=
    Subscriptions.fp_frequency (Subscriptions.detectFrequencyPattern txs) in
  (StronglySorted Z.le days /\ Permutation (map date txs) days) /\
  ((List.length txs < 2)%nat ->
     income = Analyzer.irregular /\ charge = Subscriptions.irregular) /\
  ((2 <= List.length txs)%nat ->
     (income = Analyzer.monthly <-> in_band 25 35 avg) /\
     (income = Analyzer.biweekly <-> in_band 12 16 avg) /\
     (income = Analyzer.weekly <-> in_band 5 9 avg) /\
     (income = Analyzer.irregular <->
      ~ in_band 25 35 avg /\ ~ in_band 12 16 avg /\ ~ in_band 5 9 avg) /\
     (charge = Subscriptions.annual <-> in_band 340 390 avg) /\
     (charge = Subscriptions.monthly <-> in_band 25 35 avg) /\
     (charge = Subscriptions.weekly <-> in_band 5 9 avg) /\
     (charge = Subscriptions.irregular <->
      ~ in_band 340 390 avg /\ ~ in_band 25 35 avg /\ ~ in_band 5 9 avg) /\
     (avg == 30 -> income = Analyzer.monthly /\ charge = Subscriptions.monthly) /\
     (avg == 14 -> income = Analyzer.biweekly) /\
     (avg == 365 -> charge = Subscriptions.annual)).
Proof.
  intros days avg income charge.
  split; [split; [apply sorted_days_sorted | apply sorted_days_perm]|].
  split.
  - intros Hlen. subst income charge.
    unfold Analyzer.detectPaymentPattern, Subscriptions.detectFrequencyPattern.
    apply Nat.ltb_lt in Hlen. rewrite Hlen. split; reflexivity.
  - intros Hlen. subst income charge.
    rewrite (detectPaymentPattern_cadence txs Hlen).
    rewrite (detectFrequencyPattern_cadence txs Hlen).
    fold days. fold avg.
    destruct (income_cadence_bands avg) as (I1 & I2 & I3 & I4).
    destruct (subscription_cadence_bands avg) as (S1 & S2 & S3 & S4).
    repeat (split; [assumption|]).
    split; [|split]; intros Havg.
    + split; [apply I1 | apply S2];
        unfold in_band, inject_Z; rewrite Havg; lra.
    + apply I2. unfold in_band, inject_Z. rewrite Havg. lra.
    + apply S1. unfold in_band, inject_Z. rewrite Havg. lra.
Qed.

Lemma cadence_from_average_gap_witness :
  Analyzer.detectPaymentPattern Samples.paychecks = Analyzer.monthly /\
  Analyzer.detectPaymentPattern Samples.fortnightly = Analyzer.biweekly /\
  Subscriptions.fp_frequency
    (Subscriptions.detectFrequencyPattern Samples.yearly)
  = Subscriptions.annual.
Proof.
  split; [|split].
  - destruct (cadence_from_average_gap Samples.paychecks) as (_ & _ & H).
    apply H; [simpl; lia | reflexivity].
  - destruct (cadence_from_average_gap Samples.fortnightly) as (_ & _ & H).
    apply H; [simpl; lia | reflexivity].
  - destruct (cadence_from_average_gap Samples.yearly) as (_ & _ & H).
    apply H; [simpl; lia | reflexivity].
Defined.

End CadenceProps.

(* ================================================================== *)
(** * Category spending *)
(* ================================================================== *)

Module CategoryProps.

Import Analyzer Spec NumFacts SortFacts GroupFacts.

Local Open Scope Q_scope.

Lemma add_positive (acc x : number) :
  nonneg acc -> (x >? zero)%num = true -> nonneg (acc + x)%num.
Proof.
  destruct acc as [a| | |], x as [b| | |]; simpl; try contradiction;
    try discriminate; auto.
  intros Ha Hb. unfold gtb, ltb, zero in Hb. qcases. lra.
Qed.

Lemma sum_amounts_nonneg (txs : list Transaction) :
  Forall (fun t => is_spending t = true) txs -> nonneg (sum_amounts txs).
Proof.
  unfold sum_amounts. intros Hall.
  assert (H : forall acc, nonneg acc ->
            nonneg (fold_left (fun sum t => (sum + amount t)%num) txs acc)).
  { induction Hall as [|t txs Ht _ IH]; intros acc Hacc; simpl; auto.
    apply IH. now apply add_positive. }
  apply H. simpl. lra.
Qed.

Lemma nonneg_not_nan (x : number) : nonneg x -> is_nan x = false.
Proof. destruct x; simpl; auto; contradiction. Qed.

Lemma ltb_false_leb (a b : number) :
  is_nan a = false -> is_nan b = false ->
  (a <? b)%num = false -> (b <=? a)%num = true.
Proof.
  destruct a as [a| | |], b as [b| | |]; simpl; try discriminate; auto.
  intros _ _ H. qcases; auto; lra.
Qed.

Lemma ltb_leb (a b : number) :
  (a <? b)%num = true -> (a <=? b)%num = true.
Proof.
  destruct a as [a| | |], b as [b| | |]; simpl; try discriminate; auto.
  intros H. qcases; auto; lra.
Qed.

Lemma leb_trans (a b c : number) :
  (a <=? b)%num = true -> (b <=? c)%num = true -> (a <=? c)%num = true.
Proof.
  destruct a as [a| | |], b as [b| | |], c as [c| | |]; simpl;
    try discriminate; auto.
  intros H1 H2. qcases; auto; lra.
Qed.

Lemma num_eqb_eq (x y : number) : num_eqb x y = true <-> (x == y)%num.
Proof.
  destruct x, y; simpl; try (split; [discriminate | contradiction]);
    try tauto.
  apply Qeq_bool_iff.
Qed.

Lemma category_members_spending (txs : list Transaction) (label : string) :
  Forall (fun t => is_spending t = true) (category_members txs label).
Proof.
  apply Forall_forall. intros t Ht.
  unfold category_members, members in Ht.
  apply filter_In in Ht. destruct Ht as [Ht _].
  apply filter_In in Ht. tauto.
Qed.

Lemma first_occurrences_In (ks : list string) (k : string) :
  In k ks -> In k (first_occurrences ks).
Proof.
  unfold first_occurrences.
  assert (Hseen : forall ks seen, In k seen ->
            In k (fold_left note_key ks seen)).
  { clear. induction ks as [|x ks IH]; intros seen H; simpl; auto.
    apply IH. unfold note_key.
    destruct (existsb (String.eqb x) seen); [exact H|].
    apply in_or_app. now left. }
  generalize (@nil string).
  induction ks as [|x ks IH]; intros seen Hin; simpl; [contradiction|].
  destruct Hin as [->|Hin]; [|now apply IH].
  apply Hseen. unfold note_key.
  destruct (existsb (String.eqb k) seen) eqn:E.
  - apply existsb_exists in E. destruct E as [y [Hy Heq]].
    apply String.eqb_eq in Heq. now subst y.
  - apply in_or_app. right. now left.
Qed.

Lemma first_occurrences_only (ks : list string) (k : string) :
  In k (first_occurrences ks) -> In k ks.
Proof.
  unfold first_occurrences.
  assert (H : forall ks seen, In k (fold_left note_key ks seen) ->
            In k seen \/ In k ks).
  { clear. induction ks as [|x ks IH]; intros seen H; simpl in *; auto.
    apply IH in H. destruct H as [H|H]; [|auto].
    unfold note_key in H.
    destruct (existsb (String.eqb x) seen); [auto|].
    apply in_app_or in H. destruct H as [H|[H|[]]]; auto. }
  intros Hin. apply H in Hin. destruct Hin as [[]|Hin]. exact Hin.
Qed.

Lemma add_nonneg_positive (acc x : number) :
  nonneg acc -> (x >? zero)%num = true -> (acc + x >? zero)%num = true.
Proof.
  destruct acc as [a| | |], x as [b| | |]; simpl; try contradiction;
    try discriminate; auto.
  unfold gtb, ltb, zero. intros Ha Hb. qcases; auto; lra.
Qed.

Lemma positive_nonneg (x : number) : (x >? zero)%num = true -> nonneg x.
Proof.
  destruct x as [a| | |]; simpl; try discriminate; auto.
  unfold gtb, ltb, zero. intros H. qcases. lra.
Qed.

Lemma fold_amounts_positive (txs : list Transaction) :
  Forall (fun t => is_spending t = true) txs ->
  forall acc, (acc >? zero)%num = true ->
  (fold_left (fun sum t => (sum + amount t)%num) txs acc >? zero)%num = true.
Proof.
  induction 1 as [|t txs Ht _ IH]; intros acc Hacc; cbn [fold_left]; auto.
  apply IH. apply add_nonneg_positive; [now apply positive_nonneg | exact Ht].
Qed.

Lemma sum_amounts_positive (txs : list Transaction) :
  (txs <> [])%type -> Forall (fun t => is_spending t = true) txs ->
  (sum_amounts txs >? zero)%num = true.
Proof.
  unfold sum_amounts. intros Hne Hall.
  destruct Hall as [|t rest Ht Hall]; [congruence|].
  cbn [fold_left]. apply fold_amounts_positive; [exact Hall|].
  apply add_nonneg_positive; [simpl; lra | exact Ht].
Qed.

Lemma filter_filter {A : Type} (p q : A -> bool) (l : list A) :
  filter q (filter p l) = filter (fun x => p x && q x) l.
Proof.
  induction l as [|x l IH]; simpl; [reflexivity|].
  destruct (p x); simpl; [destruct (q x)|]; now rewrite IH.
Qed.

Lemma labels_in_order_iff (txs : list Transaction) (label : string) :
  In label (labels_in_order txs) <->
  exists t, In t txs /\ is_spending t = true /\ category_of t = label.
Proof.
  unfold labels_in_order. split.
  - intros H. apply first_occurrences_only, in_map_iff in H.
    destruct H as [t [Hl Ht]]. apply filter_In in Ht. exists t. tauto.
  - intros [t [Ht [Hs Hl]]]. apply first_occurrences_In, in_map_iff.
    exists t. split; [exact Hl|]. apply filter_In. tauto.
Qed.

Lemma category_members_nonempty (txs : list Transaction) (label : string) :
  In label (labels_in_order txs) -> (category_members txs label <> [])%type.
Proof.
  intros H. apply labels_in_order_iff in H. destruct H as [t [Ht [Hs Hl]]].
  assert (Hin : In t (category_members txs label)).
  { unfold category_members, members. apply filter_In. split.
    - apply filter_In. tauto.
    - rewrite Hl. apply String.eqb_refl. }
  intros E. rewrite E in Hin. contradiction.
Qed.

Lemma grand_total_positive (txs : list Transaction) (label : string) :
  In label (labels_in_order txs) -> (grand_total txs >? zero)%num = true.
Proof.
  intros H. apply labels_in_order_iff in H. destruct H as [t [Ht [Hs _]]].
  apply sum_amounts_positive.
  - intros E. assert (Hin : In t (filter is_spending txs))
      by (apply filter_In; tauto).
    rewrite E in Hin. contradiction.
  - apply Forall_forall. intros u Hu. apply filter_In in Hu. tauto.
Qed.

(** The aggregator sorts the records of the labels, taken in the order
    in which the labels are first met. *)
Lemma analyzeCategorySpending_unsorted (txs : list Transaction) :
  analyzeCategorySpending txs =
  Array_sort (fun a b => (total b - total a)%num)
             (map (category_record txs) (labels_in_order txs)).
Proof.
  unfold analyzeCategorySpending. f_equal.
  change (fold_left (fun m txn => Map_push (category_of txn) txn m)
                    (filter is_spending txs) [])
    with (group_into category_of [] (filter is_spending txs)).
  rewrite group_into_closed_form, map_map.
  apply map_ext_in. intros label Hl.
  pose proof (grand_total_positive txs label Hl) as Hpos.
  unfold category_record.
  rewrite (positive_not_zero _ Hpos).
  unfold grand_total in Hpos. rewrite Hpos. reflexivity.
Qed.

(** C9.  The aggregator keeps exactly the transactions with a strictly
    positive amount, labels an unclassified one ["Other"], and returns one
    record per label with the members, their sum, their number, the average
    and the share of the grand total in percent; the records are in
    descending order of total, and records with the same total stay in the
    order in which their labels were first met. *)
Theorem category_spending_aggregation (txs : list Transaction) :
  let result := analyzeCategorySpending txs in
  let groups := map (category_record txs) (labels_in_order txs) in
  Permutation groups result /\
  NoDup (labels_in_order txs) /\
  (forall label, In label (labels_in_order txs) <->
     exists t, In t txs /\ is_spending t = true /\ category_of t = label) /\
  (forall t, personal_finance_category t = None -> category_of t = "Other") /\
  (forall c, In c result ->
     transactions c =
       filter (fun t => is_spending t
                        && String.eqb (category_of t) (category c)) txs /\
     (transactions c <> [])%type /\
     total c = sum_amounts (transactions c) /\
     count c = len (transactions c) /\
     average c = (total c / count c)%num /\
     (grand_total txs >? zero)%num = true /\
     percentage c = ((total c / grand_total txs) * num 100)%num /\
     trend c = stable) /\
  StronglySorted ranks_before result /\
  (forall v, filter (with_total v) result = filter (with_total v) groups).
Proof.
  intros result groups. subst result.
  rewrite analyzeCategorySpending_unsorted. fold groups.
  assert (Hnan : Forall (fun c => is_nan (total c) = false) groups).
  { apply Forall_forall. intros c Hc. apply in_map_iff in Hc.
    destruct Hc as [label [<- _]]. cbn [category_record total].
    apply nonneg_not_nan, sum_amounts_nonneg, category_members_spending. }
  split; [apply Array_sort_perm|].
  split; [apply fold_note_key_NoDup; constructor|].
  split; [apply labels_in_order_iff|].
  split; [intros t Ht; unfold category_of; now rewrite Ht|].
  split; [|split].
  - intros c Hc. apply Array_sort_In, in_map_iff in Hc.
    destruct Hc as [label [<- Hl]].
    cbn [category_record transactions total count average percentage
         trend category].
    pose proof (grand_total_positive txs label Hl) as Hpos.
    rewrite (positive_not_zero _ Hpos).
    repeat split.
    + unfold category_members, members. apply filter_filter.
    + now apply category_members_nonempty.
    + exact Hpos.
  - apply Sorted_StronglySorted.
    + intros a b c Hab Hbc. unfold ranks_before in *.
      now apply leb_trans with (total b).
    + apply Array_sort_Sorted with (P := fun c => is_nan (total c) = false);
        [| |exact Hnan]; intros x y Px Py H; rewrite sub_gtb_ltb in H.
      * now apply ltb_false_leb.
      * now apply ltb_leb.
  - intros v. apply Array_sort_stable. intros x y Hx Hy.
    rewrite sub_gtb_ltb. apply ltb_irrefl_eq.
    apply num_eqb_eq in Hx, Hy.
    eapply num_eq_trans; [exact Hx | now apply num_eq_sym].
Qed.

Lemma category_spending_aggregation_witness :
  map category (analyzeCategorySpending Samples.purchases) =
    ["Dining"; "Groceries"; "Entertainment"; "Other"] /\
  map total (analyzeCategorySpending Samples.purchases) =
    [num 70; num 30; num 30; num 5] /\
  filter (with_total (num 30)) (analyzeCategorySpending Samples.purchases) =
    [category_record Samples.purchases "Groceries";
     category_record Samples.purchases "Entertainment"].
Proof.
  destruct (category_spending_aggregation Samples.purchases)
    as (_ & _ & _ & _ & _ & _ & Hties).
  split; [reflexivity|]. split; [reflexivity|].
  rewrite Hties. reflexivity.
Defined.

End CategoryProps.

(* ================================================================== *)
(** * Subscription detection *)
(* ================================================================== *)

Module SubscriptionProps.

Import Subscriptions Categories Spec SubscriptionSpec NumFacts SortFacts
  GroupFacts.

Local Open Scope Q_scope.

Lemma Frequency_eqb_eq (a b : Frequency) :
  Frequency_eqb a b = true <-> a = b.
Proof. destruct a, b; simpl; split; congruence. Qed.

Lemma merchantGroups_grouping (txs : list Transaction) :
  merchantGroups txs =
  group_into merchant_of []
    (filter (fun t => (PlaidTypes.amount t >? zero)%num) txs).
Proof.
  unfold merchantGroups, group_into.
  apply (fold_left_filter (fun t => (PlaidTypes.amount t >? zero)%num)
           (fun m t => Map_push (merchant_of t) t m)).
Qed.

(** The members of a merchant group: the debits of that merchant. *)
Lemma merchantGroups_members (txs : list Transaction) (merchant : string)
    (txns : list Transaction) :
  In (merchant, txns) (merchantGroups txs) ->
  forall t, In t txns ->
    In t txs /\ (PlaidTypes.amount t >? zero)%num = true /\
    merchant_of t = merchant.
Proof.
  rewrite merchantGroups_grouping. intros Hin t Ht.
  apply group_into_members in Hin. destruct Hin as [-> _].
  unfold members in Ht. apply filter_In in Ht. destruct Ht as [Ht Hk].
  apply filter_In in Ht. apply String.eqb_eq in Hk. tauto.
Qed.

Lemma collect_In (Math_sqrt : number -> number) (groups : Map Transaction)
    (p : SubscriptionPattern) :
  In p (collect Math_sqrt groups) <->
  exists entry, In entry groups /\ analyzeMerchant Math_sqrt entry = Some p.
Proof.
  induction groups as [|e groups IH]; simpl.
  - split; [contradiction | intros [? [[] _]]].
  - destruct (analyzeMerchant Math_sqrt e) as [s|] eqn:E; simpl;
      rewrite IH; split.
    + intros [->|[entry [Hin He]]]; eauto.
    + intros [entry [[->|Hin] He]]; [left; congruence | right; eauto].
    + intros [entry [Hin He]]; eauto.
    + intros [entry [[->|Hin] He]]; [congruence | eauto].
Qed.

Lemma analyzeMerchant_Some (Math_sqrt : number -> number)
    (merchant : string) (txns : list Transaction) (p : SubscriptionPattern) :
  analyzeMerchant Math_sqrt (merchant, txns) = Some p ->
  exists first rest, admitted Math_sqrt merchant txns first rest p.
Proof.
  unfold analyzeMerchant. intros H.
  destruct (List.length txns <? 2)%nat eqn:E1; [discriminate|].
  destruct (Array_sort by_date txns) as [|first rest] eqn:Es; [discriminate|].
  destruct (isNonSubscriptionCategory (personal_finance_category first))
    eqn:E2; [discriminate|].
  destruct (existsb (fun name => String_includes merchant name)
                    nonSubscriptionMerchants) eqn:E3; [discriminate|].
  cbv zeta in H.
  fold (hasRecurringFlag first) in H.
  destruct (negb (Frequency_eqb
                    (fp_frequency (detectFrequencyPattern (first :: rest)))
                    irregular)
            && _) eqn:E4; [|discriminate].
  fold (computed_drift Math_sqrt (map PlaidTypes.amount (first :: rest)))
    in H.
  destruct (computed_drift Math_sqrt (map PlaidTypes.amount (first :: rest))
            >? num 30)%num eqn:E5; [discriminate|].
  inversion H as [Hp]. clear H.
  apply andb_true_iff in E4. destruct E4 as [Hreg Hany].
  exists first, rest. constructor; auto.
  - apply Nat.ltb_ge in E1. exact E1.
  - intros Heq. rewrite Heq in Hreg. discriminate.
  - rewrite !orb_true_iff, !Frequency_eqb_eq in Hany. tauto.
Qed.

(** Every record returned comes from one merchant group that passed all
    the checks. *)
Lemma detectSubscriptionDrift_In (Math_sqrt : number -> number)
    (txs : list Transaction) (p : SubscriptionPattern) :
  In p (detectSubscriptionDrift Math_sqrt txs) ->
  exists merchant txns first rest,
    In (merchant, txns) (merchantGroups txs) /\
    admitted Math_sqrt merchant txns first rest p.
Proof.
  unfold detectSubscriptionDrift.
  destruct (List.length txs =? 0)%nat; [contradiction|].
  intros H. apply Array_sort_In, collect_In in H.
  destruct H as [[merchant txns] [Hin He]].
  apply analyzeMerchant_Some in He. destruct He as [first [rest Ha]].
  exists merchant, txns, first, rest. split; assumption.
Qed.

(** Rounding a drift to two decimals does not push it over 30. *)
Lemma rounded_drift_bound (d : number) :
  (d >? num 30)%num = false ->
  (Math_round (d * num 100) / num 100 >? num 30)%num = false.
Proof.
  destruct d as [q| | |]; try reflexivity; try discriminate.
  unfold gtb, ltb, num. intros H. apply Qltb_ge in H.
  cbn [mul Math_round].
  assert (Hz : (Qfloor (q * inject_Z 100 + (1 # 2)) <= 3000)%Z).
  { apply (@Qfloor_half_range (q * inject_Z 100) (Qfloor (q * inject_Z 100))
             3000).
    - apply Qfloor_le.
    - unfold inject_Z in *. lra. }
  unfold div. change (Qeq_bool (inject_Z 100) 0) with false.
  apply Qltb_ge. rewrite Zle_Qle in Hz. unfold inject_Z in *.
  apply Qle_shift_div_r; [reflexivity|]. lra.
Qed.

Lemma div_len_positive (x : number) (n : nat) :
  (x >? zero)%num = true -> (x / num (Z.of_nat (S n)) >? zero)%num = true.
Proof.
  assert (Hn : 0 < inject_Z (Z.of_nat (S n))).
  { change 0 with (inject_Z 0). rewrite <- Zlt_Qlt. lia. }
  destruct x as [a| | |]; simpl; try discriminate.
  - unfold gtb, ltb, zero, num, div. intros H. apply Qltb_lt in H.
    destruct (Qeq_bool (inject_Z (Z.of_nat (S n))) 0) eqn:E.
    + apply Qeq_bool_iff in E. rewrite E in Hn. now apply Qlt_irrefl in Hn.
    + apply Qltb_lt. apply Qlt_shift_div_l; [exact Hn|]. now rewrite Qmult_0_l.
  - intros _. unfold num, div, signed_inf.
    destruct (Qle_bool 0 (inject_Z (Z.of_nat (S n)))) eqn:E; [reflexivity|].
    apply Qle_bool_gt in E. exfalso.
    apply (Qlt_irrefl 0). now apply Qlt_trans with (inject_Z (Z.of_nat (S n))).
Qed.

(** On a group of debits the drift that the detector computes is the drift
    of the specification. *)
Lemma computed_drift_is_drift (Math_sqrt : number -> number)
    (group : list Transaction) :
  (group <> [])%type ->
  Forall (fun t => Analyzer.is_spending t = true) group ->
  computed_drift Math_sqrt (map PlaidTypes.amount group) =
  drift_of Math_sqrt (map PlaidTypes.amount group).
Proof.
  intros Hne Hall.
  assert (Hmean : (mean_of (map PlaidTypes.amount group) >? zero)%num = true).
  { unfold mean_of, Subscriptions.len. rewrite length_map.
    destruct group as [|t rest]; [congruence|].
    cbn [List.length]. apply div_len_positive.
    unfold sum_of. rewrite <- IncomeProps.fold_add_map.
    exact (@CategoryProps.sum_amounts_positive (t :: rest) Hne Hall). }
  unfold computed_drift, drift_of, calculateStatistics.
  destruct group as [|t rest]; [congruence|].
  cbn [map List.length Nat.eqb mean stdDev].
  fold (mean_of (PlaidTypes.amount t :: map PlaidTypes.amount rest)).
  cbn [map] in Hmean. rewrite Hmean, (positive_not_zero _ Hmean).
  reflexivity.
Qed.

(** C3.  A returned pattern is backed by at least two member transactions,
    all of them debits of its merchant; the drift of their amounts
    (standard deviation over mean, in percent, 0 when the mean is 0) does
    not exceed 30, and neither does the drift score of the record, which is
    that drift rounded to two decimals. *)
Theorem subscriptions_two_members_bounded_drift
    (Math_sqrt : number -> number) (txs : list Transaction)
    (p : SubscriptionPattern) :
  In p (detectSubscriptionDrift Math_sqrt txs) ->
  exists group : list Transaction,
    (2 <= List.length group)%nat /\
    (forall t, In t group ->
       In t txs /\ (PlaidTypes.amount t >? zero)%num = true /\
       merchant_of t = merchantName p) /\
    transactionIds p = map PlaidTypes.transaction_id group /\
    (2 <= List.length (transactionIds p))%nat /\
    (drift_of Math_sqrt (map PlaidTypes.amount group) >? num 30)%num = false /\
    driftScore p =
      (Math_round (drift_of Math_sqrt (map PlaidTypes.amount group) * num 100)
       / num 100)%num /\
    (driftScore p >? num 30)%num = false.
Proof.
  intros Hin. apply detectSubscriptionDrift_In in Hin.
  destruct Hin as (merchant & txns & first & rest & Hgroup & Ha).
  destruct Ha as [Hsorted Htwo _ _ _ _ Hdrift ->].
  assert (Hlen : (2 <= List.length (first :: rest))%nat).
  { rewrite <- Hsorted, Array_sort_length. exact Htwo. }
  assert (Hmem : forall t, In t (first :: rest) ->
            In t txs /\ (PlaidTypes.amount t >? zero)%num = true /\
            merchant_of t = merchant).
  { intros t Ht. apply (merchantGroups_members txs merchant txns Hgroup).
    apply (Array_sort_In by_date). now rewrite Hsorted. }
  assert (Hspec : computed_drift Math_sqrt
                    (map PlaidTypes.amount (first :: rest)) =
                  drift_of Math_sqrt (map PlaidTypes.amount (first :: rest))).
  { apply computed_drift_is_drift; [discriminate|].
    apply Forall_forall. intros t Ht. now apply Hmem. }
  rewrite Hspec in Hdrift.
  exists (first :: rest). cbn [transactionIds driftScore merchantName].
  rewrite Hspec.
  split; [exact Hlen|]. split; [exact Hmem|].
  split; [reflexivity|]. split; [now rewrite length_map|].
  split; [exact Hdrift|]. split; [reflexivity|].
  now apply rounded_drift_bound.
Qed.

Lemma subscriptions_two_members_bounded_drift_witness :
  exists p,
    In p (detectSubscriptionDrift sqrt_down Samples.streaming) /\
    (2 <= List.length (transactionIds p))%nat /\
    (driftScore p >? num 30)%num = false.
Proof.
  destruct (detectSubscriptionDrift sqrt_down Samples.streaming)
    as [|p others] eqn:E; [vm_compute in E; discriminate E|].
  assert (Hp : In p (detectSubscriptionDrift sqrt_down Samples.streaming))
    by (rewrite E; left; reflexivity).
  destruct (subscriptions_two_members_bounded_drift sqrt_down
              Samples.streaming p Hp)
    as (group & _ & _ & _ & Hlen & _ & _ & Hd).
  exists p. rewrite <- E. split; [exact Hp|]. split; [exact Hlen | exact Hd].
Defined.

(** C4.  Run on three weekly charges of 10 in an entertainment category,
    the detector returns one pattern; its frequency is [weekly] and its
    yearly cost is 10 times 52: the weekly branch of the annualisation is
    reached, against the comment at the acceptance test (monthly or annual,
    not weekly). *)
Lemma weekly_pattern_is_emitted :
  map (fun p => (merchantName p, frequency p, transactionIds p))
      (detectSubscriptionDrift sqrt_down Samples.weekly_charges) =
    [("patreon", weekly, ["w1"; "w2"; "w3"])] /\
  Forall (fun p => (estimatedAnnualCost p == num 520)%num /\
                   (driftScore p == zero)%num)
         (detectSubscriptionDrift sqrt_down Samples.weekly_charges).
Proof.
  split; [reflexivity|]. vm_compute. repeat constructor.
Qed.



End SubscriptionProps.

(* ================================================================== *)
(** * The sanitised transaction *)
(* ================================================================== *)

Module PlaidProps.

Import Plaid.

(** C5.  The sanitised value of a purchase carries its transaction
    identifier next to the date, the amount, the merchant text and the
    category: two transactions with the same date, amount, merchant text,
    category and account are sanitised to different values. *)
Lemma sanitized_output_carries_the_identifier :
  sanitizeForAI Samples.coffee_a =
    {| transaction_id := "tx-1";
       date := Samples.jan1;
       amount := num 4;
       merchant := "Cafe Uno";
       category := "DINING" |} /\
  PlaidTypes.date Samples.coffee_a = PlaidTypes.date Samples.coffee_b /\
  PlaidTypes.amount Samples.coffee_a = PlaidTypes.amount Samples.coffee_b /\
  name Samples.coffee_a = name Samples.coffee_b /\
  personal_finance_category Samples.coffee_a =
    personal_finance_category Samples.coffee_b /\
  account_id Samples.coffee_a = account_id Samples.coffee_b /\
  sanitizeForAI Samples.coffee_a <> sanitizeForAI Samples.coffee_b.
Proof.
  repeat split. intros H.
  apply (f_equal transaction_id) in H. discriminate H.
Qed.

(** X13.  What the sanitised value is made of: the transaction identifier, the
    date, the amount, the merchant text and the primary category code
    (["Other"] without one), and nothing else.  Two transactions that agree
    on these five are sanitised to the same value, whatever their account
    identifier, owner name and other fields are. *)
Theorem sanitizeForAI_five_fields (t1 t2 : Transaction) :
  PlaidTypes.transaction_id t1 = PlaidTypes.transaction_id t2 ->
  PlaidTypes.date t1 = PlaidTypes.date t2 ->
  PlaidTypes.amount t1 = PlaidTypes.amount t2 ->
  name t1 = name t2 ->
  primary_of (personal_finance_category t1) =
    primary_of (personal_finance_category t2) ->
  sanitizeForAI t1 = sanitizeForAI t2 /\
  sanitizeForAI t1 =
    {| transaction_id := PlaidTypes.transaction_id t1;
       date := PlaidTypes.date t1;
       amount := PlaidTypes.amount t1;
       merchant := name t1;
       category := match primary_of (personal_finance_category t1) with
                   | Some code => code
                   | None => "Other"
                   end |}.
Proof.
  intros Hid Hdate Hamount Hname Hcat. split; [|reflexivity].
  unfold sanitizeForAI. now rewrite Hid, Hdate, Hamount, Hname, Hcat.
Qed.

Lemma sanitizeForAI_five_fields_witness :
  account_id Samples.coffee_a <> account_id Samples.coffee_other_account /\
  account_owner Samples.coffee_a <>
    account_owner Samples.coffee_other_account /\
  sanitizeForAI Samples.coffee_a =
    sanitizeForAI Samples.coffee_other_account.
Proof.
  split; [discriminate|]. split; [discriminate|].
  apply (sanitizeForAI_five_fields Samples.coffee_a
           Samples.coffee_other_account); reflexivity.
Defined.

End PlaidProps.

(* ================================================================== *)
(** * The complete analysis *)
(* ================================================================== *)

Module AnalysisProps.

Import Analyzer Spec.

(** C1 does not hold as it is stated: the same two transactions analysed
    one day and ten days after the pay check give different results, the
    second with one more insight. *)
Lemma analysis_depends_on_the_clock :
  analyzeFinances sqrt_down Samples.one_day_later Samples.tight_month [] <>
  analyzeFinances sqrt_down Samples.ten_days_later Samples.tight_month [].
Proof.
  intros H.
  apply (f_equal (fun r => map type (insights r))) in H.
  vm_compute in H. discriminate H.
Qed.

Lemma generateInsights_clock (now now' : Z) (txs : list Transaction)
    (inc : IncomeAnalysis) (cats : list CategorySpending) (bal : number) :
  week_since_paycheck now inc = week_since_paycheck now' inc ->
  generateInsights now txs inc cats bal =
  generateInsights now' txs inc cats bal.
Proof.
  unfold generateInsights, week_since_paycheck.
  destruct (lastPaycheck inc) as [paycheck|]; [|reflexivity].
  intros H. cbv zeta.
  destruct (bal <? averageMonthly inc * dec 5 10)%num; [|reflexivity].
  rewrite H. reflexivity.
Qed.

(** The test on the clock is a threshold: it holds from the first
    millisecond after seven days past the date of the pay check. *)
Lemma week_since_paycheck_threshold (now : Z) (inc : IncomeAnalysis) :
  week_since_paycheck now inc = true <->
  exists paycheck,
    lastPaycheck inc = Some paycheck /\
    (86400000 * (pay_date paycheck + 7) < now)%Z.
Proof.
  unfold week_since_paycheck.
  destruct (lastPaycheck inc) as [paycheck|].
  - assert (H : ((num now - getTime_of_day (pay_date paycheck)) / msPerDay
                 >? num 7)%num = true <->
                (86400000 * (pay_date paycheck + 7) < now)%Z).
    { unfold getTime_of_day, msPerDay, num, sub, neg, add, div, gtb, ltb.
      change (1000 * 60 * 60 * 24)%Z with 86400000%Z.
      change (Qeq_bool (inject_Z 86400000) 0) with false.
      rewrite NumFacts.Qltb_lt, Zlt_Qlt.
      rewrite !inject_Z_mult, inject_Z_plus.
      unfold Qdiv.
      change (/ inject_Z 86400000)%Q with (1 # 86400000)%Q.
      change (inject_Z 86400000) with (86400000 # 1)%Q.
      change (inject_Z 7) with (7 # 1)%Q.
      split; intros H; lra. }
    rewrite H. split.
    + intros Hlt. now exists paycheck.
    + intros [pc [Heq Hlt]]. now inversion Heq; subst.
  - split; [discriminate | intros [pc [Heq _]]; discriminate].
Qed.

(** C1, amended.  The analysis is a function of the transactions and of
    the clock reading of the insight generator: the accounts are ignored,
    every part but the insights is the same at any two readings, and the
    insights are the same whenever the two readings agree on the test that
    more than seven days have passed since the last pay check; at one and
    the same reading the whole result is the same. *)
Theorem analysis_depends_on_clock_through_one_test
    (Math_sqrt : number -> number) (txs : list Transaction)
    (accounts accounts' : list AccountBase) (now now' : Z) :
  let a := analyzeFinances Math_sqrt now txs accounts in
  let b := analyzeFinances Math_sqrt now' txs accounts' in
  income a = income b /\
  spending a = spending b /\
  balance a = balance b /\
  cashFlowHealth a = cashFlowHealth b /\
  savingsRate a = savingsRate b /\
  (week_since_paycheck now (income a) = week_since_paycheck now' (income a) ->
   insights a = insights b /\ a = b) /\
  (now = now' -> a = b) /\
  (week_since_paycheck now (income a) = true <->
   exists paycheck,
     lastPaycheck (income a) = Some paycheck /\
     (86400000 * (pay_date paycheck + 7) < now)%Z).
Proof.
  intros a b.
  assert (Htest : week_since_paycheck now (income a) =
                  week_since_paycheck now' (income a) -> a = b).
  { intros H. subst a b. unfold analyzeFinances in *. cbv zeta in *.
    cbn [income] in H. f_equal. now apply generateInsights_clock. }
  do 5 (split; [reflexivity|]). split; [|split].
  - intros H. split; [now rewrite (Htest H) | exact (Htest H)].
  - intros Hnow. apply Htest. now rewrite Hnow.
  - apply week_since_paycheck_threshold.
Qed.

Lemma analysis_depends_on_clock_through_one_test_witness :
  analyzeFinances sqrt_down Samples.ten_days_later Samples.tight_month [] =
  analyzeFinances sqrt_down Samples.twenty_days_later Samples.tight_month
    [ {| acc_account_id := "acc-1"; acc_name := "Checking";
         acc_mask := Some "0000"; acc_balance_current := Some (num 110) |} ].
Proof.
  destruct (analysis_depends_on_clock_through_one_test sqrt_down
              Samples.tight_month []
              [ {| acc_account_id := "acc-1"; acc_name := "Checking";
                   acc_mask := Some "0000";
                   acc_balance_current := Some (num 110) |} ]
              Samples.ten_days_later Samples.twenty_days_later)
    as (_ & _ & _ & _ & _ & Htest & _).
  apply Htest. vm_compute. reflexivity.
Defined.

End AnalysisProps.

(* ================================================================== *)
(** * The properties on the sample data *)
(* ================================================================== *)

Module Checks.

Import Analyzer Spec.

Lemma totals_partition_by_sign_witness :
  let r := analyzeFinances sqrt_down 0 Samples.purchases_and_a_void [] in
  (totalIncome (income r) == num 100)%num /\
  (sp_total (spending r) == num 135)%num /\
  income_share (hd Samples.coffee_a Samples.purchases_and_a_void) = zero /\
  spending_share (hd Samples.coffee_a Samples.purchases_and_a_void) = zero.
Proof.
  destruct (IncomeProps.totals_partition_by_sign sqrt_down 0
              Samples.purchases_and_a_void [])
    as (_ & _ & _ & Hin & Hout & _ & _ & Hzero).
  split; [|split].
  - eapply NumFacts.num_eq_trans; [exact Hin|]. vm_compute. reflexivity.
  - eapply NumFacts.num_eq_trans; [exact Hout|]. vm_compute. reflexivity.
  - apply Hzero. vm_compute. reflexivity.
Defined.

Lemma detectIncome_average_monthly_witness :
  (averageMonthly (detectIncome sqrt_down Samples.paychecks) ==
   num 3000)%num /\
  (averageMonthly (detectIncome sqrt_down Samples.tight_month) ==
   totalIncome (detectIncome sqrt_down Samples.tight_month))%num /\
  detectIncome sqrt_down Samples.yearly = no_income.
Proof.
  split; [|split].
  - destruct (IncomeProps.detectIncome_average_monthly sqrt_down
                Samples.paychecks) as (H & _ & _).
    destruct H as [_ H]; [discriminate|].
    eapply NumFacts.num_eq_trans; [exact H|]. vm_compute. reflexivity.
  - destruct (IncomeProps.detectIncome_average_monthly sqrt_down
                Samples.tight_month) as (_ & H & _).
    apply (H (hd Samples.coffee_a Samples.tight_month)). reflexivity.
  - destruct (IncomeProps.detectIncome_average_monthly sqrt_down
                Samples.yearly) as (_ & _ & H).
    apply H. reflexivity.
Defined.

Lemma critical_iff_negative_balance_witness :
  let h := calculateCashFlowHealth Samples.steady_income (num 2900) (num 0) in
  (num 55 <=? score h)%num = true /\ status h <> critical.
Proof.
  destruct (CashFlowProps.critical_iff_negative_balance
              Samples.steady_income (num 2900) (num 0)) as [H [Hiff _]].
  split.
  - apply H. reflexivity.
  - intros Hc. apply Hiff in Hc. discriminate Hc.
Defined.

(** The examples of the specification. *)
Example pay_and_dinner_analysis :
  let r := analyzeFinances sqrt_down Samples.ten_days_later
             Samples.pay_and_dinner [] in
  totalIncome (income r) = num 4000 /\
  sp_total (spending r) = num 500 /\
  current (balance r) = num 3500 /\
  score (cashFlowHealth r) = num 100 /\
  status (cashFlowHealth r) = healthy /\
  Subscriptions.detectSubscriptionDrift sqrt_down Samples.pay_and_dinner = [].
Proof. vm_compute. repeat split. Qed.

Example streaming_subscription :
  map (fun p => (Subscriptions.merchantName p, Subscriptions.frequency p))
      (Subscriptions.detectSubscriptionDrift sqrt_down Samples.streaming) =
    [("netflix", Subscriptions.monthly)] /\
  Forall (fun p => (Subscriptions.driftScore p == zero)%num /\
                   (Subscriptions.estimatedAnnualCost p == num 180)%num)
         (Subscriptions.detectSubscriptionDrift sqrt_down Samples.streaming).
Proof.
  split; [reflexivity|]. vm_compute. repeat constructor.
Qed.

Example groceries_are_no_subscription :
  Subscriptions.detectSubscriptionDrift sqrt_down Samples.grocery_runs = [].
Proof. reflexivity. Qed.

End Checks.

(* ================================================================== *)
(** * Further properties: categories and masking *)
(* ================================================================== *)

Module CategoryTableProps.

Import Categories MoreSpec.


(** X15.  No category code is both in the inclusion set and in the exclusion set
    of the subscription detector. *)
Theorem subscription_category_sets_disjoint
    (pfc : option PersonalFinanceCategory) :
  isSubscriptionCategory pfc && isNonSubscriptionCategory pfc = false.
Proof.
  unfold isSubscriptionCategory, isNonSubscriptionCategory.
  destruct (primary_of pfc) as [p|]; [|reflexivity].
  unfold Array_includes, subscriptionCategories. cbn [existsb].
  destruct (String.eqb p "ENTERTAINMENT") eqn:E1;
    [apply String.eqb_eq in E1; subst; reflexivity|].
  destruct (String.eqb p "RENT_AND_UTILITIES") eqn:E2;
    [apply String.eqb_eq in E2; subst; reflexivity|].
  destruct (String.eqb p "GENERAL_SERVICES") eqn:E3;
    [apply String.eqb_eq in E3; subst; reflexivity|].
  reflexivity.
Qed.





End CategoryTableProps.

(* ================================================================== *)
(** * Further properties: the account mask *)
(* ================================================================== *)

Module MaskProps.

Import Plaid.

Lemma length_substring (s : string) (n m : nat) :
  (n + m <= String.length s)%nat -> String.length (substring n m s) = m.
Proof.
  revert n m. induction s as [|c s IH]; intros n m H; simpl in H.
  - assert (n = 0%nat) by lia. assert (m = 0%nat) by lia. subst. reflexivity.
  - destruct n as [|n]; simpl.
    + destruct m as [|m]; [reflexivity|]. simpl. rewrite IH; [reflexivity|lia].
    + apply IH. lia.
Qed.

Lemma slice_last_length (n : nat) (s : string) :
  (n <= String.length s)%nat -> String.length (slice_last n s) = n.
Proof. intros H. unfold slice_last. apply length_substring. lia. Qed.

Lemma length_append (a b : string) :
  String.length (a ++ b)%string = (String.length a + String.length b)%nat.
Proof. induction a as [|c a IH]; simpl; congruence. Qed.

(** X14.  The mask shows the last four characters of an account number of more
    than four characters and nothing else: it is ["****"] followed by them,
    eight characters in all, and two such numbers with the same last four
    characters have the same mask.  A shorter number is hidden altogether,
    a missing or empty one gives ["N/A"]. *)
Theorem mask_shows_last_four_only (accountNumber : option string) :
  (String.length (maskAccountNumber accountNumber) <= 8)%nat /\
  (forall s, accountNumber = Some s -> (4 < String.length s)%nat ->
     maskAccountNumber accountNumber = ("****" ++ slice_last 4 s)%string /\
     String.length (maskAccountNumber accountNumber) = 8%nat /\
     forall s', (4 < String.length s')%nat ->
       slice_last 4 s' = slice_last 4 s ->
       maskAccountNumber (Some s') = maskAccountNumber accountNumber) /\
  (forall s, accountNumber = Some s -> s <> "" ->
     (String.length s <= 4)%nat ->
     maskAccountNumber accountNumber = "****") /\
  (accountNumber = None \/ accountNumber = Some "" ->
     maskAccountNumber accountNumber = "N/A").
Proof.
  assert (Hlong : forall s, (4 < String.length s)%nat ->
            maskAccountNumber (Some s) = ("****" ++ slice_last 4 s)%string).
  { intros s Hs. unfold maskAccountNumber.
    destruct (String.eqb s "") eqn:E.
    - apply String.eqb_eq in E. subst. simpl in Hs. lia.
    - destruct (String.length s <=? 4)%nat eqn:E4; [|reflexivity].
      apply Nat.leb_le in E4. lia. }
  split; [|split; [|split]].
  - destruct accountNumber as [s|]; [|simpl; lia].
    unfold maskAccountNumber.
    destruct (String.eqb s ""); [simpl; lia|].
    destruct (String.length s <=? 4)%nat eqn:E4; [simpl; lia|].
    apply Nat.leb_gt in E4.
    rewrite length_append, slice_last_length by lia. simpl. lia.
  - intros s -> Hs. rewrite (Hlong s Hs). split; [reflexivity|]. split.
    + rewrite length_append, slice_last_length by lia. reflexivity.
    + intros s' Hs' Heq. rewrite (Hlong s' Hs'). now rewrite Heq.
  - intros s -> Hne Hs. unfold maskAccountNumber.
    destruct (String.eqb s "") eqn:E;
      [apply String.eqb_eq in E; contradiction|].
    apply Nat.leb_le in Hs. now rewrite Hs.
  - intros [->| ->]; reflexivity.
Qed.

Lemma mask_shows_last_four_only_witness :
  maskAccountNumber (Some "000123456789") = "****6789" /\
  maskAccountNumber (Some "9999996789") =
    maskAccountNumber (Some "000123456789").
Proof.
  destruct (mask_shows_last_four_only (Some "000123456789"))
    as (_ & Hlong & _).
  destruct (Hlong "000123456789" eq_refl) as (Hmask & _ & Hsame);
    [simpl; lia|].
  split; [rewrite Hmask; reflexivity|].
  apply Hsame; [simpl; lia | reflexivity].
Defined.

End MaskProps.

(* ================================================================== *)
(** * Further properties: the health score and the insights *)
(* ================================================================== *)

Module HealthProps.

Import Analyzer Spec MoreSpec NumFacts.

Local Open Scope Q_scope.

(** The outcome of the scoring ladders: with a balance that is not
    negative the score is a whole number from 55 to 100 and decides the
    status at 75. *)
Lemma nonnegative_balance_outcome (income : IncomeAnalysis)
    (spending balance : number) :
  (balance <? zero)%num = false ->
  exists k : Z,
    score (calculateCashFlowHealth income spending balance) = num k /\
    (55 <= k <= 100)%Z /\
    status (calculateCashFlowHealth income spending balance) =
      if (75 <=? k)%Z then healthy else warning.
Proof.
  intros Hb. unfold calculateCashFlowHealth. rewrite Hb. cbv zeta.
  set (ratio := if (averageMonthly income >? zero)%num then _ else _).
  set (toSpending := (balance / _)%num).
  clearbody ratio toSpending.
  destruct (ratio >=? dec 15 10)%num;
    [| destruct (ratio >=? dec 12 10)%num;
       [| destruct (ratio >=? num 1)%num;
          [| destruct (ratio >=? dec 8 10)%num ] ] ];
  (destruct (toSpending >=? num 2)%num;
    [| destruct (toSpending >=? num 1)%num;
       [| destruct (toSpending >=? dec 5 10)%num ] ]);
  (destruct (isVariable income);
    [ destruct (variability income <? dec 3 10)%num;
      [| destruct (variability income <? dec 5 10)%num ] |]);
  match goal with
  | |- exists k, ?s = num k /\ _ =>
      let v := eval vm_compute in s in
      match v with
      | Fin (?z # 1) => exists z
      end
  end;
  (split; [vm_compute; reflexivity | split; [lia | vm_compute; reflexivity]]).
Qed.

Lemma negative_balance_outcome (income : IncomeAnalysis)
    (spending balance : number) :
  (balance <? zero)%num = true ->
  exists k : Z,
    score (calculateCashFlowHealth income spending balance) = num k /\
    (0 <= k <= 35)%Z /\
    status (calculateCashFlowHealth income spending balance) = critical.
Proof.
  intros Hb.
  rewrite (CashFlowProps.negative_balance_score income spending balance Hb).
  unfold calculateCashFlowHealth. rewrite Hb. cbn [status].
  unfold deficit_score, clamp.
  destruct (clamp_0_35 _ (CashFlowProps.deficit_term_not_nan balance Hb))
    as [q [Hq [Hq0 Hq35]]].
  destruct (@Math_round_range q 0 35) as [k [Hk Hrange]];
    [unfold inject_Z; lra | unfold inject_Z; lra |].
  exists k. rewrite Hq, Hk. auto.
Qed.

Lemma num_geb (a b : Z) : (num a >=? num b)%num = (b <=? a)%Z.
Proof.
  unfold geb. destruct (b <=? a)%Z eqn:E.
  - apply num_leb. now apply Z.leb_le.
  - apply not_true_iff_false. rewrite num_leb. apply Z.leb_gt in E. lia.
Qed.

(** X1.  Whatever the arguments, the score is a whole number from 0 to 100;
    the status is [healthy] exactly when the balance is not negative and
    the score is at least 75, and [warning] exactly when the balance is not
    negative and the score is below 75. *)
Theorem score_range_and_status (income : IncomeAnalysis)
    (spending balance : number) :
  let h := calculateCashFlowHealth income spending balance in
  (exists k : Z, score h = num k /\ (0 <= k <= 100)%Z) /\
  (status h = healthy <->
   (balance <? zero)%num = false /\ (score h >=? num 75)%num = true) /\
  (status h = warning <->
   (balance <? zero)%num = false /\ (score h >=? num 75)%num = false).
Proof.
  intros h. subst h. destruct (balance <? zero)%num eqn:Hb.
  - destruct (negative_balance_outcome income spending balance Hb)
      as (k & Hk & Hr & Hs).
    split; [exists k; split; [exact Hk | lia]|].
    rewrite Hs. split; split; try discriminate; intros [H _]; discriminate.
  - destruct (nonnegative_balance_outcome income spending balance Hb)
      as (k & Hk & Hr & Hs).
    split; [exists k; split; [exact Hk | lia]|].
    rewrite Hs, Hk, num_geb.
    destruct (75 <=? k)%Z; split; split; try discriminate; auto;
      intros [_ H]; discriminate.
Qed.

Lemma sub_ltb_zero (a b : number) : (a - b <? zero)%num = (a <? b)%num.
Proof.
  destruct a as [a| | |], b as [b| | |]; simpl; try reflexivity.
  unfold zero. qcases; try reflexivity; lra.
Qed.

Lemma status_critical_iff (income : IncomeAnalysis)
    (spending balance : number) :
  status (calculateCashFlowHealth income spending balance) = critical <->
  (balance <? zero)%num = true.
Proof.
  destruct (balance <? zero)%num eqn:Hb.
  - destruct (negative_balance_outcome income spending balance Hb)
      as (k & _ & _ & Hs). rewrite Hs. tauto.
  - destruct (nonnegative_balance_outcome income spending balance Hb)
      as (k & _ & _ & Hs). rewrite Hs.
    destruct (75 <=? k)%Z; split; discriminate.
Qed.

(** X2.  The analysis is [critical] exactly when the total of spending is
    strictly more than the total of income; its score is then at most
    35. *)
Theorem critical_iff_spending_exceeds_income (Math_sqrt : number -> number)
    (now : Z) (txs : list Transaction) (accounts : list AccountBase) :
  let r := analyzeFinances Math_sqrt now txs accounts in
  (status (cashFlowHealth r) = critical <->
   (totalIncome (income r) <? sp_total (spending r))%num = true) /\
  (current (balance r) = (totalIncome (income r) - sp_total (spending r))%num)
  /\
  ((totalIncome (income r) <? sp_total (spending r))%num = true ->
   (score (cashFlowHealth r) <=? num 35)%num = true).
Proof.
  intros r. subst r. unfold analyzeFinances. cbv zeta.
  cbn [cashFlowHealth income spending sp_total balance current].
  rewrite status_critical_iff, sub_ltb_zero.
  split; [tauto|]. split; [reflexivity|].
  intros H. rewrite <- sub_ltb_zero in H.
  destruct (negative_balance_outcome (detectIncome Math_sqrt txs)
              (sum_amounts (filter is_spending txs)) _ H)
    as (k & Hk & Hr & _).
  rewrite Hk. apply num_leb. lia.
Qed.

Lemma critical_iff_spending_exceeds_income_witness :
  status (cashFlowHealth
            (analyzeFinances sqrt_down 0 Samples.grocery_runs [])) = critical.
Proof.
  destruct (critical_iff_spending_exceeds_income sqrt_down 0
              Samples.grocery_runs []) as [H _].
  apply H. reflexivity.
Defined.

End HealthProps.

(* ================================================================== *)
(** * Further properties: the shape of the insight list *)
(* ================================================================== *)

Module InsightProps.

Import Analyzer Spec MoreSpec NumFacts SortFacts.

Local Open Scope Q_scope.

(** Try the eight outcomes of the three rules. *)
Ltac pick_rules :=
  first [ exists false, false, false; reflexivity
        | exists true, false, false; reflexivity
        | exists false, true, false; reflexivity
        | exists false, false, true; reflexivity
        | exists true, true, false; reflexivity
        | exists true, false, true; reflexivity
        | exists false, true, true; reflexivity
        | exists true, true, true; reflexivity ].

(** X3.  The generator returns at most three insights: at most one of each of
    the types [high_spending], [cash_flow] and [positive], in this order,
    and never one of another type.  Each carries three suggestions; the one
    on the savings rate is an information, the others are warnings. *)
Theorem insights_shape (now : Z) (txs : list Transaction)
    (inc : IncomeAnalysis) (cats : list CategorySpending) (bal : number) :
  let l := generateInsights now txs inc cats bal in
  (exists spending timing saving : bool,
     map type l = insight_types spending timing saving) /\
  (List.length l <= 3)%nat /\
  Forall (fun i => List.length (actionable i) = 3%nat /\
                   severity i =
                     if is_positive (type i) then info else sev_warning) l.
Proof.
  intros l. subst l. unfold generateInsights. cbv zeta.
  destruct cats as [|top rest];
    [| destruct (percentage top >? num 30)%num ];
  (destruct (lastPaycheck inc) as [paycheck|];
    [ destruct (bal <? averageMonthly inc * dec 5 10)%num;
      [ destruct ((num now - getTime_of_day (pay_date paycheck)) / msPerDay
                  >? num 7)%num |] |]);
  (destruct (averageMonthly inc >? zero)%num;
    [ destruct ((totalIncome inc - sum_amounts (filter is_spending txs))
                / totalIncome inc * num 100 >? num 10)%num |]);
  (split; [pick_rules|]);
  (split; [cbn [app List.length]; lia|]);
  cbn [app]; repeat constructor.
Qed.

End InsightProps.

(* ================================================================== *)
(** * Further properties: the savings insight and the savings rate *)
(* ================================================================== *)

Module CompositionProps.

Import Analyzer Spec MoreSpec NumFacts SortFacts GroupFacts.

Local Open Scope Q_scope.

(** ** Sums of positive numbers *)









End CompositionProps.

(* ================================================================== *)
(** * Further properties: the ranking of the categories *)
(* ================================================================== *)

Module CategoryRankProps.

Import Analyzer Spec MoreSpec NumFacts SortFacts GroupFacts CategoryProps.

Local Open Scope Q_scope.

(** The category records come in descending order of total. *)
Lemma analyzeCategorySpending_sorted (txs : list Transaction) :
  StronglySorted ranks_before (analyzeCategorySpending txs).
Proof.
  rewrite analyzeCategorySpending_unsorted.
  apply Sorted_StronglySorted.
  - intros a b c Hab Hbc. unfold ranks_before in *.
    now apply leb_trans with (total b).
  - apply Array_sort_Sorted with (P := fun c => is_nan (total c) = false).
    + intros x y Px Py H. rewrite sub_gtb_ltb in H.
      now apply ltb_false_leb.
    + intros x y Px Py H. rewrite sub_gtb_ltb in H. now apply ltb_leb.
    + apply Forall_forall. intros c Hc. apply in_map_iff in Hc.
      destruct Hc as [label [<- _]]. cbn [category_record total].
      apply nonneg_not_nan, sum_amounts_nonneg, category_members_spending.
Qed.

Lemma StronglySorted_split {A : Type} (R : A -> A -> Prop) (n : nat)
    (l : list A) :
  StronglySorted R l ->
  forall a b, In a (firstn n l) -> In b (skipn n l) -> R a b.
Proof.
  intros Hs. revert n. induction Hs as [|x l Hs IH Hall]; intros n a b Ha Hb.
  - rewrite firstn_nil in Ha. contradiction.
  - destruct n as [|n]; [contradiction|].
    cbn [firstn skipn] in Ha, Hb. destruct Ha as [<-|Ha].
    + rewrite Forall_forall in Hall. apply Hall.
      rewrite <- (firstn_skipn n l). apply in_or_app. now right.
    + now apply IH with n.
Qed.

(** X5.  The top categories of an analysis are at most seven, the first seven
    of the category list, and no category left out has a larger total than
    one that is shown. *)
Theorem top_categories_are_the_largest (Math_sqrt : number -> number)
    (now : Z) (txs : list Transaction) (accounts : list AccountBase) :
  let s := spending (analyzeFinances Math_sqrt now txs accounts) in
  (List.length (topCategories s) <= 7)%nat /\
  byCategory s = topCategories s ++ skipn 7 (byCategory s) /\
  (forall shown rest, In shown (topCategories s) ->
     In rest (skipn 7 (byCategory s)) ->
     (total rest <=? total shown)%num = true).
Proof.
  cbn [analyzeFinances spending topCategories byCategory].
  split; [apply firstn_le_length|].
  split; [symmetry; apply firstn_skipn|].
  intros shown rest Hs Hr.
  exact (StronglySorted_split 7 (analyzeCategorySpending_sorted txs)
           shown rest Hs Hr).
Qed.

(** X6.  The insight on high spending is given exactly when the first category
    of the list has a share above 30 percent; it then comes first among
    the insights, its title names that category, and no category has a
    larger total. *)
Theorem high_spending_names_the_largest_category
    (Math_sqrt : number -> number) (now : Z) (txs : list Transaction)
    (accounts : list AccountBase) :
  let r := analyzeFinances Math_sqrt now txs accounts in
  (has_type is_high_spending (insights r) =
     match byCategory (spending r) with
     | top :: _ => (percentage top >? num 30)%num
     | [] => false
     end) /\
  (forall top rest, byCategory (spending r) = top :: rest ->
     Forall (fun c => (total c <=? total top)%num = true) rest /\
     ((percentage top >? num 30)%num = true ->
      option_map title (hd_error (insights r)) =
        Some ("High " ++ category top ++ " Spending")%string)).
Proof.
  intros r. subst r.
  cbn [analyzeFinances spending byCategory insights].
  pose proof (analyzeCategorySpending_sorted txs) as Hsorted.
  unfold generateInsights. cbv zeta.
  set (inc := detectIncome Math_sqrt txs).
  set (bal := (totalIncome inc - _)%num).
  set (rate := ((_ / _) * num 100)%num).
  clearbody inc bal rate.
  destruct (analyzeCategorySpending txs) as [|top rest].
  - split; [|intros ? ? H; discriminate H].
    destruct (lastPaycheck inc) as [paycheck|];
      [ destruct (bal <? _)%num;
        [ destruct (_ >? num 7)%num |] |];
      (destruct (averageMonthly inc >? zero)%num;
        [ destruct (rate >? num 10)%num |]);
      reflexivity.
  - split.
    + destruct (percentage top >? num 30)%num;
      (destruct (lastPaycheck inc) as [paycheck|];
        [ destruct (bal <? _)%num;
          [ destruct (_ >? num 7)%num |] |]);
      (destruct (averageMonthly inc >? zero)%num;
        [ destruct (rate >? num 10)%num |]);
      reflexivity.
    + intros top' rest' H. injection H as <- <-.
      split; [now inversion Hsorted|].
      intros Hpct. rewrite Hpct.
      destruct (lastPaycheck inc) as [paycheck|];
        [ destruct (bal <? _)%num;
          [ destruct (_ >? num 7)%num |] |];
      (destruct (averageMonthly inc >? zero)%num;
        [ destruct (rate >? num 10)%num |]);
      reflexivity.
Qed.

(** ** Every purchase is counted once *)

Lemma Map_push_held {V : Type} (k : string) (v : V) (m : JS.Map V) :
  list_sum (map (fun e => List.length (snd e)) (JS.Map_push k v m)) =
  S (list_sum (map (fun e => List.length (snd e)) m)).
Proof.
  induction m as [|[k' vs] m IH]; cbn [JS.Map_push]; [reflexivity|].
  destruct (String.eqb k' k); simpl.
  - rewrite length_app. simpl. lia.
  - simpl in IH. rewrite IH. lia.
Qed.

Lemma group_into_held {V : Type} (key : V -> string) (l : list V)
    (m : JS.Map V) :
  list_sum (map (fun e => List.length (snd e)) (group_into key m l)) =
  (List.length l + list_sum (map (fun e => List.length (snd e)) m))%nat.
Proof.
  revert m. induction l as [|v l IH]; intros m; [reflexivity|].
  unfold group_into in *. cbn [fold_left List.length].
  rewrite IH, Map_push_held. lia.
Qed.

Lemma list_sum_Permutation (l l' : list nat) :
  Permutation l l' -> list_sum l = list_sum l'.
Proof. induction 1; simpl; lia. Qed.

(** X7.  The category list has one record per label; the records together hold
    as many transactions as there are purchases, and every purchase is in
    the record of its label. *)
Theorem every_purchase_in_one_category (txs : list Transaction) :
  let result := analyzeCategorySpending txs in
  NoDup (map category result) /\
  held result = List.length (filter is_spending txs) /\
  (forall t, In t txs -> is_spending t = true ->
     exists c, In c result /\ category c = category_of t /\
               In t (transactions c)).
Proof.
  intros result. split; [|split].
  - subst result. rewrite analyzeCategorySpending_unsorted.
    eapply Permutation_NoDup.
    + apply Permutation_map, Array_sort_perm.
    + rewrite map_map. cbn [category_record category]. rewrite map_id.
      apply fold_note_key_NoDup. constructor.
  - subst result. unfold held, analyzeCategorySpending. cbv zeta.
    rewrite <- (list_sum_Permutation
                  (Permutation_map _ (Array_sort_perm _ _))).
    rewrite map_map.
    change (fold_left (fun m txn => JS.Map_push (category_of txn) txn m)
                      (filter is_spending txs) [])
      with (group_into category_of [] (filter is_spending txs)).
    rewrite (map_ext _ (fun e : string * list Transaction =>
                          List.length (snd e))) by (now intros [k vs]).
    rewrite group_into_held. simpl. lia.
  - intros t Ht Hs. subst result.
    rewrite analyzeCategorySpending_unsorted.
    exists (category_record txs (category_of t)).
    split; [|split; [reflexivity|]].
    + apply Array_sort_In, in_map. apply labels_in_order_iff.
      exists t. tauto.
    + cbn [category_record transactions].
      unfold category_members, members.
      apply filter_In. split; [apply filter_In; tauto|].
      apply String.eqb_refl.
Qed.

End CategoryRankProps.

(* ================================================================== *)
(** * Further properties: the last pay check *)
(* ================================================================== *)

Module PaycheckProps.

Import Analyzer Spec MoreSpec NumFacts.

Lemma StronglySorted_filter {A : Type} (R : A -> A -> Prop)
    (f : A -> bool) (l : list A) :
  StronglySorted R l -> StronglySorted R (filter f l).
Proof.
  induction 1 as [|x l Hs IH Hall]; cbn [filter]; [constructor|].
  destruct (f x); [|exact IH].
  constructor; [exact IH|].
  rewrite Forall_forall in *. intros y Hy. apply filter_In in Hy.
  apply Hall. tauto.
Qed.

(** X8.  On a list that runs from the newest transaction to the oldest, the
    last pay check of the income analysis is an income transaction of the
    list that no other income transaction is dated after; without income
    there is none. *)
Theorem last_paycheck_is_latest_income (Math_sqrt : number -> number)
    (txs : list Transaction) (Hnewest : newest_first txs) :
  match lastPaycheck (detectIncome Math_sqrt txs) with
  | Some paycheck =>
      exists t, In t txs /\ is_income t = true /\
                paycheck = paycheck_of t /\
                forall u, In u txs -> is_income u = true ->
                          (date u <= date t)%Z
  | None => forall u, In u txs -> is_income u = false
  end.
Proof.
  pose proof (StronglySorted_filter is_income Hnewest) as Hs.
  unfold detectIncome. fold is_income.
  destruct (filter is_income txs) as [|t inc] eqn:E;
    cbn [List.length Nat.eqb lastPaycheck].
  - intros u Hu. destruct (is_income u) eqn:Eu; [|reflexivity].
    assert (Hin : In u (filter is_income txs)) by (apply filter_In; tauto).
    rewrite E in Hin. contradiction.
  - assert (Ht : In t (filter is_income txs)) by (rewrite E; now left).
    apply filter_In in Ht. exists t.
    split; [tauto|]. split; [tauto|]. split; [reflexivity|].
    intros u Hu Eu.
    assert (Hin : In u (filter is_income txs)) by (apply filter_In; tauto).
    rewrite E in Hin. destruct Hin as [<-|Hin]; [lia|].
    inversion Hs as [|? ? _ Hall]; subst.
    rewrite Forall_forall in Hall. now apply Hall.
Qed.

Lemma last_paycheck_is_latest_income_witness :
  newest_first MoreSamples.statement /\
  match lastPaycheck (detectIncome sqrt_down MoreSamples.statement) with
  | Some paycheck =>
      exists t, In t MoreSamples.statement /\ is_income t = true /\
                paycheck = paycheck_of t /\
                forall u, In u MoreSamples.statement ->
                          is_income u = true -> (date u <= date t)%Z
  | None => forall u, In u MoreSamples.statement -> is_income u = false
  end.
Proof.
  assert (H : newest_first MoreSamples.statement).
  { unfold newest_first, MoreSamples.statement.
    repeat first [ apply SSorted_cons | apply SSorted_nil
                 | apply Forall_cons | apply Forall_nil
                 | apply Z.leb_le; reflexivity ]. }
  split; [exact H|].
  exact (last_paycheck_is_latest_income sqrt_down H).
Defined.

End PaycheckProps.

(* ================================================================== *)
(** * Further properties: the list of subscriptions *)
(* ================================================================== *)

Module SubscriptionListProps.

Import Subscriptions Categories Spec SubscriptionSpec MoreSpec NumFacts
  SortFacts GroupFacts.

Local Open Scope Q_scope.

(** ** One record per merchant *)

Lemma analyzeMerchant_name (Math_sqrt : number -> number)
    (merchant : string) (txns : list Transaction) (p : SubscriptionPattern) :
  analyzeMerchant Math_sqrt (merchant, txns) = Some p ->
  merchantName p = merchant.
Proof.
  intros H. apply SubscriptionProps.analyzeMerchant_Some in H.
  destruct H as (first & rest & Ha). destruct Ha as [_ _ _ _ _ _ _ ->].
  reflexivity.
Qed.

Lemma collect_names (Math_sqrt : number -> number)
    (groups : JS.Map Transaction) :
  NoDup (map fst groups) ->
  NoDup (map merchantName (collect Math_sqrt groups)).
Proof.
  induction groups as [|[merchant txns] groups IH]; cbn [collect map fst];
    intros Hn; [constructor|].
  inversion Hn as [|? ? Hnotin Hn']; subst.
  destruct (analyzeMerchant Math_sqrt (merchant, txns)) as [s|] eqn:E;
    [|now apply IH].
  cbn [map]. constructor; [|now apply IH].
  rewrite (analyzeMerchant_name _ _ _ E). intros Hin. apply Hnotin.
  apply in_map_iff in Hin. destruct Hin as (p & Hname & Hp).
  apply SubscriptionProps.collect_In in Hp.
  destruct Hp as ([merchant' txns'] & Hin & He).
  apply analyzeMerchant_name in He. subst.
  apply in_map_iff. exists (merchantName p, txns'). split; [reflexivity|].
  exact Hin.
Qed.

(** X9.  The list holds at most one record per merchant, and none for a
    merchant whose normalised name contains a name of the block list. *)
Theorem one_pattern_per_merchant (Math_sqrt : number -> number)
    (txs : list Transaction) :
  let result := detectSubscriptionDrift Math_sqrt txs in
  NoDup (map merchantName result) /\
  (forall p blocked, In p result -> In blocked nonSubscriptionMerchants ->
     String_includes (merchantName p) blocked = false).
Proof.
  intros result. split.
  - subst result. unfold detectSubscriptionDrift.
    destruct (List.length txs =? 0)%nat; [constructor|].
    eapply Permutation_NoDup.
    + apply Permutation_map, Array_sort_perm.
    + apply collect_names.
      rewrite SubscriptionProps.merchantGroups_grouping.
      apply group_into_NoDup.
  - intros p blocked Hp Hb.
    apply SubscriptionProps.detectSubscriptionDrift_In in Hp.
    destruct Hp as (merchant & txns & first & rest & _ & Ha).
    destruct Ha as [_ _ _ Hm _ _ _ ->]. cbn [merchantName].
    destruct (String_includes merchant blocked) eqn:E; [|reflexivity].
    assert (Hex : existsb (fun name => String_includes merchant name)
                          nonSubscriptionMerchants = true).
    { apply existsb_exists. exists blocked. split; assumption. }
    rewrite Hex in Hm. discriminate Hm.
Qed.

(** ** A record stands for all the charges of its merchant *)

Lemma last_nonempty {A : Type} (y : A) (l : list A) (x x' : A) :
  last (y :: l) x = last (y :: l) x'.
Proof.
  revert y. induction l as [|z l IH]; intros y; [reflexivity|].
  change (last (y :: z :: l) x) with (last (z :: l) x).
  change (last (y :: z :: l) x') with (last (z :: l) x').
  apply IH.
Qed.

Lemma last_of_sorted (x : Transaction) (l : list Transaction) :
  StronglySorted (fun a b => (date a <= date b)%Z) (x :: l) ->
  In (last (x :: l) x) (x :: l) /\
  forall t, In t (x :: l) -> (date t <= date (last (x :: l) x))%Z.
Proof.
  revert x. induction l as [|y l IH]; intros x Hs.
  - cbn [last]. split; [now left|]. intros t [<-|[]]. lia.
  - inversion Hs as [|? ? Hs' Hall]; subst.
    destruct (IH y Hs') as [Hin Hmax].
    change (last (x :: y :: l) x) with (last (y :: l) x).
    assert (Hlast : last (y :: l) x = last (y :: l) y)
      by apply last_nonempty.
    rewrite Hlast. split; [now right|].
    intros t [<-|Ht]; [|now apply Hmax].
    rewrite Forall_forall in Hall.
    apply Z.le_trans with (date y); [apply Hall; now left|].
    apply Hmax. now left.
Qed.

(** X10.  The identifiers of a record are those of all the debits of its
    merchant in the input; its last charge is the date of one of them, and
    none of them is dated later. *)
Theorem subscription_covers_all_charges (Math_sqrt : number -> number)
    (txs : list Transaction) (p : SubscriptionPattern) :
  In p (detectSubscriptionDrift Math_sqrt txs) ->
  let charges := charges_of (merchantName p) txs in
  Permutation (map PlaidTypes.transaction_id charges) (transactionIds p) /\
  (exists t, In t charges /\ date t = lastCharge p) /\
  (forall t, In t charges -> (date t <= lastCharge p)%Z).
Proof.
  intros Hin. apply SubscriptionProps.detectSubscriptionDrift_In in Hin.
  destruct Hin as (merchant & txns & first & rest & Hgroup & Ha).
  destruct Ha as [Hsorted _ _ _ _ _ _ ->].
  cbv zeta. cbn [merchantName transactionIds lastCharge].
  set (charges := charges_of merchant txs).
  assert (Hcharges : txns = charges).
  { rewrite SubscriptionProps.merchantGroups_grouping in Hgroup.
    apply group_into_members in Hgroup. destruct Hgroup as [-> _].
    unfold members, charges, charges_of. apply CategoryProps.filter_filter. }
  assert (Hperm : Permutation charges (first :: rest)).
  { rewrite <- Hcharges, <- Hsorted. apply Array_sort_perm. }
  pose proof (CadenceProps.sorted_by_date txns) as Hs.
  change (Array_sort Analyzer.by_date txns)
    with (Array_sort by_date txns) in Hs.
  rewrite Hsorted in Hs.
  destruct (last_of_sorted Hs) as [Hlast Hmax].
  split; [now apply Permutation_map|]. split.
  - exists (last (first :: rest) first). split; [|reflexivity].
    eapply Permutation_in; [apply Permutation_sym; exact Hperm | exact Hlast].
  - intros t Ht. apply Hmax. eapply Permutation_in; eassumption.
Qed.

Lemma subscription_covers_all_charges_witness :
  exists p,
    In p (detectSubscriptionDrift sqrt_down MoreSamples.two_services) /\
    Permutation
      (map PlaidTypes.transaction_id
           (charges_of (merchantName p) MoreSamples.two_services))
      (transactionIds p) /\
    (forall t, In t (charges_of (merchantName p) MoreSamples.two_services) ->
               (date t <= lastCharge p)%Z).
Proof.
  destruct (detectSubscriptionDrift sqrt_down MoreSamples.two_services)
    as [|p others] eqn:E; [vm_compute in E; discriminate E|].
  assert (Hp : In p (detectSubscriptionDrift sqrt_down
                       MoreSamples.two_services))
    by (rewrite E; left; reflexivity).
  destruct (subscription_covers_all_charges sqrt_down
              MoreSamples.two_services p Hp) as (Hids & _ & Hmax).
  exists p. rewrite <- E. split; [exact Hp|]. split; [exact Hids|exact Hmax].
Defined.

(** ** The order of the list *)










End SubscriptionListProps.

(* ================================================================== *)
(** * Further properties: cadence by span and count *)
(* ================================================================== *)

Module SpanProps.

Import Spec MoreSpec NumFacts SortFacts.

Local Open Scope Z_scope.

(** ** The gaps of a list of days add up to its last day minus its first *)

Lemma fold_day_gaps (l : list Z) (a acc : Z) :
  fold_left Z.add (day_gaps (a :: l)) acc = acc + (last (a :: l) a - a).
Proof.
  revert a acc. induction l as [|b l IH]; intros a acc.
  - cbn [day_gaps fold_left last]. lia.
  - change (day_gaps (a :: b :: l)) with ((b - a) :: day_gaps (b :: l)).
    cbn [fold_left]. rewrite IH.
    change (last (a :: b :: l) a) with (last (b :: l) a).
    rewrite (SubscriptionListProps.last_nonempty b l a b). lia.
Qed.

Lemma last_map {A B : Type} (f : A -> B) (l : list A) (x : A) :
  last (map f l) (f x) = f (last l x).
Proof.
  induction l as [|y [|z l] IH]; try reflexivity.
  change (last (map f (y :: z :: l)) (f x))
    with (last (map f (z :: l)) (f x)).
  change (last (y :: z :: l) x) with (last (z :: l) x). exact IH.
Qed.

(** ** The earliest and the latest day *)

Lemma fold_max_bounds (l : list Z) (a : Z) :
  In (fold_left Z.max l a) (a :: l) /\
  forall d, In d (a :: l) -> d <= fold_left Z.max l a.
Proof.
  revert a. induction l as [|b l IH]; intros a; cbn [fold_left].
  - split; [now left|]. intros d [Hd|[]]. lia.
  - destruct (IH (Z.max a b)) as [Hin Hmax]. split.
    + destruct Hin as [Heq|Hin]; [|right; now right].
      rewrite <- Heq. destruct (Z.max_spec a b) as [[_ ->]|[_ ->]];
        [right; now left | now left].
    + intros d [Hd|[Hd|Hd]].
      * apply Z.le_trans with (Z.max a b); [lia | apply Hmax; now left].
      * apply Z.le_trans with (Z.max a b); [lia | apply Hmax; now left].
      * apply Hmax. now right.
Qed.

Lemma fold_min_bounds (l : list Z) (a : Z) :
  In (fold_left Z.min l a) (a :: l) /\
  forall d, In d (a :: l) -> fold_left Z.min l a <= d.
Proof.
  revert a. induction l as [|b l IH]; intros a; cbn [fold_left].
  - split; [now left|]. intros d [Hd|[]]. lia.
  - destruct (IH (Z.min a b)) as [Hin Hmin]. split.
    + destruct Hin as [Heq|Hin]; [|right; now right].
      rewrite <- Heq. destruct (Z.min_spec a b) as [[_ ->]|[_ ->]];
        [now left | right; now left].
    + intros d [Hd|[Hd|Hd]].
      * apply Z.le_trans with (Z.min a b); [apply Hmin; now left | lia].
      * apply Z.le_trans with (Z.min a b); [apply Hmin; now left | lia].
      * apply Hmin. now right.
Qed.

Lemma latest_day_bounds (t : Transaction) (ts : list Transaction) :
  In (latest_day (t :: ts)) (map date (t :: ts)) /\
  forall d, In d (map date (t :: ts)) -> d <= latest_day (t :: ts).
Proof. apply fold_max_bounds. Qed.

Lemma earliest_day_bounds (t : Transaction) (ts : list Transaction) :
  In (earliest_day (t :: ts)) (map date (t :: ts)) /\
  forall d, In d (map date (t :: ts)) -> earliest_day (t :: ts) <= d.
Proof. apply fold_min_bounds. Qed.

(** The span is the same for two lists with the same days. *)
Lemma day_span_days (txs txs' : list Transaction) :
  (forall d, In d (map date txs) <-> In d (map date txs')) ->
  day_span txs = day_span txs'.
Proof.
  intros Hsame. unfold day_span.
  destruct txs as [|t ts], txs' as [|t' ts'].
  - reflexivity.
  - exfalso. apply (Hsame (date t')). now left.
  - exfalso. apply (Hsame (date t)). now left.
  - destruct (latest_day_bounds t ts) as [H1 H2].
    destruct (latest_day_bounds t' ts') as [H1' H2'].
    destruct (earliest_day_bounds t ts) as [H3 H4].
    destruct (earliest_day_bounds t' ts') as [H3' H4'].
    apply Hsame in H1, H3. apply Hsame in H1', H3'.
    specialize (H2 _ H1'). specialize (H2' _ H1).
    specialize (H4 _ H3'). specialize (H4' _ H3). lia.
Qed.

(** ** The average gap of the sorted days *)

Lemma sorted_days_ends (txs : list Transaction) (first : Transaction)
    (rest : list Transaction) :
  Array_sort Analyzer.by_date txs = first :: rest ->
  date (last (first :: rest) first) - date first = day_span txs.
Proof.
  intros Hsorted.
  pose proof (CadenceProps.sorted_by_date txs) as Hs. rewrite Hsorted in Hs.
  destruct (SubscriptionListProps.last_of_sorted Hs) as [Hlast Hmax].
  assert (Hin : forall u, In u (first :: rest) <-> In u txs)
    by (intros u; rewrite <- Hsorted; apply Array_sort_In).
  destruct txs as [|t ts]; [exfalso; apply (Hin first); now left|].
  unfold day_span.
  destruct (latest_day_bounds t ts) as [H1 H2].
  destruct (earliest_day_bounds t ts) as [H3 H4].
  apply in_map_iff in H1. destruct H1 as (u & Hu & Huin).
  apply in_map_iff in H3. destruct H3 as (v & Hv & Hvin).
  apply Hin in Huin, Hvin.
  assert (Hfirst : date first <= date v).
  { destruct Hvin as [<-|Hvin]; [lia|].
    inversion Hs as [|? ? _ Hall]; subst.
    rewrite Forall_forall in Hall. now apply Hall. }
  specialize (Hmax u Huin).
  assert (Hl : date (last (first :: rest) first) <= latest_day (t :: ts)).
  { apply H2, in_map, Hin, Hlast. }
  assert (He : earliest_day (t :: ts) <= date first).
  { apply H4, in_map, Hin. now left. }
  lia.
Qed.

Lemma average_gap_by_span (txs : list Transaction) :
  (2 <= List.length txs)%nat ->
  average_gap (sorted_days txs) =
  (inject_Z (day_span txs) / inject_Z (gap_count txs))%Q.
Proof.
  intros Hlen. unfold average_gap, gap_count.
  rewrite CadenceProps.day_gaps_length.
  unfold sorted_days at 2. rewrite length_map, Array_sort_length.
  replace (Z.of_nat (pred (List.length txs)))
    with (Z.of_nat (List.length txs) - 1) by lia.
  f_equal. f_equal. unfold sorted_days, sum_Z.
  destruct (Array_sort Analyzer.by_date txs) as [|first rest] eqn:Hsorted.
  - apply (f_equal (@List.length _)) in Hsorted.
    rewrite Array_sort_length in Hsorted. cbn [List.length] in Hsorted. lia.
  - cbn [map]. rewrite fold_day_gaps.
    change (date first :: map date rest) with (map date (first :: rest)).
    rewrite last_map, (sorted_days_ends _ Hsorted). lia.
Qed.

Lemma in_bandb_span (lo hi s g : Z) :
  0 < g ->
  in_bandb lo hi (inject_Z s / inject_Z g) =
  ((lo * g <=? s) && (s <=? hi * g)).
Proof.
  intros Hg.
  assert (Hq : (0 < inject_Z g)%Q)
    by (change 0%Q with (inject_Z 0); now rewrite <- Zlt_Qlt).
  unfold in_bandb. f_equal.
  - destruct (lo * g <=? s) eqn:E.
    + apply Z.leb_le in E. apply Qle_bool_iff.
      apply Qle_shift_div_l; [exact Hq|].
      rewrite <- inject_Z_mult, <- Zle_Qle. exact E.
    + apply Z.leb_gt in E. apply not_true_iff_false. intros H.
      apply Qle_bool_iff in H.
      apply (Qmult_le_compat_r _ _ (inject_Z g)) in H;
        [|now apply Qlt_le_weak].
      unfold Qdiv in H. rewrite <- Qmult_assoc in H.
      rewrite (Qmult_comm (/ inject_Z g)), Qmult_inv_r, Qmult_1_r in H
        by (intros Hz; rewrite Hz in Hq; now apply Qlt_irrefl in Hq).
      rewrite <- inject_Z_mult, <- Zle_Qle in H. lia.
  - destruct (s <=? hi * g) eqn:E.
    + apply Z.leb_le in E. apply Qle_bool_iff.
      apply Qle_shift_div_r; [exact Hq|].
      rewrite <- inject_Z_mult, <- Zle_Qle. exact E.
    + apply Z.leb_gt in E. apply not_true_iff_false. intros H.
      apply Qle_bool_iff in H.
      apply (Qmult_le_compat_r _ _ (inject_Z g)) in H;
        [|now apply Qlt_le_weak].
      unfold Qdiv in H. rewrite <- Qmult_assoc in H.
      rewrite (Qmult_comm (/ inject_Z g)), Qmult_inv_r, Qmult_1_r in H
        by (intros Hz; rewrite Hz in Hq; now apply Qlt_irrefl in Hq).
      rewrite <- inject_Z_mult, <- Zle_Qle in H. lia.
Qed.

Lemma bands_by_span (lo hi : Z) (txs : list Transaction) :
  (2 <= List.length txs)%nat ->
  in_bandb lo hi (average_gap (sorted_days txs)) = span_within lo hi txs.
Proof.
  intros Hlen. rewrite (average_gap_by_span _ Hlen).
  apply in_bandb_span. unfold gap_count. lia.
Qed.

Lemma detectors_by_span (txs : list Transaction) :
  Analyzer.detectPaymentPattern txs = income_cadence_by_span txs /\
  Subscriptions.fp_frequency (Subscriptions.detectFrequencyPattern txs) =
    subscription_cadence_by_span txs.
Proof.
  unfold income_cadence_by_span, subscription_cadence_by_span.
  destruct (List.length txs <? 2)%nat eqn:E.
  - unfold Analyzer.detectPaymentPattern,
      Subscriptions.detectFrequencyPattern. rewrite E. split; reflexivity.
  - apply Nat.ltb_ge in E.
    rewrite (CadenceProps.detectPaymentPattern_cadence _ E),
            (CadenceProps.detectFrequencyPattern_cadence _ E).
    unfold income_cadence, subscription_cadence.
    rewrite !(fun lo hi => bands_by_span lo hi _ E). split; reflexivity.
Qed.

(** X17.  Both cadence detectors look at three things only: how many
    transactions there are, the day of the earliest and the day of the
    latest.  With fewer than two transactions the cadence is irregular;
    otherwise it is the band that holds the span in days, counted per gap
    (monthly from 25 to 35 days per gap, and so on).  The order of the
    input does not matter. *)
Theorem cadence_from_span_and_count (txs : list Transaction) :
  Analyzer.detectPaymentPattern txs = income_cadence_by_span txs /\
  Subscriptions.fp_frequency (Subscriptions.detectFrequencyPattern txs) =
    subscription_cadence_by_span txs /\
  (forall txs', Permutation txs txs' ->
     Analyzer.detectPaymentPattern txs' = Analyzer.detectPaymentPattern txs /\
     Subscriptions.fp_frequency (Subscriptions.detectFrequencyPattern txs') =
     Subscriptions.fp_frequency (Subscriptions.detectFrequencyPattern txs)).
Proof.
  destruct (detectors_by_span txs) as [Hi Hs].
  split; [exact Hi|]. split; [exact Hs|].
  intros txs' Hperm. destruct (detectors_by_span txs') as [Hi' Hs'].
  rewrite Hi, Hs, Hi', Hs'.
  assert (Hlen : List.length txs' = List.length txs)
    by (symmetry; now apply Permutation_length).
  assert (Hspan : day_span txs' = day_span txs).
  { apply day_span_days. intros d. split; apply Permutation_in;
      apply Permutation_map; [apply Permutation_sym|]; exact Hperm. }
  unfold income_cadence_by_span, subscription_cadence_by_span, span_within,
    gap_count.
  rewrite Hlen, Hspan. split; reflexivity.
Qed.

End SpanProps.

(* ================================================================== *)
(** * Further properties: merchant names *)
(* ================================================================== *)

Module MerchantNameProps.

Import Subscriptions MoreSpec.

Local Open Scope string_scope.

(** ** Characters *)

Lemma alnum_facts (c : ascii) :
  alnum c = true ->
  is_space c = false /\ Ascii.eqb c " " = false /\ lower_char c = c /\
  is_lower c || is_digit c || is_space c = true.
Proof.
  intros H.
  destruct c as [[|] [|] [|] [|] [|] [|] [|] [|]];
    vm_compute in H; try discriminate H; vm_compute; repeat split.
Qed.

Lemma space_or_alnum (c : ascii) :
  is_lower c || is_digit c || is_space c = true ->
  alnum c = true \/ is_space c = true.
Proof.
  unfold alnum. destruct (is_lower c || is_digit c); [now left|].
  intros H. now right.
Qed.

(** ** The stages of the normalisation *)

Lemma strip_chars (s : string) :
  all_chars (fun c => is_lower c || is_digit c || is_space c)
            (strip_non_alnum s) = true.
Proof.
  induction s as [|c s IH]; [reflexivity|]. cbn [strip_non_alnum].
  destruct (is_lower c || is_digit c || is_space c) eqn:E; [|exact IH].
  cbn [all_chars]. now rewrite E.
Qed.

Lemma collapse_shape (s : string) :
  all_chars (fun c => is_lower c || is_digit c || is_space c) s = true ->
  (collapse_spaces_from true s = "" \/
   pretidy (collapse_spaces_from true s)) /\
  (collapse_spaces_from false s = collapse_spaces_from true s \/
   collapse_spaces_from false s = String " " (collapse_spaces_from true s)).
Proof.
  induction s as [|c s IH]; [intros _; split; left; reflexivity|].
  cbn [all_chars]. intros H. apply andb_true_iff in H. destruct H as [Hc Hs].
  specialize (IH Hs). destruct IH as [Ht Hf].
  cbn [collapse_spaces_from].
  destruct (space_or_alnum c Hc) as [Ha|Hsp].
  - destruct (alnum_facts c Ha) as (Hns & _). rewrite Hns.
    split; [|now left]. right.
    destruct Hf as [->| ->]; destruct Ht as [->|Ht];
      auto using pretidy_one, pretidy_end, pretidy_cons, pretidy_space.
  - rewrite Hsp. split; [exact Ht | now right].
Qed.

Lemma trim_start_pretidy (s : string) : pretidy s -> trim_start s = s.
Proof.
  intros H. inversion H as [c Hc|c Hc|c s' Hc _|c s' Hc _]; subst;
    cbn [trim_start]; destruct (alnum_facts c Hc) as (-> & _); reflexivity.
Qed.

Lemma tidy_nonempty (s : string) : tidy s -> s <> "".
Proof. intros H. inversion H; discriminate. Qed.

Lemma trim_end_cons (c : ascii) (s : string) :
  trim_end s <> "" -> trim_end (String c s) = String c (trim_end s).
Proof.
  intros H. cbn [trim_end]. destruct (trim_end s); [congruence|reflexivity].
Qed.

Lemma trim_end_pretidy (s : string) : pretidy s -> tidy (trim_end s).
Proof.
  induction 1 as [c Hc|c Hc|c s Hc Hs IH|c s Hc Hs IH];
    destruct (alnum_facts c Hc) as (Hns & _).
  - cbn [trim_end]. rewrite Hns. now apply tidy_one.
  - cbn [trim_end]. change (is_space " ") with true. cbv iota.
    rewrite Hns. now apply tidy_one.
  - rewrite trim_end_cons by now apply tidy_nonempty.
    now apply tidy_cons.
  - pose proof (tidy_nonempty IH) as Hne.
    rewrite trim_end_cons; rewrite trim_end_cons; try assumption;
      try discriminate.
    now apply tidy_space.
Qed.

Lemma trim_end_tidy (s : string) : tidy s -> trim_end s = s.
Proof.
  induction 1 as [c Hc|c s Hc Hs IH|c s Hc Hs IH];
    destruct (alnum_facts c Hc) as (Hns & _).
  - cbn [trim_end]. now rewrite Hns.
  - pose proof (tidy_nonempty Hs) as Hne.
    rewrite trim_end_cons; rewrite IH; auto.
  - pose proof (tidy_nonempty Hs) as Hne.
    rewrite trim_end_cons; rewrite trim_end_cons; rewrite ?IH; auto;
      discriminate.
Qed.

Lemma trim_start_tidy (s : string) : tidy s -> trim_start s = s.
Proof.
  intros H. inversion H as [c Hc|c s' Hc _|c s' Hc _]; subst;
    cbn [trim_start]; destruct (alnum_facts c Hc) as (-> & _); reflexivity.
Qed.

Lemma collapse_true_tidy (s : string) :
  tidy s -> collapse_spaces_from true s = collapse_spaces_from false s.
Proof.
  intros H. inversion H as [c Hc|c s' Hc _|c s' Hc _]; subst;
    cbn [collapse_spaces_from]; destruct (alnum_facts c Hc) as (-> & _);
    reflexivity.
Qed.

Lemma collapse_tidy (s : string) : tidy s -> collapse_spaces s = s.
Proof.
  unfold collapse_spaces.
  induction 1 as [c Hc|c s Hc Hs IH|c s Hc Hs IH];
    destruct (alnum_facts c Hc) as (Hns & _);
    cbn [collapse_spaces_from]; rewrite Hns.
  - reflexivity.
  - now rewrite IH.
  - change (is_space " ") with true. cbv iota.
    now rewrite (collapse_true_tidy Hs), IH.
Qed.

Lemma strip_tidy (s : string) : tidy s -> strip_non_alnum s = s.
Proof.
  induction 1 as [c Hc|c s Hc Hs IH|c s Hc Hs IH];
    destruct (alnum_facts c Hc) as (_ & _ & _ & Hok);
    cbn [strip_non_alnum]; rewrite Hok.
  - reflexivity.
  - now rewrite IH.
  - change (is_lower " " || is_digit " " || is_space " ") with true.
    cbv iota. now rewrite IH.
Qed.

Lemma lower_tidy (s : string) : tidy s -> toLowerCase s = s.
Proof.
  induction 1 as [c Hc|c s Hc Hs IH|c s Hc Hs IH];
    destruct (alnum_facts c Hc) as (_ & _ & Hl & _);
    cbn [toLowerCase]; rewrite Hl.
  - reflexivity.
  - now rewrite IH.
  - change (lower_char " ") with " "%char. now rewrite IH.
Qed.

(** ** Words *)

Lemma word_cons (c : ascii) (w : string) :
  alnum c = true -> all_chars alnum w = true -> word (String c w).
Proof.
  intros Hc Hw. split; [discriminate|]. cbn [all_chars]. now rewrite Hc.
Qed.

Lemma join_cons (c : ascii) (w : string) (ws : list string) :
  join_space (String c w :: ws) = String c (join_space (w :: ws)).
Proof. destruct ws; reflexivity. Qed.

(** A tidy text splits into its words, and they join back to it. *)
Lemma split_tidy (s : string) :
  tidy s ->
  exists w ws, split_space s = w :: ws /\ word w /\ Forall word ws /\
               join_space (w :: ws) = s.
Proof.
  induction 1 as [c Hc|c s Hc Hs IH|c s Hc Hs IH];
    destruct (alnum_facts c Hc) as (_ & Hsp & _).
  - exists (String c ""), []. cbn [split_space]. rewrite Hsp.
    split; [reflexivity|]. split; [now apply word_cons|].
    split; [constructor | reflexivity].
  - destruct IH as (w & ws & Hsplit & Hw & Hws & Hjoin).
    exists (String c w), ws. cbn [split_space]. rewrite Hsp, Hsplit.
    split; [reflexivity|].
    split; [apply word_cons; [exact Hc | apply Hw]|].
    split; [exact Hws|]. now rewrite join_cons, Hjoin.
  - destruct IH as (w & ws & Hsplit & Hw & Hws & Hjoin).
    exists (String c ""), (w :: ws). cbn [split_space]. rewrite Hsp.
    change (Ascii.eqb " " " ") with true. cbv iota. rewrite Hsplit.
    split; [reflexivity|]. split; [now apply word_cons|].
    split; [now constructor|].
    change (join_space (String c "" :: w :: ws))
      with (String c (String " " (join_space (w :: ws)))).
    now rewrite Hjoin.
Qed.

Lemma split_letters (w : string) :
  all_chars alnum w = true -> split_space w = [w].
Proof.
  induction w as [|c w IH]; [reflexivity|]. cbn [all_chars]. intros H.
  apply andb_true_iff in H. destruct H as [Hc Hw].
  destruct (alnum_facts c Hc) as (_ & Hsp & _).
  cbn [split_space]. now rewrite Hsp, (IH Hw).
Qed.

Lemma split_two (w1 w2 : string) :
  all_chars alnum w1 = true ->
  split_space (w1 ++ " " ++ w2) = w1 :: split_space w2.
Proof.
  induction w1 as [|c w IH]; [reflexivity|]. cbn [all_chars]. intros H.
  apply andb_true_iff in H. destruct H as [Hc Hw].
  destruct (alnum_facts c Hc) as (_ & Hsp & _).
  cbn [append split_space]. rewrite Hsp.
  cbn [append] in IH. now rewrite (IH Hw).
Qed.

Lemma word_tidy (w : string) : word w -> tidy w.
Proof.
  intros [Hne Hall]. induction w as [|c w IH]; [congruence|].
  cbn [all_chars] in Hall. apply andb_true_iff in Hall.
  destruct Hall as [Hc Hw].
  destruct w as [|d w']; [now apply tidy_one|].
  apply tidy_cons; [exact Hc|]. apply IH; [discriminate | exact Hw].
Qed.

Lemma two_words_tidy (w1 w2 : string) :
  word w1 -> word w2 -> tidy (w1 ++ " " ++ w2).
Proof.
  intros [Hne Hall] H2. induction w1 as [|c w IH]; [congruence|].
  cbn [all_chars] in Hall. apply andb_true_iff in Hall.
  destruct Hall as [Hc Hw].
  destruct w as [|d w'].
  - cbn [append]. apply tidy_space; [exact Hc | now apply word_tidy].
  - change (String c (String d w') ++ " " ++ w2)
      with (String c (String d w' ++ " " ++ w2)).
    apply tidy_cons; [exact Hc|]. apply IH; [discriminate | exact Hw].
Qed.

(** The text that is split into words is empty or tidy. *)
Lemma trimmed_shape (name : string) :
  let s := trim (collapse_spaces (strip_non_alnum (toLowerCase name))) in
  s = "" \/ tidy s.
Proof.
  cbv zeta. unfold trim, collapse_spaces.
  destruct (collapse_shape _ (strip_chars (toLowerCase name))) as [Ht Hf].
  set (t := collapse_spaces_from true _) in *.
  assert (Hstart : trim_start (collapse_spaces_from false
                     (strip_non_alnum (toLowerCase name))) = t).
  { destruct Hf as [->| ->].
    - destruct Ht as [->|Ht]; [reflexivity | now apply trim_start_pretidy].
    - cbn [trim_start]. change (is_space " ") with true. cbv iota.
      destruct Ht as [->|Ht]; [reflexivity | now apply trim_start_pretidy]. }
  rewrite Hstart. destruct Ht as [->|Ht]; [now left|].
  right. now apply trim_end_pretidy.
Qed.

Lemma normalize_tidy (s : string) (ws : list string) :
  tidy s -> split_space s = ws -> join_space (firstn 2 ws) = s ->
  normalizeMerchantName s = s.
Proof.
  intros Hs Hsplit Hjoin. unfold normalizeMerchantName, trim.
  rewrite (lower_tidy Hs), (strip_tidy Hs), (collapse_tidy Hs),
    (trim_start_tidy Hs), (trim_end_tidy Hs), Hsplit.
  exact Hjoin.
Qed.

(** X18.  A normalised merchant name is empty, one word or two words with one
    space between them, where a word is made of lower-case letters and
    digits.  Normalising it again changes nothing, and two names that
    differ in the case of their letters only have the same normal form. *)
Theorem normalized_name_is_canonical (name : string) :
  let out := normalizeMerchantName name in
  (out = "" \/ word out \/
   exists w1 w2, word w1 /\ word w2 /\ out = w1 ++ " " ++ w2) /\
  normalizeMerchantName out = out /\
  (forall other, toLowerCase other = toLowerCase name ->
     normalizeMerchantName other = out).
Proof.
  cbv zeta.
  assert (Hshape :
    normalizeMerchantName name = "" \/ word (normalizeMerchantName name) \/
    exists w1 w2, word w1 /\ word w2 /\
                  normalizeMerchantName name = w1 ++ " " ++ w2).
  { unfold normalizeMerchantName.
    destruct (trimmed_shape name) as [E|Ht]; cbv zeta in *.
    - rewrite E. now left.
    - destruct (split_tidy Ht) as (w & ws & -> & Hw & Hws & _).
      destruct ws as [|w2 ws]; [right; left; exact Hw|].
      right. right. exists w, w2. inversion Hws; subst.
      split; [exact Hw|]. split; [assumption | reflexivity]. }
  split; [exact Hshape|]. split.
  - destruct Hshape as [->|[Hw|(w1 & w2 & H1 & H2 & ->)]].
    + reflexivity.
    + apply (@normalize_tidy _ [normalizeMerchantName name]).
      * now apply word_tidy.
      * apply split_letters, Hw.
      * reflexivity.
    + apply (@normalize_tidy _ [w1; w2]).
      * now apply two_words_tidy.
      * rewrite split_two by apply H1. f_equal. apply split_letters, H2.
      * reflexivity.
  - intros other Hother. unfold normalizeMerchantName. now rewrite Hother.
Qed.

End MerchantNameProps.

(* ================================================================== *)
(** * Further properties: the spending of a period *)
(* ================================================================== *)

Module PeriodProps.

Import Analyzer Spec MoreSpec NumFacts SortFacts.

Lemma In_firstn {A : Type} (n : nat) (l : list A) (x : A) :
  In x (firstn n l) -> In x l.
Proof.
  intros H. rewrite <- (firstn_skipn n l). apply in_or_app. now left.
Qed.

Lemma StronglySorted_firstn {A : Type} (R : A -> A -> Prop) (n : nat)
    (l : list A) :
  StronglySorted R l -> StronglySorted R (firstn n l).
Proof.
  intros Hs. revert n. induction Hs as [|x l Hs IH Hall]; intros n.
  - rewrite firstn_nil. constructor.
  - destruct n as [|n]; [constructor|]. cbn [firstn].
    constructor; [apply IH|].
    rewrite Forall_forall in *. intros y Hy. apply Hall.
    now apply In_firstn with n.
Qed.

Lemma NoDup_firstn {A : Type} (n : nat) (l : list A) :
  NoDup l -> NoDup (firstn n l).
Proof.
  intros Hn. revert n. induction Hn as [|x l Hx Hn IH]; intros n.
  - rewrite firstn_nil. constructor.
  - destruct n as [|n]; [constructor|]. cbn [firstn].
    constructor; [|apply IH]. intros Hin. apply Hx.
    now apply In_firstn with n.
Qed.

(** Dropping elements keeps their keys distinct. *)
Lemma filter_keeps_keys_distinct {V K : Type} (key : V -> K)
    (keep : V -> bool) (vs : list V) (Hdistinct : NoDup (map key vs)) :
  NoDup (map key (filter keep vs)).
Proof.
  induction vs as [|v vs IH]; cbn [map filter] in *; [constructor|].
  inversion Hdistinct as [|? ? Hv Hrest]; subst.
  destruct (keep v); [|now apply IH].
  cbn [map]. constructor; [|now apply IH].
  intros Hin. apply Hv. apply in_map_iff in Hin.
  destruct Hin as (y & Hy & Hin). apply filter_In in Hin.
  apply in_map_iff. exists y. tauto.
Qed.

Lemma positive_not_nan (x : number) :
  (x >? zero)%num = true -> is_nan x = false.
Proof. destruct x; try discriminate; reflexivity. Qed.

(** The shares of a period, for any list of category records: at most
    six, in descending order of total, each with a positive total that is
    the sum of the recent transactions of one of the records. *)
Lemma calculateSpendingByPeriod_shares (cutoff : Z)
    (cats : list CategorySpending) :
  let r := Comprehensive.calculateSpendingByPeriod cutoff cats in
  (List.length r <= 6)%nat /\
  StronglySorted shares_before r /\
  (NoDup (map category cats) -> NoDup (map Comprehensive.category r)) /\
  (forall s, In s r ->
     (Comprehensive.total s >? zero)%num = true /\
     exists cat, In cat cats /\
       Comprehensive.category s = category cat /\
       Comprehensive.total s =
         sum_amounts (filter (recent cutoff) (transactions cat))).
Proof.
  cbv zeta. unfold Comprehensive.calculateSpendingByPeriod. cbv zeta.
  set (recents := map _ cats).
  set (filtered := filter _ recents).
  set (totalSpending := fold_left _ filtered zero).
  set (shares := map _ filtered).
  assert (Hshare : forall s, In s shares ->
            (Comprehensive.total s >? zero)%num = true /\
            exists cat, In cat cats /\
              Comprehensive.category s = category cat /\
              Comprehensive.total s =
                sum_amounts (filter (recent cutoff) (transactions cat))).
  { intros s Hs. apply in_map_iff in Hs. destruct Hs as (c & <- & Hc).
    apply filter_In in Hc. destruct Hc as [Hc Hpos].
    apply in_map_iff in Hc. destruct Hc as (cat & <- & Hcat).
    cbn [Comprehensive.total Comprehensive.category Comprehensive.with_total
         total category] in *.
    split; [exact Hpos|]. exists cat. repeat split. exact Hcat. }
  split; [apply firstn_le_length|]. split; [|split].
  - apply StronglySorted_firstn, Sorted_StronglySorted.
    + intros a b c Hab Hbc. unfold shares_before in *.
      now apply CategoryProps.leb_trans with (Comprehensive.total b).
    + apply Array_sort_Sorted
        with (P := fun s => is_nan (Comprehensive.total s) = false).
      * intros x y Px Py H. rewrite sub_gtb_ltb in H.
        now apply CategoryProps.ltb_false_leb.
      * intros x y Px Py H. rewrite sub_gtb_ltb in H.
        now apply CategoryProps.ltb_leb.
      * apply Forall_forall. intros s Hs.
        apply positive_not_nan, Hshare, Hs.
  - intros Hn. rewrite <- firstn_map. apply NoDup_firstn.
    eapply Permutation_NoDup;
      [apply Permutation_map, Array_sort_perm|].
    unfold shares. rewrite map_map. cbn [Comprehensive.category].
    apply filter_keeps_keys_distinct. unfold recents. rewrite map_map.
    cbn [Comprehensive.with_total category]. exact Hn.
  - intros s Hs. apply Hshare.
    apply (Array_sort_In
             (fun a b => (Comprehensive.total b - Comprehensive.total a)%num)).
    now apply In_firstn with 6%nat.
Qed.

(** X19.  The breakdown of a period that the analysis route computes from the
    category list: at most six shares, one per label at most, in
    descending order of total; the total of a share is the sum of the
    purchases of its label made in the period, and it is positive, so a
    label without a purchase in the period is left out. *)
Theorem period_breakdown_of_analysis (cutoff : Z) (txs : list Transaction) :
  let r := Comprehensive.calculateSpendingByPeriod cutoff
             (analyzeCategorySpending txs) in
  (List.length r <= 6)%nat /\
  NoDup (map Comprehensive.category r) /\
  StronglySorted shares_before r /\
  (forall s, In s r ->
     Comprehensive.total s =
       sum_amounts (period_purchases cutoff (Comprehensive.category s) txs) /\
     (Comprehensive.total s >? zero)%num = true /\
     (period_purchases cutoff (Comprehensive.category s) txs <> [])%type).
Proof.
  cbv zeta.
  destruct (calculateSpendingByPeriod_shares cutoff
              (analyzeCategorySpending txs)) as (Hlen & Hsorted & Hnd & Hin).
  cbv zeta in *.
  split; [exact Hlen|]. split; [|split; [exact Hsorted|]].
  - apply Hnd. rewrite CategoryProps.analyzeCategorySpending_unsorted.
    eapply Permutation_NoDup;
      [apply Permutation_map, Array_sort_perm|].
    rewrite map_map. cbn [category_record category]. rewrite map_id.
    apply GroupFacts.fold_note_key_NoDup. constructor.
  - intros s Hs. destruct (Hin s Hs) as (Hpos & cat & Hcat & Hname & Htotal).
    assert (Hrecent : filter (recent cutoff) (transactions cat) =
                      period_purchases cutoff (Comprehensive.category s) txs).
    { rewrite CategoryProps.analyzeCategorySpending_unsorted in Hcat.
      apply Array_sort_In, in_map_iff in Hcat.
      destruct Hcat as (label & <- & _).
      cbn [category_record transactions category] in *. rewrite Hname.
      unfold category_members, members, period_purchases.
      rewrite !CategoryProps.filter_filter. apply filter_ext.
      intros t. now rewrite andb_assoc. }
    rewrite <- Hrecent, <- Htotal. split; [reflexivity|].
    split; [exact Hpos|].
    intros Hnil. rewrite Htotal, Hnil in Hpos. discriminate Hpos.
Qed.

End PeriodProps.

(* ================================================================== *)
(** * Further properties: the period summary of the coach *)
(* ================================================================== *)

Module CoachProps.

Import Analyzer Spec MoreSpec NumFacts SortFacts GroupFacts.

(** ** The totals object *)

Lemma Totals_get_set (k k' : string) (v : number) (o : Coach.Totals) :
  Coach.Totals_get k' (Coach.Totals_set k v o) =
  if String.eqb k k' then Some v else Coach.Totals_get k' o.
Proof.
  induction o as [|[k0 v0] o IH]; cbn [Coach.Totals_set Coach.Totals_get].
  - reflexivity.
  - destruct (String.eqb k0 k) eqn:E0; cbn [Coach.Totals_get].
    + apply String.eqb_eq in E0. subst k0.
      destruct (String.eqb k k'); reflexivity.
    + rewrite IH. destruct (String.eqb k0 k') eqn:E1; [|reflexivity].
      apply String.eqb_eq in E1. subst k0. now rewrite String.eqb_sym, E0.
Qed.

Lemma Totals_set_keys (k : string) (v : number) (o : Coach.Totals) :
  map fst (Coach.Totals_set k v o) = note_key (map fst o) k.
Proof.
  unfold note_key.
  induction o as [|[k0 v0] o IH]; cbn [Coach.Totals_set map fst existsb];
    [reflexivity|].
  rewrite (String.eqb_sym k k0).
  destruct (String.eqb k0 k); cbn [map fst orb]; [reflexivity|].
  rewrite IH. destruct (existsb (String.eqb k) (map fst o)); reflexivity.
Qed.

Lemma Totals_get_In (k : string) (v : number) (o : Coach.Totals) :
  NoDup (map fst o) -> In (k, v) o -> Coach.Totals_get k o = Some v.
Proof.
  induction o as [|[k0 v0] o IH]; cbn [map fst Coach.Totals_get];
    intros Hn Hin; [contradiction|].
  inversion Hn as [|? ? Hnotin Hn']; subst.
  destruct Hin as [Heq|Hin].
  - inversion Heq; subst. now rewrite String.eqb_refl.
  - destruct (String.eqb k0 k) eqn:E; [|now apply IH].
    apply String.eqb_eq in E. subst k0. exfalso. apply Hnotin.
    apply in_map_iff. exists (k, v). split; [reflexivity | exact Hin].
Qed.

Lemma sum_amounts_snoc (g : list Transaction) (t : Transaction) :
  sum_amounts (g ++ [t]) = (sum_amounts g + amount t)%num.
Proof. unfold sum_amounts. now rewrite fold_left_app. Qed.

Lemma or_zero_positive (x : number) :
  (x >? zero)%num = true -> Coach.or_zero (Some x) = x.
Proof.
  intros H. unfold Coach.or_zero.
  rewrite (positive_not_zero _ H), (PeriodProps.positive_not_nan _ H).
  reflexivity.
Qed.

(** After the loop the object holds, for every code met, the sum of the
    amounts met with that code, and nothing for any other code. *)
Lemma totals_of_debits (l : list Transaction) :
  Forall (fun t => is_spending t = true) l ->
  let o := fold_left add_to_totals l [] in
  NoDup (map fst o) /\
  forall k, Coach.Totals_get k o =
    match members Coach.primary_or_other k l with
    | [] => None
    | g => Some (sum_amounts g)
    end.
Proof.
  cbv zeta. induction l as [|t l IH] using rev_ind; intros Hall.
  - split; [constructor | reflexivity].
  - apply Forall_app in Hall. destruct Hall as [Hl Ht].
    inversion Ht as [|? ? Hpos _]; subst.
    destruct (IH Hl) as [Hn Hget]. rewrite fold_left_app.
    cbn [fold_left]. set (o := fold_left add_to_totals l []) in *.
    unfold add_to_totals. split.
    + rewrite Totals_set_keys. now apply note_key_NoDup.
    + intros k. rewrite Totals_get_set. unfold members in *.
      rewrite filter_app. cbn [filter].
      destruct (String.eqb (Coach.primary_or_other t) k) eqn:E.
      * apply String.eqb_eq in E. subst k. rewrite Hget.
        destruct (filter _ l) as [|x g] eqn:Eg; [reflexivity|].
        rewrite <- Eg at 1.
        assert (Hsum : (sum_amounts (x :: g) >? zero)%num = true).
        { apply CategoryProps.sum_amounts_positive; [discriminate|].
          apply Forall_forall. intros u Hu. rewrite <- Eg in Hu.
          apply filter_In in Hu. rewrite Forall_forall in Hl.
          apply Hl. tauto. }
        rewrite Eg, (or_zero_positive _ Hsum), <- sum_amounts_snoc.
        reflexivity.
      * rewrite app_nil_r. apply Hget.
Qed.

(** X20.  The period summary of the coach route, for transactions whose
    category codes are codes of the taxonomy: the total is the sum of the
    debits made in the period; there are at most five categories, one per
    code at most, in descending order of amount, and the amount of each is
    the sum of the debits of its code made in the period, which is
    positive. *)
Theorem period_spending_by_code (cutoff : Z) (txs : list Transaction)
    (months : number)
    (Hcodes : Forall (fun t => code_like (Coach.primary_or_other t) = true)
                     txs) :
  let r := Coach.calculatePeriodSpending cutoff txs months in
  Coach.totalSpending r = sum_amounts (filter (Coach.in_period cutoff) txs) /\
  (List.length (Coach.categories r) <= 5)%nat /\
  NoDup (map Coach.category (Coach.categories r)) /\
  StronglySorted amounts_before (Coach.categories r) /\
  (forall c, In c (Coach.categories r) ->
     Coach.amount c =
       sum_amounts (period_debits cutoff (Coach.category c) txs) /\
     (Coach.amount c >? zero)%num = true).
Proof.
  cbv zeta. unfold Coach.calculatePeriodSpending. cbv zeta.
  cbn [Coach.totalSpending Coach.categories].
  set (filtered := filter (Coach.in_period cutoff) txs).
  set (total := fold_left _ filtered zero).
  change (fold_left _ filtered []) with (fold_left add_to_totals filtered []).
  assert (Hdebits : Forall (fun t => is_spending t = true) filtered).
  { apply Forall_forall. intros t Ht. apply filter_In in Ht.
    destruct Ht as [_ Ht]. unfold Coach.in_period in Ht.
    apply andb_true_iff in Ht. apply Ht. }
  destruct (totals_of_debits Hdebits) as [Hn Hget]. cbv zeta in *.
  set (o := fold_left add_to_totals filtered []) in *.
  set (entries := map _ o).
  assert (Hentry : forall c, In c entries ->
            Coach.amount c =
              sum_amounts (period_debits cutoff (Coach.category c) txs) /\
            (Coach.amount c >? zero)%num = true).
  { intros c Hc. apply in_map_iff in Hc. destruct Hc as ([k v] & <- & Hin).
    cbn [Coach.amount Coach.category].
    pose proof (Totals_get_In k v o Hn Hin) as Hk. rewrite Hget in Hk.
    assert (Hmem : members Coach.primary_or_other k filtered =
                   period_debits cutoff k txs)
      by apply CategoryProps.filter_filter.
    rewrite Hmem in Hk.
    destruct (period_debits cutoff k txs) as [|x g] eqn:Eg; [discriminate|].
    inversion Hk; subst. split; [reflexivity|].
    apply CategoryProps.sum_amounts_positive; [discriminate|].
    apply Forall_forall. intros u Hu. rewrite <- Eg in Hu.
    apply filter_In in Hu. destruct Hu as [_ Hu].
    apply andb_true_iff in Hu. destruct Hu as [Hu _].
    unfold Coach.in_period in Hu. apply andb_true_iff in Hu. apply Hu. }
  split; [reflexivity|]. split; [apply firstn_le_length|]. split; [|split].
  - rewrite <- firstn_map. apply PeriodProps.NoDup_firstn.
    eapply Permutation_NoDup;
      [apply Permutation_map, Array_sort_perm|].
    unfold entries. rewrite map_map.
    rewrite (map_ext _ fst) by (now intros [k v]). exact Hn.
  - apply PeriodProps.StronglySorted_firstn, Sorted_StronglySorted.
    + intros a b c Hab Hbc. unfold amounts_before in *.
      now apply CategoryProps.leb_trans with (Coach.amount b).
    + apply Array_sort_Sorted
        with (P := fun c => is_nan (Coach.amount c) = false).
      * intros x y Px Py H. rewrite sub_gtb_ltb in H.
        now apply CategoryProps.ltb_false_leb.
      * intros x y Px Py H. rewrite sub_gtb_ltb in H.
        now apply CategoryProps.ltb_leb.
      * apply Forall_forall. intros c Hc.
        apply PeriodProps.positive_not_nan, Hentry, Hc.
  - intros c Hc. apply Hentry.
    apply (Array_sort_In
             (fun a b => (Coach.amount b - Coach.amount a)%num)).
    now apply PeriodProps.In_firstn with 5%nat.
Qed.

Lemma period_spending_by_code_witness :
  map Coach.category
      (Coach.categories
         (Coach.calculatePeriodSpending 0 Samples.purchases (num 3))) =
    ["DINING"; "FOOD_RETAIL"; "ENTERTAINMENT"; "Other"] /\
  StronglySorted amounts_before
    (Coach.categories
       (Coach.calculatePeriodSpending 0 Samples.purchases (num 3))).
Proof.
  split; [reflexivity|].
  apply period_spending_by_code.
  unfold Samples.purchases. repeat constructor.
Defined.

End CoachProps.

(* ================================================================== *)
(** * Further properties: the health score without purchases *)
(* ================================================================== *)

Module NoPurchaseProps.

Import Analyzer Spec MoreSpec NumFacts.

Local Open Scope Q_scope.

Lemma month_count_finite (a b : Z) :
  exists m,
    Math_max (num 1)
      ((getTime_of_day a - getTime_of_day b)
       / num (1000 * 60 * 60 * 24 * 30))%num
    = Fin m /\ 1 <= m.
Proof.
  unfold getTime_of_day, num, sub, neg, add, div.
  change (1000 * 60 * 60 * 24 * 30)%Z with 2592000000%Z.
  change (Qeq_bool (inject_Z 2592000000) 0) with false.
  unfold Math_max, ltb.
  match goal with |- context [Qltb ?x ?y] => destruct (Qltb x y) eqn:E end.
  - eexists. split; [reflexivity|]. apply Qltb_lt in E.
    unfold inject_Z in E at 1. lra.
  - exists (inject_Z 1). split; [reflexivity|]. unfold inject_Z. lra.
Qed.







End NoPurchaseProps.

(* ================================================================== *)
(** * Further properties: the health score and the balance *)
(* ================================================================== *)

Module BalanceProps.

Import Analyzer Spec MoreSpec NumFacts.

Local Open Scope Q_scope.

(** A test [balance / monthlySpending >= c] that holds for a balance that
    is not negative holds for every larger balance, when the monthly
    spending is not negative. *)
Lemma ratio_test_mono (ms b1 b2 : number) (c : Q) :
  nonneg ms -> 0 < c ->
  (b1 <? zero)%num = false -> (b1 <=? b2)%num = true ->
  (b1 / ms >=? Fin c)%num = true -> (b2 / ms >=? Fin c)%num = true.
Proof.
  intros Hms Hc Hb Hle.
  destruct ms as [s| | |]; try contradiction; cbn [nonneg] in Hms;
    destruct b1 as [x| | |], b2 as [y| | |]; try discriminate Hle;
    try discriminate Hb; unfold geb, leb, ltb, zero, div, signed_inf in *;
    intros H; qcases; try discriminate; try reflexivity; try lra.
  all: exfalso;
    match goal with
    | Hx : ?c <= ?x / ?s, Hy : ?y / ?s < ?c |- _ =>
        apply (Qlt_not_le _ _ Hy); apply Qle_trans with (x / s);
        [ exact Hx
        | apply Qmult_le_compat_r;
          [assumption | apply Qinv_le_0_compat; assumption] ]
    end.
Qed.

Lemma monthly_spending_nonneg (spending : number) (m : Q) :
  nonneg spending -> 1 <= m -> nonneg (spending / Fin m)%num.
Proof.
  intros Hs Hm. destruct spending as [s| | |]; try contradiction;
    cbn [nonneg] in Hs; unfold div, signed_inf.
  - destruct (Qeq_bool m 0) eqn:E; [apply Qeq_bool_iff in E; lra|].
    cbn [nonneg]. apply Qle_shift_div_l; lra.
  - destruct (Qle_bool 0 m) eqn:E; [exact I|].
    apply Qle_bool_gt in E. lra.
Qed.

(** X22.  For a given income analysis and a spending total that is not
    negative, a larger balance never gives a lower score. *)
Theorem more_balance_never_lowers_score (income : IncomeAnalysis)
    (spending lower higher : number)
    (Hspending : nonneg spending)
    (Hle : (lower <=? higher)%num = true) :
  (score (calculateCashFlowHealth income spending lower)
   <=? score (calculateCashFlowHealth income spending higher))%num = true.
Proof.
  destruct (lower <? zero)%num eqn:H1; destruct (higher <? zero)%num eqn:H2.
  - rewrite !CashFlowProps.negative_balance_score by assumption.
    now apply CashFlowProps.deficit_score_mono.
  - destruct (HealthProps.negative_balance_outcome income spending lower H1)
      as (k1 & -> & Hk1 & _).
    destruct (HealthProps.nonnegative_balance_outcome income spending
                higher H2) as (k2 & -> & Hk2 & _).
    apply num_leb. lia.
  - rewrite (CashFlowProps.leb_ltb_trans _ _ _ Hle H2) in H1. discriminate.
  - unfold calculateCashFlowHealth. rewrite H1, H2. cbv zeta.
    set (ratio := if (averageMonthly income >? zero)%num then _ else _).
    assert (Hms : exists m, 1 <= m /\
              Math_max (num 1)
                (if (0 <? List.length (incomeTransactions income))%nat
                 then ((Math_max_of (map getTime (incomeTransactions income))
                        - Math_min_of
                            (map getTime (incomeTransactions income)))
                       / num (1000 * 60 * 60 * 24 * 30))%num
                 else num 1) = Fin m).
    { destruct (incomeTransactions income) as [|t l].
      - exists (inject_Z 1). split; [unfold inject_Z; lra | reflexivity].
      - cbn [List.length Nat.ltb Nat.leb].
        rewrite IncomeProps.Math_max_of_getTime,
          IncomeProps.Math_min_of_getTime.
        destruct (NoPurchaseProps.month_count_finite
                    (latest_day (t :: l)) (earliest_day (t :: l)))
          as (m & Hm & Hge).
        exists m. split; assumption. }
    destruct Hms as (m & Hm & ->).
    pose proof (monthly_spending_nonneg spending Hspending Hm) as Hnn.
    set (ms := (spending / Fin m)%num) in *.
    assert (M2 := @ratio_test_mono ms lower higher (inject_Z 2) Hnn
                    eq_refl H1 Hle).
    assert (M1 := @ratio_test_mono ms lower higher (inject_Z 1) Hnn
                    eq_refl H1 Hle).
    assert (M05 := @ratio_test_mono ms lower higher (5 # 10) Hnn
                     eq_refl H1 Hle).
    fold (num 2) in M2. fold (num 1) in M1. fold (dec 5 10) in M05.
    clearbody ratio ms.
    destruct (lower / ms >=? num 2)%num;
      [rewrite (M2 eq_refl)
      | destruct (lower / ms >=? num 1)%num;
        [rewrite (M1 eq_refl)
        | destruct (lower / ms >=? dec 5 10)%num;
          [rewrite (M05 eq_refl)|] ] ];
    clear M2 M1 M05;
    (destruct (ratio >=? dec 15 10)%num;
      [| destruct (ratio >=? dec 12 10)%num;
        [| destruct (ratio >=? num 1)%num;
          [| destruct (ratio >=? dec 8 10)%num ] ] ]);
    (destruct (isVariable income); cbn [negb];
      [ destruct (variability income <? dec 3 10)%num;
        [| destruct (variability income <? dec 5 10)%num ] |]);
    repeat match goal with
    | |- context [(higher / ms >=? ?c)%num] =>
        destruct (higher / ms >=? c)%num
    end;
    reflexivity.
Qed.

Lemma more_balance_never_lowers_score_witness :
  (score (calculateCashFlowHealth Samples.steady_income (num 2000) (num 500))
   <=? score (calculateCashFlowHealth Samples.steady_income (num 2000)
                (num 4500)))%num = true.
Proof.
  apply more_balance_never_lowers_score; [|reflexivity].
  cbn [nonneg num]. unfold inject_Z. lra.
Defined.

End BalanceProps.
